(** * Sarufi: session orchestration and decision interpretation

    A shallow embedding of [src/core/sarufi.ts] (class [Sarufi]) and of the
    [Agent] class (the decision interpreter), followed by the properties of
    the specification that concern them.

    Conventions of the embedding.
    - A JavaScript [number] that holds a count (sessions, messages, clock
      readings in milliseconds) is a [Z]; a [number] that holds a measure
      (confidence, quality score, rates) is an IEEE 754 binary64 [float] with
      the primitive operations of the kernel, so rounding is the code's own.
    - A [Map<string, V>] is an association list in insertion order
      ([JSMap]); a [Record<string, any>] is a [gmap string Value].
    - [async] methods run sequentially: a call is a function from the state
      before to the outcome and the state after.  What the outside world
      supplies during a call (clock readings, random identifiers, the language
      model's answer) is an explicit argument.
    - A string is held in its UTF-8 encoding, as a literal of this file is (a
      lone surrogate as the three bytes of its code point).  [.length] counts
      the UTF-16 code units of the string, not its bytes: it is [JS.length].
      Where the source concatenates, a literal stands between any two variable
      strings, so the encoding of the result is the encodings appended.
    - Objects are values.  The source shares two of them by reference: the
      context stored in the session map, which the methods mutate in place
      (a mutation is an update of the map entry, and a reference is read
      through the map), and the [initialContext] of a caller, which becomes
      the [user_inputs] of the session; every [startSession] is taken to be
      given a plain object of its own, on which an assignment never throws. *)

From Stdlib Require DecimalFacts.
From Stdlib Require Import ZArith Floats Ascii DecimalString DecimalPos Lia.
From stdpp Require Import base option list gmap strings.

Set Warnings "-inexact-float,-register-all".

(** ** JavaScript primitives used by the source *)

Module JS.

(** ToBoolean on strings and numbers. *)
Definition truthy_string (s : string) : bool :=
  match s with
  | EmptyString => false
  | String _ _ => true
  end.

Definition truthy_number (x : float) : bool :=
  negb (PrimFloat.eqb x 0 || PrimFloat.is_nan x).

(** [x || d] on numbers. *)
Definition or_number (x d : float) : float :=
  if truthy_number x then x else d.

(** [s || d] where [s] may be [undefined]. *)
Definition or_string (s : option string) (d : string) : string :=
  match s with
  | Some t => if truthy_string t then t else d
  | None => d
  end.

(** A count as a [number] (exact below 2^53). *)
Definition Number_of_Z (z : Z) : float :=
  if (z <? 0)%Z
  then PrimFloat.opp (PrimFloat.of_uint63 (Uint63.of_Z (- z)))
  else PrimFloat.of_uint63 (Uint63.of_Z z).

Definition is_neg_zero (x : float) : bool :=
  match PrimFloat.classify x with
  | NZero => true
  | _ => false
  end.

(** [Math.max] and [Math.min] of two arguments: NaN is contagious and
    [+0] is larger than [-0]. *)
Definition Math_max (x y : float) : float :=
  if PrimFloat.is_nan x || PrimFloat.is_nan y then nan
  else if PrimFloat.ltb x y then y
  else if PrimFloat.ltb y x then x
  else if is_neg_zero x then y else x.

Definition Math_min (x y : float) : float :=
  if PrimFloat.is_nan x || PrimFloat.is_nan y then nan
  else if PrimFloat.ltb x y then x
  else if PrimFloat.ltb y x then y
  else if is_neg_zero x then x else y.

(** The values [Math.round] can return: every finite one is an integer,
    or the negative zero. *)
Inductive Integral :=
| INaN
| IInfinity (negative : bool)
| INegZero
| IInt (z : Z).

(** [floor (n * 2^e + 1/2)], in exact arithmetic. *)
Definition round_half_up (n e : Z) : Z :=
  if (0 <=? e)%Z then (n * 2 ^ e)%Z
  else ((2 * n + 2 ^ (- e)) / 2 ^ (- e + 1))%Z.

(** [Math.round x]: the integral number closest to [x], the one toward
    +infinity on a tie; [-0] for [-0.5 <= x <= -0]. *)
Definition Math_round (x : float) : Integral :=
  match Prim2SF x with
  | S754_nan => INaN
  | S754_infinity s => IInfinity s
  | S754_zero s => if s then INegZero else IInt 0
  | S754_finite s m e =>
      let n := if s then Z.neg m else Z.pos m in
      let z := round_half_up n e in
      if s && (z =? 0)%Z then INegZero else IInt z
  end.

(** Decimal digits of a natural number. *)
Definition digits (z : Z) : string := NilZero.string_of_int (Z.to_int z).

(** For an integral double [z > 2^53]: its significand and exponent. *)
Definition binade (z : Z) : Z * Z :=
  let e := (Z.log2 z - 52)%Z in ((z / 2 ^ e)%Z, e).

(** Does the real number [v] round to the double [z] (to nearest, ties to
    even)?  Bounds are doubled to stay in [Z]. *)
Definition rounds_to (z v : Z) : bool :=
  let '(m, e) := binade z in
  let below := if (m =? 2 ^ 52)%Z then (2 ^ (e - 1))%Z else (2 ^ e)%Z in
  let lo2 := (2 * z - below)%Z in
  let hi2 := (2 * z + 2 ^ e)%Z in
  if Z.even m
  then (lo2 <=? 2 * v)%Z && (2 * v <=? hi2)%Z
  else (lo2 <? 2 * v)%Z && (2 * v <? hi2)%Z.

(** Number::toString, step 5: the decimal with the fewest significant digits
    that still denotes [z], the closest one when several do.  [D] is the number
    of digits of [z], [ks] the candidate digit counts in increasing order. *)
Fixpoint shortest_from (z D : Z) (ks : list Z) : Z :=
  match ks with
  | [] => z
  | k :: ks' =>
      let p := (10 ^ (D - k))%Z in
      let v1 := (z / p * p)%Z in
      let v2 := (v1 + p)%Z in
      match rounds_to z v1, rounds_to z v2 with
      | true, true =>
          if (z - v1 <? v2 - z)%Z then v1
          else if (v2 - z <? z - v1)%Z then v2
          else if Z.even (z / p) then v1 else v2
      | true, false => v1
      | false, true => v2
      | false, false => shortest_from z D ks'
      end
  end.

Definition shortest (z : Z) : Z :=
  let D := Z.of_nat (String.length (digits z)) in
  shortest_from z D (filter (λ k, (k <= D)%Z) (Z.of_nat <$> seq 1 17)).

Fixpoint strip_trailing_zeros (s : string) : string :=
  match s with
  | EmptyString => EmptyString
  | String c t =>
      match strip_trailing_zeros t with
      | EmptyString => if Ascii.eqb c "0"%char then EmptyString else String c EmptyString
      | t' => String c t'
      end
  end.

(** Number::toString on the values of [Math.round]: an integer up to 2^53 is
    written with all its digits; above, the shortest decimal that denotes the
    double is padded with zeros up to 21 digits and written with an exponent
    beyond. *)
Definition Integral_toString (r : Integral) : string :=
  match r with
  | INaN => "NaN"
  | IInfinity false => "Infinity"
  | IInfinity true => "-Infinity"
  | INegZero => "0"
  | IInt z =>
      let a := Z.abs z in
      let sign := if (z <? 0)%Z then "-" else "" in
      if (a <=? 2 ^ 53)%Z then sign +:+ digits a
      else
        let ds := digits (shortest a) in
        let n := Z.of_nat (String.length ds) in
        if (n <=? 21)%Z then sign +:+ ds
        else
          match strip_trailing_zeros ds with
          | EmptyString => sign +:+ ds
          | String d1 EmptyString =>
              sign +:+ String d1 "e+" +:+ digits (n - 1)
          | String d1 rest =>
              sign +:+ String d1 "." +:+ rest +:+ "e+" +:+ digits (n - 1)
          end
  end.

(** [s.length]: the number of UTF-16 code units of the string [s]
    encodes.  A byte that continues a sequence adds nothing; a byte that starts
    one adds a unit, and two units when the sequence has four bytes, which
    encode a code point above U+FFFF, a surrogate pair in UTF-16. *)
Definition units_of_byte (c : ascii) : nat :=
  let b := N_of_ascii c in
  if (b <? 128)%N then 1
  else if (b <? 192)%N then 0
  else if (b <? 240)%N then 1
  else 2.

Fixpoint length (s : string) : nat :=
  match s with
  | EmptyString => 0
  | String c t => units_of_byte c + length t
  end.

End JS.

(** ** [Map<string, V>]: insertion-ordered, one entry per key *)

Module JSMap.
Section ops.
Context {V : Type}.

Fixpoint get (k : string) (m : list (string * V)) : option V :=
  match m with
  | [] => None
  | (k', v) :: m' => if decide (k = k') then Some v else get k m'
  end.

Definition has (k : string) (m : list (string * V)) : bool :=
  match get k m with
  | Some _ => true
  | None => false
  end.

(** [m.set(k, v)]: an existing key keeps its position. *)
Fixpoint set (k : string) (v : V) (m : list (string * V)) : list (string * V) :=
  match m with
  | [] => [(k, v)]
  | (k', v') :: m' =>
      if decide (k = k') then (k', v) :: m' else (k', v') :: set k v m'
  end.

Definition delete (k : string) (m : list (string * V)) : list (string * V) :=
  filter (λ kv, kv.1 ≠ k) m.

(** [Array.from(m.values())]. *)
Definition values (m : list (string * V)) : list V := m.*2.

Definition keys (m : list (string * V)) : list string := m.*1.

Definition size (m : list (string * V)) : nat := length m.

(** In-place mutation [f] of the object stored under [k]: the map holds
    references, so the change is seen by every later [get]. *)
Fixpoint alter (f : V → V) (k : string) (m : list (string * V)) : list (string * V) :=
  match m with
  | [] => []
  | (k', v) :: m' =>
      if decide (k = k') then (k', f v) :: m' else (k', v) :: alter f k m'
  end.
End ops.
End JSMap.

(** ** Data model ([src/types], [src/schemas/decision.schema.ts]) *)

(** A value of type [any] stored in a [Record<string, any>]. *)
Inductive Value :=
| VUndefined
| VNull
| VBool (b : bool)
| VNumber (x : float)
| VString (s : string)
| VArray (l : list Value)
| VObject (o : gmap string Value).

Definition VStrings (l : list string) : Value := VArray (VString <$> l).

Definition VOptString (s : option string) : Value :=
  match s with
  | Some t => VString t
  | None => VUndefined
  end.

Module LLMProvider.
Inductive t := openai | anthropic | google.
End LLMProvider.

Module Personality.
Record t := { tone : string; style : string; pace : string }.
End Personality.

Module Guidelines.
Record t := {
  must_do : list string;
  must_not_do : list string;
  prefer_to_do : list string;
  avoid_doing : list string
}.
End Guidelines.

Module Knowledge.
Record t := {
  key_info : list string;
  common_questions : list string;
  escalation_triggers : list string
}.
End Knowledge.

(** [Strategy].  The interface declares every field but [system_prompt]
    required; [registerStrategy] nevertheless tests [personality] and
    [guidelines] for presence, so a caller may leave them out and they are
    optional here. *)
Module Strategy.
Record t := {
  name : string;
  domain : string;
  primary_goal : string;
  secondary_goals : list string;
  llm_provider : LLMProvider.t;
  model : string;
  personality : option Personality.t;
  system_prompt : option string;
  guidelines : option Guidelines.t;
  knowledge : Knowledge.t
}.
End Strategy.

Module Status.
Inductive t := active | paused | completed | escalated.
#[global] Instance eq_dec : EqDecision t.
Proof. solve_decision. Defined.
End Status.

Module Role.
Inductive t := user | assistant | system.
#[global] Instance eq_dec : EqDecision t.
Proof. solve_decision. Defined.
End Role.

Module Message.
Record t := {
  id : string;
  role : Role.t;
  content : string;
  timestamp : Z
}.
End Message.

Module UserProfile.
Record t := {
  detected_intent : option string;
  sentiment : option string;
  expertise_level : option string
}.
Definition empty : t :=
  {| detected_intent := None; sentiment := None; expertise_level := None |}.
End UserProfile.

Module AgentMemory.
Record t := {
  last_action : string;
  reasoning_history : list string;
  failed_attempts : list string;
  successful_patterns : list string
}.
End AgentMemory.

Module SessionContext.
Record t := {
  session_id : string;
  user_id : string;
  strategy_name : string;
  status : Status.t;
  current_goal : string;
  messages_count : Z;
  user_inputs : gmap string Value;
  user_profile : UserProfile.t;
  messages : list Message.t;
  agent_memory : AgentMemory.t;
  created_at : Z;
  updated_at : Z
}.

(** Assignments to one field of the record. *)
Definition set_status (v : Status.t) (c : t) : t :=
  {| session_id := session_id c; user_id := user_id c;
     strategy_name := strategy_name c; status := v;
     current_goal := current_goal c; messages_count := messages_count c;
     user_inputs := user_inputs c; user_profile := user_profile c;
     messages := messages c; agent_memory := agent_memory c;
     created_at := created_at c; updated_at := updated_at c |}.

Definition set_messages_count (v : Z) (c : t) : t :=
  {| session_id := session_id c; user_id := user_id c;
     strategy_name := strategy_name c; status := status c;
     current_goal := current_goal c; messages_count := v;
     user_inputs := user_inputs c; user_profile := user_profile c;
     messages := messages c; agent_memory := agent_memory c;
     created_at := created_at c; updated_at := updated_at c |}.

Definition set_user_inputs (v : gmap string Value) (c : t) : t :=
  {| session_id := session_id c; user_id := user_id c;
     strategy_name := strategy_name c; status := status c;
     current_goal := current_goal c; messages_count := messages_count c;
     user_inputs := v; user_profile := user_profile c;
     messages := messages c; agent_memory := agent_memory c;
     created_at := created_at c; updated_at := updated_at c |}.

Definition set_messages (v : list Message.t) (c : t) : t :=
  {| session_id := session_id c; user_id := user_id c;
     strategy_name := strategy_name c; status := status c;
     current_goal := current_goal c; messages_count := messages_count c;
     user_inputs := user_inputs c; user_profile := user_profile c;
     messages := v; agent_memory := agent_memory c;
     created_at := created_at c; updated_at := updated_at c |}.

Definition set_updated_at (v : Z) (c : t) : t :=
  {| session_id := session_id c; user_id := user_id c;
     strategy_name := strategy_name c; status := status c;
     current_goal := current_goal c; messages_count := messages_count c;
     user_inputs := user_inputs c; user_profile := user_profile c;
     messages := messages c; agent_memory := agent_memory c;
     created_at := created_at c; updated_at := v |}.

(** [context.messages.push(m)]. *)
Definition push_message (m : Message.t) (c : t) : t :=
  set_messages (messages c ++ [m]) c.
End SessionContext.

(** *** The oracle's structured decision *)

Module GoalProgress.
Inductive t := not_started | in_progress | completed | blocked.
Definition to_string (x : t) : string :=
  match x with
  | not_started => "not_started"
  | in_progress => "in_progress"
  | completed => "completed"
  | blocked => "blocked"
  end.
End GoalProgress.

Module NextAction.
Inductive t :=
| ask_discovery_question
| provide_information
| handle_objection
| build_value
| qualify_further
| propose_next_step
| escalate
| close_session.
Definition to_string (x : t) : string :=
  match x with
  | ask_discovery_question => "ask_discovery_question"
  | provide_information => "provide_information"
  | handle_objection => "handle_objection"
  | build_value => "build_value"
  | qualify_further => "qualify_further"
  | propose_next_step => "propose_next_step"
  | escalate => "escalate"
  | close_session => "close_session"
  end.
End NextAction.

Module Urgency.
Inductive t := low | medium | high.
Definition to_string (x : t) : string :=
  match x with
  | low => "low"
  | medium => "medium"
  | high => "high"
  end.
End Urgency.

Module SessionStage.
Inductive t :=
| opening
| discovery
| qualification
| presentation
| objection_handling
| closing
| follow_up.
Definition to_string (x : t) : string :=
  match x with
  | opening => "opening"
  | discovery => "discovery"
  | qualification => "qualification"
  | presentation => "presentation"
  | objection_handling => "objection_handling"
  | closing => "closing"
  | follow_up => "follow_up"
  end.
End SessionStage.

Module Sentiment.
Inductive t := positive | neutral | negative | unknown.
Definition to_string (x : t) : string :=
  match x with
  | positive => "positive"
  | neutral => "neutral"
  | negative => "negative"
  | unknown => "unknown"
  end.
End Sentiment.

Module StrategyAnalysis.
Record t := {
  current_goal : string;
  goal_progress : GoalProgress.t;
  situation_assessment : string;
  relevant_guidelines : list string;
  opportunities : list string;
  risk_factors : list string
}.
Definition to_Value (a : t) : Value :=
  VObject (list_to_map [
    ("current_goal", VString (current_goal a));
    ("goal_progress", VString (GoalProgress.to_string (goal_progress a)));
    ("situation_assessment", VString (situation_assessment a));
    ("relevant_guidelines", VStrings (relevant_guidelines a));
    ("opportunities", VStrings (opportunities a));
    ("risk_factors", VStrings (risk_factors a))]).
End StrategyAnalysis.

Module FlowDecision.
Record t := {
  next_action : NextAction.t;
  reasoning : string;
  confidence : float;
  urgency : Urgency.t;
  backup_plan : string
}.
Definition to_Value (f : t) : Value :=
  VObject (list_to_map [
    ("next_action", VString (NextAction.to_string (next_action f)));
    ("reasoning", VString (reasoning f));
    ("confidence", VNumber (confidence f));
    ("urgency", VString (Urgency.to_string (urgency f)));
    ("backup_plan", VString (backup_plan f))]).
End FlowDecision.

Module ActionExecution.
Record t := {
  message : string;
  message_intent : string;
  expected_user_response : string;
  context_updates : gmap string Value;
  next_goal : string
}.
Definition to_Value (a : t) : Value :=
  VObject (list_to_map [
    ("message", VString (message a));
    ("message_intent", VString (message_intent a));
    ("expected_user_response", VString (expected_user_response a));
    ("context_updates", VObject (context_updates a));
    ("next_goal", VString (next_goal a))]).
End ActionExecution.

Module DecisionMeta.
Record t := {
  session_stage : SessionStage.t;
  user_sentiment : Sentiment.t;
  should_escalate : bool;
  escalation_reason : option string
}.
(** The object as the oracle gave it: the optional key is there when it has
    a value. *)
Definition to_Value (m : t) : Value :=
  VObject (list_to_map (
    [("session_stage", VString (SessionStage.to_string (session_stage m)));
     ("user_sentiment", VString (Sentiment.to_string (user_sentiment m)));
     ("should_escalate", VBool (should_escalate m))]
    ++ match escalation_reason m with
       | Some reason => [("escalation_reason", VString reason)]
       | None => []
       end)).
End DecisionMeta.

Module Decision.
Record t := {
  strategy_analysis : StrategyAnalysis.t;
  flow_decision : FlowDecision.t;
  action_execution : ActionExecution.t;
  meta : DecisionMeta.t
}.
(** The decision object itself, as stored under [last_decision]. *)
Definition to_Value (d : t) : Value :=
  VObject (list_to_map [
    ("strategy_analysis", StrategyAnalysis.to_Value (strategy_analysis d));
    ("flow_decision", FlowDecision.to_Value (flow_decision d));
    ("action_execution", ActionExecution.to_Value (action_execution d));
    ("meta", DecisionMeta.to_Value (meta d))]).
End Decision.

(** *** What the agent and the orchestrator return *)

Module Quality.
Inductive t := high | medium | low.
#[global] Instance eq_dec : EqDecision t.
Proof. solve_decision. Defined.
End Quality.

Module ResponseMeta.
Record t := {
  session_stage : string;
  user_sentiment : string;
  should_escalate : bool;
  decision_quality : Quality.t
}.
End ResponseMeta.

Module AgentResponse.
Record t := {
  message : string;
  action_taken : string;
  reasoning : string;
  confidence : float;
  context_updates : gmap string Value;
  suggested_next_user_action : option string;
  meta : option ResponseMeta.t
}.
End AgentResponse.

Module Session.
Record t := {
  session_id : string;
  initial_message : string;
  context : SessionContext.t
}.
(** The field [status] of a [Session] is the constant ['started']. *)
Definition status (_ : t) : string := "started".
End Session.

Module Output.
Record t := {
  message : string;
  session_id : string;
  agent_reasoning : option string;
  suggested_actions : option (list string);
  session_status : Status.t
}.
End Output.

(** A thrown value: an [Error] with its message, or anything else, which
    may still carry a [message] property. *)
Inductive Thrown :=
| ErrorObject (message : string)
| OtherValue (message : option string).

(** [error?.message] *)
Definition Thrown_message (e : Thrown) : option string :=
  match e with
  | ErrorObject m => Some m
  | OtherValue m => m
  end.

(** The outcome of a call that may throw. *)
Inductive Outcome (A : Type) :=
| Returned (a : A)
| Threw (e : Thrown).
Arguments Returned {A} a.
Arguments Threw {A} e.

(** [try { body } catch (error) { handler }] around a computation without
    other effects. *)
Definition try_catch {A : Type} (body : Outcome A) (handler : Thrown → A) : A :=
  match body with
  | Returned a => a
  | Threw e => handler e
  end.

Definition Outcome_bind {A B : Type} (x : Outcome A) (k : A → Outcome B) : Outcome B :=
  match x with
  | Returned a => k a
  | Threw e => Threw e
  end.

(** [{...target, k1: v1, ..., kn: vn}]: the properties are defined from left to
    right on a copy of [target]. *)
Definition with_properties (target : gmap string Value)
    (props : list (string * Value)) : gmap string Value :=
  foldl (λ o kv, <[kv.1 := kv.2]> o) target props.

(** [Object.assign(target, updates)]: a shallow overwrite, key by key. *)
Definition Object_assign (target updates : gmap string Value) : gmap string Value :=
  updates ∪ target.

(** ** The world during one agent turn

    [generateText] is the external oracle: it throws, or returns the tool calls
    of the round.  The input of a tool call is cast to [Decision] without a
    check; a payload that does not have the shape makes the interpreter throw
    when it is read, which [Malformed] records together with the value
    thrown.  A payload without the shape that is read without a throw (a
    confidence that is a string, say) has no value here: the properties below
    speak of decisions and of payloads whose reading throws. *)

Inductive Payload :=
| Conforming (d : Decision.t)
| Malformed (e : Thrown).

Module ToolCall.
Record t := { toolName : string; input : Payload }.
End ToolCall.

Inductive OracleRound :=
| OracleThrows (e : Thrown)
| OracleReturns (toolCalls : list ToolCall.t).

Module Turn.
Record t := {
  round : OracleRound;
  (** the readings of [new Date().toISOString()], in the order of the source *)
  last_decision_time : string;
  updated_at : string;
  error_timestamp : string
}.
End Turn.

(** ** The agent (decision interpreter) *)

Module Agent.

Record t := { strategy : Strategy.t }.

(** [new Agent(strategy)]; the model handle it also stores is used by the
    oracle call only. *)
Definition new (s : Strategy.t) : t := {| strategy := s |}.

Definition qualityScore (decision : Decision.t) : float :=
  let strategy_analysis := Decision.strategy_analysis decision in
  let flow_decision := Decision.flow_decision decision in
  let qualityScore := 0%float in
  let qualityScore :=
    if (0 <? length (StrategyAnalysis.relevant_guidelines strategy_analysis))%nat
    then PrimFloat.add qualityScore 0.3 else qualityScore in
  let qualityScore :=
    if PrimFloat.ltb 0.7 (FlowDecision.confidence flow_decision)
    then PrimFloat.add qualityScore 0.3 else qualityScore in
  let qualityScore :=
    if (0 <? length (StrategyAnalysis.opportunities strategy_analysis))%nat
       || (0 <? length (StrategyAnalysis.risk_factors strategy_analysis))%nat
    then PrimFloat.add qualityScore 0.2 else qualityScore in
  let qualityScore :=
    if (20 <? JS.length (FlowDecision.reasoning flow_decision))%nat
    then PrimFloat.add qualityScore 0.2 else qualityScore in
  qualityScore.

Definition evaluateDecisionQuality (decision : Decision.t) : Quality.t :=
  let qualityScore := qualityScore decision in
  if PrimFloat.leb 0.8 qualityScore then Quality.high
  else if PrimFloat.leb 0.5 qualityScore then Quality.medium
  else Quality.low.

Definition reasoning_fragments (decision : Decision.t) : list string :=
  let strategy_analysis := Decision.strategy_analysis decision in
  let flow_decision := Decision.flow_decision decision in
  let action_execution := Decision.action_execution decision in
  let meta := Decision.meta decision in
  [ "Analysis: " +:+ StrategyAnalysis.situation_assessment strategy_analysis;
    "Decision: " +:+ FlowDecision.reasoning flow_decision;
    "Action: " +:+ ActionExecution.message_intent action_execution;
    "Confidence: "
      +:+ JS.Integral_toString
            (JS.Math_round (PrimFloat.mul (FlowDecision.confidence flow_decision) 100))
      +:+ "%";
    "Stage: " +:+ SessionStage.to_string (DecisionMeta.session_stage meta) ].

(** The keys the interpreter derives from the decision, in source order. *)
Definition derived_properties (decision : Decision.t) (prompt : string)
    (context : SessionContext.t) (w : Turn.t) : list (string * Value) :=
  let strategy_analysis := Decision.strategy_analysis decision in
  let flow_decision := Decision.flow_decision decision in
  let action_execution := Decision.action_execution decision in
  let meta := Decision.meta decision in
  [ ("last_decision", Decision.to_Value decision);
    ("last_user_message", VString prompt);
    ("session_stage", VString (SessionStage.to_string (DecisionMeta.session_stage meta)));
    ("user_sentiment", VString (Sentiment.to_string (DecisionMeta.user_sentiment meta)));
    ("guidelines_considered", VStrings (StrategyAnalysis.relevant_guidelines strategy_analysis));
    ("opportunities_identified", VStrings (StrategyAnalysis.opportunities strategy_analysis));
    ("risks_identified", VStrings (StrategyAnalysis.risk_factors strategy_analysis));
    ("previous_goal", VString (SessionContext.current_goal context));
    ("current_goal", VString (ActionExecution.next_goal action_execution));
    ("goal_progress",
       VString (GoalProgress.to_string (StrategyAnalysis.goal_progress strategy_analysis)));
    ("decision_confidence", VNumber (FlowDecision.confidence flow_decision));
    ("backup_plan", VString (FlowDecision.backup_plan flow_decision));
    ("escalation_needed", VBool (DecisionMeta.should_escalate meta));
    ("escalation_reason", VOptString (DecisionMeta.escalation_reason meta));
    ("last_decision_time", VString (Turn.last_decision_time w));
    ("updated_at", VString (Turn.updated_at w)) ].

Definition interpretDecision (decision : Decision.t) (prompt : string)
    (context : SessionContext.t) (w : Turn.t) : AgentResponse.t :=
  let strategy_analysis := Decision.strategy_analysis decision in
  let flow_decision := Decision.flow_decision decision in
  let action_execution := Decision.action_execution decision in
  let meta := Decision.meta decision in
  let reasoning := String.concat " | " (reasoning_fragments decision) in
  let contextUpdates :=
    with_properties (ActionExecution.context_updates action_execution)
      (derived_properties decision prompt context w) in
  {| AgentResponse.message := ActionExecution.message action_execution;
     AgentResponse.action_taken := NextAction.to_string (FlowDecision.next_action flow_decision);
     AgentResponse.reasoning := reasoning;
     AgentResponse.confidence := FlowDecision.confidence flow_decision;
     AgentResponse.context_updates := contextUpdates;
     AgentResponse.suggested_next_user_action :=
       Some (ActionExecution.expected_user_response action_execution);
     AgentResponse.meta := Some
       {| ResponseMeta.session_stage := SessionStage.to_string (DecisionMeta.session_stage meta);
          ResponseMeta.user_sentiment := Sentiment.to_string (DecisionMeta.user_sentiment meta);
          ResponseMeta.should_escalate := DecisionMeta.should_escalate meta;
          ResponseMeta.decision_quality := evaluateDecisionQuality decision |} |}.

Definition fallback_message : string :=
  "I apologize, but I'm having trouble processing your message right now. Could you please rephrase or try again?".

Definition generateFallbackResponse (error : Thrown) (w : Turn.t) : AgentResponse.t :=
  {| AgentResponse.message := fallback_message;
     AgentResponse.action_taken := "error_fallback";
     AgentResponse.reasoning :=
       "System error: " +:+ JS.or_string (Thrown_message error) "Unknown error";
     AgentResponse.confidence := 0.1%float;
     AgentResponse.context_updates :=
       with_properties ∅
         [ ("last_error", VString (JS.or_string (Thrown_message error) "Unknown error"));
           ("error_timestamp", VString (Turn.error_timestamp w));
           ("fallback_used", VBool true) ];
     AgentResponse.suggested_next_user_action := Some "rephrase_or_retry";
     AgentResponse.meta := Some
       {| ResponseMeta.session_stage := "error_recovery";
          ResponseMeta.user_sentiment := "unknown";
          ResponseMeta.should_escalate := true;
          ResponseMeta.decision_quality := Quality.low |} |}.

(** The body of the [try] of [processPrompt]: the oracle round (prompt
    composition and [generateText]), the search for the final-decision call
    and the interpretation of its input. *)
Definition processPrompt_try (prompt : string) (context : SessionContext.t)
    (w : Turn.t) : Outcome AgentResponse.t :=
  Outcome_bind
    (match Turn.round w with
     | OracleThrows e => Threw e
     | OracleReturns toolCalls => Returned toolCalls
     end)
    (λ toolCalls,
      match List.find (λ call, String.eqb (ToolCall.toolName call) "answer") toolCalls with
      | None => Threw (ErrorObject "No decision tool call found")
      | Some decisionCall =>
          match ToolCall.input decisionCall with
          | Conforming decision => Returned (interpretDecision decision prompt context w)
          | Malformed e => Threw e
          end
      end).

Definition processPrompt (self : t) (prompt : string) (context : SessionContext.t)
    (w : Turn.t) : AgentResponse.t :=
  try_catch (processPrompt_try prompt context w)
    (λ error, generateFallbackResponse error w).

End Agent.

(** ** The orchestrator ([class Sarufi]) *)

Module SessionStats.
Record t := {
  totalSessions : Z;
  activeSessions : Z;
  completedSessions : Z;
  totalMessages : Z;
  totalSessionDuration : Z;
  errorCount : Z
}.
Definition zero : t :=
  {| totalSessions := 0; activeSessions := 0; completedSessions := 0;
     totalMessages := 0; totalSessionDuration := 0; errorCount := 0 |}.

(** [counter++], [counter--] and [counter += d]. *)
Definition incr_totalSessions (s : t) : t :=
  {| totalSessions := totalSessions s + 1; activeSessions := activeSessions s;
     completedSessions := completedSessions s; totalMessages := totalMessages s;
     totalSessionDuration := totalSessionDuration s; errorCount := errorCount s |}.
Definition incr_activeSessions (s : t) : t :=
  {| totalSessions := totalSessions s; activeSessions := activeSessions s + 1;
     completedSessions := completedSessions s; totalMessages := totalMessages s;
     totalSessionDuration := totalSessionDuration s; errorCount := errorCount s |}.
Definition decr_activeSessions (s : t) : t :=
  {| totalSessions := totalSessions s; activeSessions := activeSessions s - 1;
     completedSessions := completedSessions s; totalMessages := totalMessages s;
     totalSessionDuration := totalSessionDuration s; errorCount := errorCount s |}.
Definition incr_completedSessions (s : t) : t :=
  {| totalSessions := totalSessions s; activeSessions := activeSessions s;
     completedSessions := completedSessions s + 1; totalMessages := totalMessages s;
     totalSessionDuration := totalSessionDuration s; errorCount := errorCount s |}.
Definition incr_totalMessages (s : t) : t :=
  {| totalSessions := totalSessions s; activeSessions := activeSessions s;
     completedSessions := completedSessions s; totalMessages := totalMessages s + 1;
     totalSessionDuration := totalSessionDuration s; errorCount := errorCount s |}.
Definition add_totalSessionDuration (d : Z) (s : t) : t :=
  {| totalSessions := totalSessions s; activeSessions := activeSessions s;
     completedSessions := completedSessions s; totalMessages := totalMessages s;
     totalSessionDuration := totalSessionDuration s + d; errorCount := errorCount s |}.
Definition incr_errorCount (s : t) : t :=
  {| totalSessions := totalSessions s; activeSessions := activeSessions s;
     completedSessions := completedSessions s; totalMessages := totalMessages s;
     totalSessionDuration := totalSessionDuration s; errorCount := errorCount s + 1 |}.
End SessionStats.

(** What the world supplies during [startSession], [sendMessage] and
    [endSession]: generated identifiers and the readings of [new Date()]. *)
Module SendWorld.
Record t := {
  user_message_id : string;
  user_timestamp : Z;
  turn : Turn.t;
  assistant_message_id : string;
  assistant_timestamp : Z;
  context_updated_at : Z
}.
End SendWorld.

Module StartWorld.
Record t := {
  (** reading of the clock when an existing session is ended *)
  ended_at : Z;
  session_id : string;
  created_at : Z;
  updated_at : Z;
  turn : Turn.t;
  message_id : string;
  message_timestamp : Z;
  context_updated_at : Z
}.
End StartWorld.

Module Performance.
Record t := {
  strategy_name : string;
  total_sessions : Z;
  completion_rate : float;
  escalation_rate : float;
  average_messages : float;
  performance_score : float
}.
End Performance.

Module Sarufi.

Record t := {
  strategies : list (string * Strategy.t);
  sessions : list (string * SessionContext.t);
  agents : list (string * Agent.t);
  sessionStats : SessionStats.t
}.

(** [new Sarufi()] *)
Definition new : t :=
  {| strategies := []; sessions := []; agents := [];
     sessionStats := SessionStats.zero |}.

(** *** Methods as computations on the instance

    A method maps the instance before the call to its outcome and the
    instance after.  A [throw] keeps the mutations made before it. *)
Definition M (A : Type) : Type := t → Outcome A * t.

#[global] Instance M_ret : MRet M := λ A a self, (Returned a, self).
#[global] Instance M_bind : MBind M := λ A B k m self,
  match m self with
  | (Returned a, self') => k a self'
  | (Threw e, self') => (Threw e, self')
  end.

Definition throw {A : Type} (e : Thrown) : M A := λ self, (Threw e, self).
Definition this : M t := λ self, (Returned self, self).
Definition modify (f : t → t) : M unit := λ self, (Returned (), f self).

(** [try { body } catch (error) { handler error }] *)
Definition try_ {A : Type} (body : M A) (handler : Thrown → M A) : M A :=
  λ self,
    match body self with
    | (Returned a, self') => (Returned a, self')
    | (Threw e, self') => handler e self'
    end.

Definition set_strategies (v : list (string * Strategy.t)) (self : t) : t :=
  {| strategies := v; sessions := sessions self; agents := agents self;
     sessionStats := sessionStats self |}.
Definition set_sessions (v : list (string * SessionContext.t)) (self : t) : t :=
  {| strategies := strategies self; sessions := v; agents := agents self;
     sessionStats := sessionStats self |}.
Definition set_agents (v : list (string * Agent.t)) (self : t) : t :=
  {| strategies := strategies self; sessions := sessions self; agents := v;
     sessionStats := sessionStats self |}.
Definition set_sessionStats (v : SessionStats.t) (self : t) : t :=
  {| strategies := strategies self; sessions := sessions self; agents := agents self;
     sessionStats := v |}.

(** A mutation of the context object stored under [sessionId]. *)
Definition mutate_session (sessionId : string)
    (f : SessionContext.t → SessionContext.t) : M unit :=
  modify (λ self, set_sessions (JSMap.alter f sessionId (sessions self)) self).

Definition mutate_stats (f : SessionStats.t → SessionStats.t) : M unit :=
  modify (λ self, set_sessionStats (f (sessionStats self)) self).

(** The context object behind a reference obtained from
    [sessions.get(sessionId)], as it is now. *)
Definition deref (sessionId : string) (context : SessionContext.t) : M SessionContext.t :=
  self ← this;
  mret (default context (JSMap.get sessionId (sessions self))).

Definition validateStrategy (strategy : Strategy.t) : M unit :=
  if negb (JS.truthy_string (Strategy.name strategy))
  then throw (ErrorObject "Strategy must have a name")
  else if negb (JS.truthy_string (Strategy.primary_goal strategy))
  then throw (ErrorObject "Strategy must have a primary_goal")
  else if negb (JS.truthy_string (Strategy.domain strategy))
  then throw (ErrorObject "Strategy must have a domain")
  else if negb (bool_decide (is_Some (Strategy.personality strategy)))
  then throw (ErrorObject "Strategy must have personality settings")
  else if negb (bool_decide (is_Some (Strategy.guidelines strategy)))
  then throw (ErrorObject "Strategy must have guidelines")
  else mret ().

Definition registerStrategy (strategy : Strategy.t) : M unit :=
  if negb (JS.truthy_string (Strategy.name strategy))
  then throw (ErrorObject "Strategy must have a name")
  else
    validateStrategy strategy;;
    modify (λ self,
      set_strategies (JSMap.set (Strategy.name strategy) strategy (strategies self)) self);;
    modify (λ self,
      set_agents (JSMap.set (Strategy.name strategy) (Agent.new strategy) (agents self)) self).

Definition getStrategy (name : string) (self : t) : option Strategy.t :=
  JSMap.get name (strategies self).

Definition listStrategies (self : t) : list string :=
  JSMap.keys (strategies self).

Definition unregisterStrategy (name : string) : M bool :=
  self ← this;
  let removed := JSMap.has name (strategies self) in
  modify (λ self, set_strategies (JSMap.delete name (strategies self)) self);;
  modify (λ self, set_agents (JSMap.delete name (agents self)) self);;
  mret removed.

Definition findSessionByUser (userId : string) (self : t) : option SessionContext.t :=
  List.find
    (λ c, bool_decide (SessionContext.user_id c = userId
                       ∧ SessionContext.status c = Status.active))
    (JSMap.values (sessions self)).

Definition updateSessionContext (sessionId : string) (updates : gmap string Value)
    (now : Z) : M unit :=
  self ← this;
  match JSMap.get sessionId (sessions self) with
  | Some _ =>
      mutate_session sessionId (λ c,
        SessionContext.set_user_inputs
          (Object_assign (SessionContext.user_inputs c) updates) c);;
      mutate_session sessionId (SessionContext.set_updated_at now)
  | None => mret ()
  end.

Definition endSession (sessionId : string) (now : Z) : M bool :=
  self ← this;
  match JSMap.get sessionId (sessions self) with
  | None => mret false
  | Some context =>
      mutate_session sessionId (SessionContext.set_status Status.completed);;
      mutate_session sessionId (SessionContext.set_updated_at now);;
      mutate_stats SessionStats.decr_activeSessions;;
      mutate_stats SessionStats.incr_completedSessions;;
      context ← deref sessionId context;
      mutate_stats (SessionStats.add_totalSessionDuration
        (SessionContext.updated_at context - SessionContext.created_at context));;
      mret true
  end.

(** The context object [startSession] creates. *)
Definition new_context (userId strategyName : string)
    (initialContext : option (gmap string Value)) (w : StartWorld.t) : SessionContext.t :=
  {| SessionContext.session_id := StartWorld.session_id w;
     SessionContext.user_id := userId;
     SessionContext.strategy_name := strategyName;
     SessionContext.status := Status.active;
     SessionContext.current_goal := "initial_engagement";
     SessionContext.messages_count := 0;
     SessionContext.user_inputs := default ∅ initialContext;
     SessionContext.user_profile := UserProfile.empty;
     SessionContext.messages := [];
     SessionContext.agent_memory :=
       {| AgentMemory.last_action := "session_started";
          AgentMemory.reasoning_history := [];
          AgentMemory.failed_attempts := [];
          AgentMemory.successful_patterns := [] |};
     SessionContext.created_at := StartWorld.created_at w;
     SessionContext.updated_at := StartWorld.updated_at w |}.

Definition startSession (userId strategyName : string)
    (initialContext : option (gmap string Value)) (w : StartWorld.t) : M Session.t :=
  self ← this;
  match JSMap.get strategyName (strategies self) with
  | None => throw (ErrorObject ("Strategy '" +:+ strategyName +:+ "' not found"))
  | Some strategy =>
  match JSMap.get strategyName (agents self) with
  | None => throw (ErrorObject ("Agent for strategy '" +:+ strategyName +:+ "' not found"))
  | Some agent =>
      match findSessionByUser userId self with
      | Some existingSession =>
          endSession (SessionContext.session_id existingSession) (StartWorld.ended_at w);;
          mret ()
      | None => mret ()
      end;;
      let sessionId := StartWorld.session_id w in
      let context := new_context userId strategyName initialContext w in
      modify (λ self, set_sessions (JSMap.set sessionId context (sessions self)) self);;
      mutate_stats SessionStats.incr_totalSessions;;
      mutate_stats SessionStats.incr_activeSessions;;
      let initialResponse :=
        Agent.processPrompt agent "[SESSION_STARTED]" context (StartWorld.turn w) in
      mutate_session sessionId (SessionContext.push_message
        {| Message.id := StartWorld.message_id w;
           Message.role := Role.assistant;
           Message.content := AgentResponse.message initialResponse;
           Message.timestamp := StartWorld.message_timestamp w |});;
      updateSessionContext sessionId (AgentResponse.context_updates initialResponse)
        (StartWorld.context_updated_at w);;
      context ← deref sessionId context;
      mret {| Session.session_id := sessionId;
              Session.initial_message := AgentResponse.message initialResponse;
              Session.context := context |}
  end
  end.

Definition degraded_message : string :=
  "I'm sorry, I encountered an issue. Could you please try again?".

Definition sendMessage (sessionId message : string) (w : SendWorld.t) : M Output.t :=
  self ← this;
  match JSMap.get sessionId (sessions self) with
  | None => throw (ErrorObject ("AI Session '" +:+ sessionId +:+ "' not found"))
  | Some context =>
  if negb (bool_decide (SessionContext.status context = Status.active))
  then throw (ErrorObject ("AI Session '" +:+ sessionId +:+ "' is not active"))
  else
  match JSMap.get (SessionContext.strategy_name context) (agents self) with
  | None =>
      throw (ErrorObject ("Agent for strategy '"
                          +:+ SessionContext.strategy_name context +:+ "' not found"))
  | Some agent =>
      try_
        (mutate_session sessionId (SessionContext.push_message
           {| Message.id := SendWorld.user_message_id w;
              Message.role := Role.user;
              Message.content := message;
              Message.timestamp := SendWorld.user_timestamp w |});;
         mutate_session sessionId (λ c,
           SessionContext.set_messages_count (SessionContext.messages_count c + 1) c);;
         mutate_stats SessionStats.incr_totalMessages;;
         context ← deref sessionId context;
         let agentResponse := Agent.processPrompt agent message context (SendWorld.turn w) in
         mutate_session sessionId (SessionContext.push_message
           {| Message.id := SendWorld.assistant_message_id w;
              Message.role := Role.assistant;
              Message.content := AgentResponse.message agentResponse;
              Message.timestamp := SendWorld.assistant_timestamp w |});;
         mutate_session sessionId (λ c,
           SessionContext.set_messages_count (SessionContext.messages_count c + 1) c);;
         updateSessionContext sessionId (AgentResponse.context_updates agentResponse)
           (SendWorld.context_updated_at w);;
         match AgentResponse.meta agentResponse with
         | Some meta =>
             if ResponseMeta.should_escalate meta
             then
               mutate_session sessionId (SessionContext.set_status Status.escalated);;
               mutate_stats SessionStats.decr_activeSessions
             else mret ()
         | None => mret ()
         end;;
         context ← deref sessionId context;
         mret {| Output.message := AgentResponse.message agentResponse;
                 Output.session_id := sessionId;
                 Output.agent_reasoning := Some (AgentResponse.reasoning agentResponse);
                 Output.session_status := SessionContext.status context;
                 Output.suggested_actions :=
                   match AgentResponse.suggested_next_user_action agentResponse with
                   | Some a => if JS.truthy_string a then Some [a] else None
                   | None => None
                   end |})
        (λ error,
          mutate_stats SessionStats.incr_errorCount;;
          mret {| Output.message := degraded_message;
                  Output.session_id := sessionId;
                  Output.session_status := Status.active;
                  Output.agent_reasoning := Some ("Error: " +:+
                    match error with
                    | ErrorObject m => m
                    | OtherValue _ => "Unknown error"
                    end);
                  Output.suggested_actions := None |})
  end
  end.

Definition getSarufiSession (sessionId : string) (self : t) : option SessionContext.t :=
  JSMap.get sessionId (sessions self).

Definition getActiveSarufiSessions (self : t) : list SessionContext.t :=
  filter (λ c, SessionContext.status c = Status.active) (JSMap.values (sessions self)).

Definition getUserSarufiSessions (userId : string) (self : t) : list SessionContext.t :=
  filter (λ c, SessionContext.user_id c = userId) (JSMap.values (sessions self)).

(** [v === s] for a property read from [user_inputs]. *)
Definition is_string (v : option Value) (s : string) : bool :=
  match v with
  | Some (VString t) => String.eqb t s
  | _ => false
  end.

Definition calculatePerformanceScore (sessions : list SessionContext.t) : float :=
  if (length sessions =? 0)%nat then 0%float
  else
    let score :=
      foldl (λ score sess,
        let score :=
          if bool_decide (SessionContext.status sess = Status.completed)
          then PrimFloat.add score 1 else score in
        let score :=
          if is_string (SessionContext.user_inputs sess !! "decision_quality") "high"
          then PrimFloat.add score 0.5 else score in
        let score :=
          if is_string (SessionContext.user_inputs sess !! "user_sentiment") "positive"
          then PrimFloat.add score 0.3 else score in
        let score :=
          if bool_decide (SessionContext.status sess = Status.escalated)
          then PrimFloat.sub score 0.5 else score in
        score) 0%float sessions in
    JS.Math_max 0
      (JS.Math_min 1
         (PrimFloat.div score (JS.Number_of_Z (Z.of_nat (length sessions))))).

Definition getStrategyPerformance (strategyName : string) (self : t) : Performance.t :=
  let sessions :=
    filter (λ c, SessionContext.strategy_name c = strategyName)
      (JSMap.values (sessions self)) in
  let totalSessions := Z.of_nat (length sessions) in
  let completedSessions :=
    Z.of_nat (length (filter (λ c, SessionContext.status c = Status.completed) sessions)) in
  let escalatedSessions :=
    Z.of_nat (length (filter (λ c, SessionContext.status c = Status.escalated) sessions)) in
  let averageMessages :=
    PrimFloat.div
      (JS.Number_of_Z (foldl (λ sum c, (sum + SessionContext.messages_count c)%Z) 0%Z sessions))
      (JS.Number_of_Z totalSessions) in
  {| Performance.strategy_name := strategyName;
     Performance.total_sessions := totalSessions;
     Performance.completion_rate :=
       if (0 <? totalSessions)%Z
       then PrimFloat.div (JS.Number_of_Z completedSessions) (JS.Number_of_Z totalSessions)
       else 0%float;
     Performance.escalation_rate :=
       if (0 <? totalSessions)%Z
       then PrimFloat.div (JS.Number_of_Z escalatedSessions) (JS.Number_of_Z totalSessions)
       else 0%float;
     Performance.average_messages := JS.or_number averageMessages 0;
     Performance.performance_score := calculatePerformanceScore sessions |}.

End Sarufi.

(** ** Calls and reachable states *)

(** One call of the public interface that may change the instance. *)
Inductive Call :=
| CallRegister (strategy : Strategy.t)
| CallUnregister (name : string)
| CallStart (userId strategyName : string) (initialContext : option (gmap string Value))
    (w : StartWorld.t)
| CallSend (sessionId message : string) (w : SendWorld.t)
| CallEnd (sessionId : string) (now : Z).

(** The instance after a call. *)
Definition after (c : Call) (self : Sarufi.t) : Sarufi.t :=
  match c with
  | CallRegister strategy => (Sarufi.registerStrategy strategy self).2
  | CallUnregister name => (Sarufi.unregisterStrategy name self).2
  | CallStart userId strategyName initialContext w =>
      (Sarufi.startSession userId strategyName initialContext w self).2
  | CallSend sessionId message w => (Sarufi.sendMessage sessionId message w self).2
  | CallEnd sessionId now => (Sarufi.endSession sessionId now self).2
  end.

(** The instances a sequence of calls can produce from [new Sarufi()]. *)
Inductive reachable : Sarufi.t → Prop :=
| reachable_new : reachable Sarufi.new
| reachable_call self c : reachable self → reachable (after c self).

(** The sessions of a user that are active. *)
Definition active_sessions_of (userId : string) (self : Sarufi.t) : list SessionContext.t :=
  filter (λ c, SessionContext.status c = Status.active)
    (Sarufi.getUserSarufiSessions userId self).

(** ** A small scenario, used to run the definitions *)

Module Sample.

Definition bot : Strategy.t :=
  {| Strategy.name := "Shoe Sales Bot";
     Strategy.domain := "sales";
     Strategy.primary_goal := "Help customers find shoes";
     Strategy.secondary_goals := ["Build rapport"];
     Strategy.llm_provider := LLMProvider.google;
     Strategy.model := "gemini-2.5-flash";
     Strategy.personality :=
       Some {| Personality.tone := "friendly"; Personality.style := "consultative";
               Personality.pace := "medium" |};
     Strategy.system_prompt := None;
     Strategy.guidelines :=
       Some {| Guidelines.must_do := ["Greet the customer"];
               Guidelines.must_not_do := []; Guidelines.prefer_to_do := [];
               Guidelines.avoid_doing := [] |};
     Strategy.knowledge :=
       {| Knowledge.key_info := []; Knowledge.common_questions := [];
          Knowledge.escalation_triggers := [] |} |}.

(** A decision whose own context updates collide with derived keys. *)
Definition decision : Decision.t :=
  {| Decision.strategy_analysis :=
       {| StrategyAnalysis.current_goal := "greet";
          StrategyAnalysis.goal_progress := GoalProgress.in_progress;
          StrategyAnalysis.situation_assessment := "New visitor";
          StrategyAnalysis.relevant_guidelines := ["Greet the customer"];
          StrategyAnalysis.opportunities := ["Qualified lead"];
          StrategyAnalysis.risk_factors := [] |};
     Decision.flow_decision :=
       {| FlowDecision.next_action := NextAction.ask_discovery_question;
          FlowDecision.reasoning := "Start with a warm welcome";
          FlowDecision.confidence := 0.9;
          FlowDecision.urgency := Urgency.low;
          FlowDecision.backup_plan := "Offer the catalogue" |};
     Decision.action_execution :=
       {| ActionExecution.message := "Welcome! What are you looking for?";
          ActionExecution.message_intent := "Open the conversation";
          ActionExecution.expected_user_response := "describe_need";
          ActionExecution.context_updates :=
            <["current_goal" := VString "overridden"]> (<["budget" := VNumber 120]> ∅);
          ActionExecution.next_goal := "discover_needs" |};
     Decision.meta :=
       {| DecisionMeta.session_stage := SessionStage.opening;
          DecisionMeta.user_sentiment := Sentiment.neutral;
          DecisionMeta.should_escalate := false;
          DecisionMeta.escalation_reason := None |} |}.

Definition answering : Turn.t :=
  {| Turn.round :=
       OracleReturns [ {| ToolCall.toolName := "answer"; ToolCall.input := Conforming decision |} ];
     Turn.last_decision_time := "2025-07-25T10:00:00.000Z";
     Turn.updated_at := "2025-07-25T10:00:00.001Z";
     Turn.error_timestamp := "2025-07-25T10:00:00.002Z" |}.

Definition timing_out : Turn.t :=
  {| Turn.round := OracleThrows (ErrorObject "timeout");
     Turn.last_decision_time := "2025-07-25T10:00:00.000Z";
     Turn.updated_at := "2025-07-25T10:00:00.001Z";
     Turn.error_timestamp := "2025-07-25T10:00:00.002Z" |}.

Definition start1 : StartWorld.t :=
  {| StartWorld.ended_at := 90;
     StartWorld.session_id := "sarufi_sess_100_a";
     StartWorld.created_at := 100;
     StartWorld.updated_at := 100;
     StartWorld.turn := answering;
     StartWorld.message_id := "msg_101_a";
     StartWorld.message_timestamp := 101;
     StartWorld.context_updated_at := 102 |}.

Definition start2 : StartWorld.t :=
  {| StartWorld.ended_at := 190;
     StartWorld.session_id := "sarufi_sess_200_b";
     StartWorld.created_at := 200;
     StartWorld.updated_at := 200;
     StartWorld.turn := answering;
     StartWorld.message_id := "msg_201_b";
     StartWorld.message_timestamp := 201;
     StartWorld.context_updated_at := 202 |}.

Definition send (turn : Turn.t) : SendWorld.t :=
  {| SendWorld.user_message_id := "msg_300_c";
     SendWorld.user_timestamp := 300;
     SendWorld.turn := turn;
     SendWorld.assistant_message_id := "msg_301_d";
     SendWorld.assistant_timestamp := 301;
     SendWorld.context_updated_at := 302 |}.

Definition registered : Sarufi.t := after (CallRegister bot) Sarufi.new.

Definition started : Sarufi.t :=
  after (CallStart "user-1" "Shoe Sales Bot" None start1) registered.

Definition ended : Sarufi.t := after (CallEnd "sarufi_sess_100_a" 400) started.

(** The same user starts a second session while the first is active. *)
Definition restarted : Sarufi.t :=
  after (CallStart "user-1" "Shoe Sales Bot" None start2) started.

(** A session whose greeting turn times out. *)
Definition start_timing_out : StartWorld.t :=
  {| StartWorld.ended_at := 90;
     StartWorld.session_id := "sarufi_sess_100_a";
     StartWorld.created_at := 100;
     StartWorld.updated_at := 100;
     StartWorld.turn := timing_out;
     StartWorld.message_id := "msg_101_a";
     StartWorld.message_timestamp := 101;
     StartWorld.context_updated_at := 102 |}.

(** A reasoning of 19 characters, one of them outside ASCII. *)
Definition terse_decision : Decision.t :=
  {| Decision.strategy_analysis :=
       {| StrategyAnalysis.current_goal := "greet";
          StrategyAnalysis.goal_progress := GoalProgress.in_progress;
          StrategyAnalysis.situation_assessment := "New visitor";
          StrategyAnalysis.relevant_guidelines := ["Greet the customer"];
          StrategyAnalysis.opportunities := [];
          StrategyAnalysis.risk_factors := [] |};
     Decision.flow_decision :=
       {| FlowDecision.next_action := NextAction.ask_discovery_question;
          FlowDecision.reasoning := "It’s a short reason";
          FlowDecision.confidence := 0.9;
          FlowDecision.urgency := Urgency.low;
          FlowDecision.backup_plan := "Offer the catalogue" |};
     Decision.action_execution := Decision.action_execution decision;
     Decision.meta := Decision.meta decision |}.

(** A decision with nothing to its credit. *)
Definition poor_decision : Decision.t :=
  {| Decision.strategy_analysis :=
       {| StrategyAnalysis.current_goal := "greet";
          StrategyAnalysis.goal_progress := GoalProgress.not_started;
          StrategyAnalysis.situation_assessment := "Unclear";
          StrategyAnalysis.relevant_guidelines := [];
          StrategyAnalysis.opportunities := [];
          StrategyAnalysis.risk_factors := [] |};
     Decision.flow_decision :=
       {| FlowDecision.next_action := NextAction.provide_information;
          FlowDecision.reasoning := "Guess";
          FlowDecision.confidence := 0.5;
          FlowDecision.urgency := Urgency.low;
          FlowDecision.backup_plan := "" |};
     Decision.action_execution :=
       {| ActionExecution.message := "Hello";
          ActionExecution.message_intent := "Greet";
          ActionExecution.expected_user_response := "";
          ActionExecution.context_updates := ∅;
          ActionExecution.next_goal := "greet" |};
     Decision.meta :=
       {| DecisionMeta.session_stage := SessionStage.opening;
          DecisionMeta.user_sentiment := Sentiment.unknown;
          DecisionMeta.should_escalate := false;
          DecisionMeta.escalation_reason := None |} |}.

End Sample.

(** * Vocabulary of the properties *)

(** The error kinds of the specification; the source tells them apart by
    the message of the [Error] it throws. *)
Definition SessionNotFound (sessionId : string) : Thrown :=
  ErrorObject ("AI Session '" +:+ sessionId +:+ "' not found").

Definition SessionNotActive (sessionId : string) : Thrown :=
  ErrorObject ("AI Session '" +:+ sessionId +:+ "' is not active").

(** A text is a sequence of code points (a lone surrogate is one of them).
    Its UTF-8 encoding is what a string of this file holds; its length in
    UTF-16 is what [.length] is in the source: one unit for a code point of
    the basic plane, two (a surrogate pair) above it. *)
Definition code_point (cp : N) : Prop := (cp < 0x110000)%N.

Definition utf8 (cp : N) : string :=
  if (cp <? 0x80)%N then String (ascii_of_N cp) ""
  else if (cp <? 0x800)%N
  then String (ascii_of_N (0xC0 + cp / 0x40))
         (String (ascii_of_N (0x80 + cp mod 0x40)) "")
  else if (cp <? 0x10000)%N
  then String (ascii_of_N (0xE0 + cp / 0x1000))
         (String (ascii_of_N (0x80 + cp / 0x40 mod 0x40))
            (String (ascii_of_N (0x80 + cp mod 0x40)) ""))
  else String (ascii_of_N (0xF0 + cp / 0x40000))
         (String (ascii_of_N (0x80 + cp / 0x1000 mod 0x40))
            (String (ascii_of_N (0x80 + cp / 0x40 mod 0x40))
               (String (ascii_of_N (0x80 + cp mod 0x40)) ""))).

Definition utf8_text (text : list N) : string :=
  foldr (λ cp s, utf8 cp +:+ s) "" text.

Definition utf16_units (cp : N) : nat := if (cp <? 0x10000)%N then 1 else 2.

Definition utf16_length (text : list N) : nat := sum_list (utf16_units <$> text).

(** The score of the specification, in tenths and in exact arithmetic:
    3 for a cited guideline, 3 for a confidence above 0.7, 2 for an
    opportunity or a risk, 2 for a reasoning of more than 20 characters
    (UTF-16 code units, as [.length] counts them). *)
Definition score_tenths (decision : Decision.t) : Z :=
  let strategy_analysis := Decision.strategy_analysis decision in
  let flow_decision := Decision.flow_decision decision in
  ((if (0 <? length (StrategyAnalysis.relevant_guidelines strategy_analysis))%nat
    then 3 else 0)
   + (if PrimFloat.ltb 0.7 (FlowDecision.confidence flow_decision) then 3 else 0)
   + (if (0 <? length (StrategyAnalysis.opportunities strategy_analysis))%nat
         || (0 <? length (StrategyAnalysis.risk_factors strategy_analysis))%nat
      then 2 else 0)
   + (if (20 <? JS.length (FlowDecision.reasoning flow_decision))%nat
      then 2 else 0))%Z.

(** The double closest to [n / 10]. *)
Definition tenths (n : Z) : float := PrimFloat.div (JS.Number_of_Z n) 10.

(** [z] is the integer closest to [n * 2^e], the upper one on a tie. *)
Definition nearest_integer (n e z : Z) : Prop :=
  if (0 <=? e)%Z then z = (n * 2 ^ e)%Z
  else ((2 * z - 1) * 2 ^ (- e) ≤ 2 * n < (2 * z + 1) * 2 ^ (- e))%Z.

(** Decimal notation, read from the left: the value of a string of
    digits, the numeral of a natural number (digits only, at least one, and
    no [0] in front of another digit) and the notation of an integer (a
    minus sign in front of the numeral of its absolute value when it is
    negative). *)
Definition digit_value (c : ascii) : option Z :=
  let n := N_of_ascii c in
  if (48 <=? n)%N && (n <=? 57)%N then Some (Z.of_N n - 48)%Z else None.

Fixpoint numeral_from (acc : Z) (s : string) : option Z :=
  match s with
  | EmptyString => Some acc
  | String c t =>
      match digit_value c with
      | Some d => numeral_from (10 * acc + d) t
      | None => None
      end
  end.

Definition numeral (s : string) (z : Z) : Prop :=
  match s with
  | EmptyString => False
  | String c t => numeral_from 0 s = Some z ∧ (c = "0"%char → t = EmptyString)
  end.

Definition decimal (s : string) (z : Z) : Prop :=
  if (z <? 0)%Z then ∃ ds, s = String "-" ds ∧ numeral ds (- z) else numeral s z.

(** The value of a numeral of the library, read from the left. *)
Fixpoint uint_from (acc : Z) (d : Decimal.uint) : Z :=
  match d with
  | Decimal.Nil => acc
  | Decimal.D0 d => uint_from (10 * acc) d
  | Decimal.D1 d => uint_from (10 * acc + 1) d
  | Decimal.D2 d => uint_from (10 * acc + 2) d
  | Decimal.D3 d => uint_from (10 * acc + 3) d
  | Decimal.D4 d => uint_from (10 * acc + 4) d
  | Decimal.D5 d => uint_from (10 * acc + 5) d
  | Decimal.D6 d => uint_from (10 * acc + 6) d
  | Decimal.D7 d => uint_from (10 * acc + 7) d
  | Decimal.D8 d => uint_from (10 * acc + 8) d
  | Decimal.D9 d => uint_from (10 * acc + 9) d
  end.

(** The steps of a turn on the context object. *)
Definition user_message (message : string) (w : SendWorld.t) : Message.t :=
  {| Message.id := SendWorld.user_message_id w;
     Message.role := Role.user;
     Message.content := message;
     Message.timestamp := SendWorld.user_timestamp w |}.

Definition assistant_message (r : AgentResponse.t) (w : SendWorld.t) : Message.t :=
  {| Message.id := SendWorld.assistant_message_id w;
     Message.role := Role.assistant;
     Message.content := AgentResponse.message r;
     Message.timestamp := SendWorld.assistant_timestamp w |}.

Definition count_message (c : SessionContext.t) : SessionContext.t :=
  SessionContext.set_messages_count (SessionContext.messages_count c + 1) c.

Definition merge_updates (updates : gmap string Value) (c : SessionContext.t) :
    SessionContext.t :=
  SessionContext.set_user_inputs (Object_assign (SessionContext.user_inputs c) updates) c.

(** The context as the agent sees it during [sendMessage], and its answer. *)
Definition heard (message : string) (w : SendWorld.t) (context : SessionContext.t) :
    SessionContext.t :=
  count_message (SessionContext.push_message (user_message message w) context).

Definition turn_response (agent : Agent.t) (message : string) (w : SendWorld.t)
    (context : SessionContext.t) : AgentResponse.t :=
  Agent.processPrompt agent message (heard message w context) (SendWorld.turn w).

(** [agentResponse.meta?.should_escalate] *)
Definition escalates (r : AgentResponse.t) : bool :=
  match AgentResponse.meta r with
  | Some meta => ResponseMeta.should_escalate meta
  | None => false
  end.

Definition suggested (r : AgentResponse.t) : option (list string) :=
  match AgentResponse.suggested_next_user_action r with
  | Some a => if JS.truthy_string a then Some [a] else None
  | None => None
  end.

(** The instance once [startSession] has ended the user's active session,
    if it found one. *)
Definition ended_first (userId : string) (w : StartWorld.t) (self : Sarufi.t) : Sarufi.t :=
  match Sarufi.findSessionByUser userId self with
  | Some existingSession =>
      (Sarufi.endSession (SessionContext.session_id existingSession)
         (StartWorld.ended_at w) self).2
  | None => self
  end.

(** The answer to the synthetic first turn and the message made of it. *)
Definition greeting (agent : Agent.t) (userId strategyName : string)
    (initialContext : option (gmap string Value)) (w : StartWorld.t) : AgentResponse.t :=
  Agent.processPrompt agent "[SESSION_STARTED]"
    (Sarufi.new_context userId strategyName initialContext w) (StartWorld.turn w).

Definition greeting_message (r : AgentResponse.t) (w : StartWorld.t) : Message.t :=
  {| Message.id := StartWorld.message_id w;
     Message.role := Role.assistant;
     Message.content := AgentResponse.message r;
     Message.timestamp := StartWorld.message_timestamp w |}.

(** The ways an oracle turn fails, with the value thrown: the oracle call
    throws (an error of the provider, a timeout), the round holds no
    final-decision call, or the payload of that call is malformed. *)
Inductive turn_fails (w : Turn.t) : Thrown → Prop :=
| fails_oracle e :
    Turn.round w = OracleThrows e → turn_fails w e
| fails_decision_missing toolCalls :
    Turn.round w = OracleReturns toolCalls →
    List.find (λ call, String.eqb (ToolCall.toolName call) "answer") toolCalls = None →
    turn_fails w (ErrorObject "No decision tool call found")
| fails_malformed toolCalls decisionCall e :
    Turn.round w = OracleReturns toolCalls →
    List.find (λ call, String.eqb (ToolCall.toolName call) "answer") toolCalls
      = Some decisionCall →
    ToolCall.input decisionCall = Malformed e →
    turn_fails w e.

(** The result of a call when it returned. *)
Definition returned {A : Type} (o : Outcome A) : option A :=
  match o with
  | Returned a => Some a
  | Threw _ => None
  end.

Definition active_for (userId : string) (c : SessionContext.t) : Prop :=
  SessionContext.user_id c = userId ∧ SessionContext.status c = Status.active.

#[global] Instance active_for_dec userId c : Decision (active_for userId c).
Proof. unfold active_for. apply _. Defined.

(** The number of stored sessions of a user that are active. *)
Definition count_active (userId : string) (m : list (string * SessionContext.t)) : nat :=
  length (filter (λ kv, active_for userId kv.2) m).

(** Every context is stored under its own id, once. *)
Definition well_formed (m : list (string * SessionContext.t)) : Prop :=
  NoDup (JSMap.keys m) ∧ Forall (λ kv, SessionContext.session_id kv.2 = kv.1) m.

Definition invariant_map (m : list (string * SessionContext.t)) : Prop :=
  well_formed m ∧ ∀ userId, count_active userId m ≤ 1.

(** A mutation that keeps the identity of a context and does not make it
    active. *)
Definition benign (f : SessionContext.t → SessionContext.t) : Prop :=
  ∀ c, SessionContext.session_id (f c) = SessionContext.session_id c
       ∧ SessionContext.user_id (f c) = SessionContext.user_id c
       ∧ (SessionContext.status (f c) = Status.active →
          SessionContext.status c = Status.active).

(** ** Language models ([getLanguageModel])

    The constructor of [Agent] asks [getLanguageModel] for the model of the
    strategy.  The tables of [MODEL_CONFIGS] are object literals: besides their
    own keys they answer to the members of [Object.prototype], which
    [modelName in providerConfig] finds, and [providerConfig[modelName]()] then
    calls the member on the table without arguments. *)

Module LanguageModel.
(** [anthropic(modelId)] and [google(modelId)] *)
Inductive t :=
| anthropic (modelId : string)
| google (modelId : string).
End LanguageModel.

(** What [getLanguageModel] returns: a model, or the value an inherited
    member returned (a string, a boolean, [undefined] or an object), which is
    not a model. *)
Inductive Handle :=
| Model (m : LanguageModel.t)
| NotModel (member : string).

(** The message of the [TypeError] of the engine for [table[member]()] when
    the member is no function or rejects the missing arguments. *)
Class Engine := { TypeError_message : string → string }.

Definition LLMProvider_to_string (provider : LLMProvider.t) : string :=
  match provider with
  | LLMProvider.openai => "openai"
  | LLMProvider.anthropic => "anthropic"
  | LLMProvider.google => "google"
  end.

Definition anthropic_config : list (string * LanguageModel.t) :=
  [ ("claude-3-5-sonnet-20241022", LanguageModel.anthropic "claude-3-5-sonnet-20241022");
    ("claude-3-5-haiku-20241022", LanguageModel.anthropic "claude-3-5-haiku-20241022");
    ("claude-3-opus-20240229", LanguageModel.anthropic "claude-3-opus-20240229");
    ("default", LanguageModel.anthropic "claude-3-5-sonnet-20241022") ].

Definition google_config : list (string * LanguageModel.t) :=
  [ ("gemini-1.5-pro-latest", LanguageModel.google "gemini-1.5-pro-latest");
    ("gemini-2.5-flash", LanguageModel.google "gemini-2.5-flash");
    ("gemini-pro", LanguageModel.google "gemini-pro");
    ("default", LanguageModel.google "gemini-2.5-flash") ].

Definition MODEL_CONFIGS : list (string * list (string * LanguageModel.t)) :=
  [ ("anthropic", anthropic_config); ("google", google_config) ].

(** The members of [Object.prototype], with whether the call without
    arguments returns: [__proto__] is an object and no function, and
    [__defineGetter__] and [__defineSetter__] throw for a missing function. *)
Definition Object_prototype : list (string * bool) :=
  [ ("constructor", true); ("__defineGetter__", false); ("__defineSetter__", false);
    ("hasOwnProperty", true); ("__lookupGetter__", true); ("__lookupSetter__", true);
    ("isPrototypeOf", true); ("propertyIsEnumerable", true); ("toString", true);
    ("valueOf", true); ("__proto__", false); ("toLocaleString", true) ].

(** [key in table] *)
Definition has_property {V : Type} (key : string) (table : list (string * V)) : bool :=
  JSMap.has key table || JSMap.has key Object_prototype.

(** [table[key]()] *)
Definition call_property `{Engine} (key : string) (table : list (string * LanguageModel.t)) :
    Outcome Handle :=
  match JSMap.get key table with
  | Some m => Returned (Model m)
  | None =>
      match JSMap.get key Object_prototype with
      | Some true => Returned (NotModel key)
      | _ => Threw (ErrorObject (TypeError_message key))
      end
  end.

Definition getLanguageModel `{Engine} (strategy : Strategy.t) : Outcome Handle :=
  let provider :=
    JS.or_string (Some (LLMProvider_to_string (Strategy.llm_provider strategy))) "google" in
  let modelName := Strategy.model strategy in
  match JSMap.get provider MODEL_CONFIGS with
  | None => call_property "default" google_config
  | Some providerConfig =>
      if JS.truthy_string modelName && has_property modelName providerConfig
      then call_property modelName providerConfig
      else call_property "default" providerConfig
  end.

(** ** Registration with the construction of the agent

    [Sarufi.registerStrategy] above takes [new Agent(strategy)] to return.
    The constructor calls [getLanguageModel], and when that throws, the
    registration throws after it has stored the strategy and before it stores
    an agent. *)

Module WithModel.

(** [new Agent(strategy)] *)
Definition new_Agent `{Engine} (strategy : Strategy.t) : Sarufi.M Agent.t :=
  match getLanguageModel strategy with
  | Returned _ => mret (Agent.new strategy)
  | Threw e => Sarufi.throw e
  end.

Definition registerStrategy `{Engine} (strategy : Strategy.t) : Sarufi.M unit :=
  if negb (JS.truthy_string (Strategy.name strategy))
  then Sarufi.throw (ErrorObject "Strategy must have a name")
  else
    Sarufi.validateStrategy strategy;;
    Sarufi.modify (λ self,
      Sarufi.set_strategies
        (JSMap.set (Strategy.name strategy) strategy (Sarufi.strategies self)) self);;
    agent ← new_Agent strategy;
    Sarufi.modify (λ self,
      Sarufi.set_agents (JSMap.set (Strategy.name strategy) agent (Sarufi.agents self)) self).

End WithModel.

(** The instance after a call, the construction of the agent included, and
    the instances sequences of calls produce. *)
Definition perform `{Engine} (c : Call) (self : Sarufi.t) : Sarufi.t :=
  match c with
  | CallRegister strategy => (WithModel.registerStrategy strategy self).2
  | _ => after c self
  end.

Definition perform_all `{Engine} (calls : list Call) (self : Sarufi.t) : Sarufi.t :=
  foldl (λ self c, perform c self) self calls.

Inductive attainable `{Engine} : Sarufi.t → Prop :=
| attainable_new : attainable Sarufi.new
| attainable_call self c : attainable self → attainable (perform c self).

(** ** The builder ([Builder], [createBuilder], [createCustomSarufiSystem]) *)

Module Builder.

Record t := {
  system : Sarufi.t;
  strategies : list Strategy.t
}.

(** [new Builder()] *)
Definition new : t := {| system := Sarufi.new; strategies := [] |}.

Definition withStrategy (strategy : Strategy.t) (self : t) : t :=
  {| system := system self; strategies := strategies self ++ [strategy] |}.

(** [for (const strategy of this.strategies) this.system.registerStrategy(strategy)] *)
Fixpoint register_each `{Engine} (strategies : list Strategy.t) : Sarufi.M unit :=
  match strategies with
  | [] => mret ()
  | strategy :: rest => WithModel.registerStrategy strategy;; register_each rest
  end.

(** [build()]: the outcome, with the system as it is when the call returns,
    and the builder after the call. *)
Definition build `{Engine} (self : t) : Outcome Sarufi.t * t :=
  match register_each (strategies self) (system self) with
  | (Returned _, system') =>
      (Returned system', {| system := system'; strategies := strategies self |})
  | (Threw e, system') =>
      (Threw e, {| system := system'; strategies := strategies self |})
  end.

End Builder.

Definition createBuilder : Builder.t := Builder.new.

Definition createCustomSarufiSystem `{Engine} (strategy : Strategy.t) : Outcome Sarufi.t :=
  (Builder.build (Builder.withStrategy strategy createBuilder)).1.

(** * Vocabulary of the further properties *)

(** A strategy with everything [validateStrategy] asks for. *)
Definition complete (strategy : Strategy.t) : Prop :=
  Strategy.name strategy ≠ ""
  ∧ Strategy.primary_goal strategy ≠ ""
  ∧ Strategy.domain strategy ≠ ""
  ∧ is_Some (Strategy.personality strategy)
  ∧ is_Some (Strategy.guidelines strategy).

(** The two errors of a missing strategy, by their messages. *)
Definition StrategyNotFound (name : string) : Thrown :=
  ErrorObject ("Strategy '" +:+ name +:+ "' not found").

Definition AgentNotFound (name : string) : Thrown :=
  ErrorObject ("Agent for strategy '" +:+ name +:+ "' not found").

(** The context object once a turn of [sendMessage] is over. *)
Definition after_turn (agent : Agent.t) (message : string) (w : SendWorld.t)
    (context : SessionContext.t) : SessionContext.t :=
  let r := turn_response agent message w context in
  (if escalates r then SessionContext.set_status Status.escalated else id)
    (SessionContext.set_updated_at (SendWorld.context_updated_at w)
       (merge_updates (AgentResponse.context_updates r)
          (count_message
             (SessionContext.push_message (assistant_message r w)
                (heard message w context))))).

(** The context object [endSession] leaves. *)
Definition after_end (now : Z) (context : SessionContext.t) : SessionContext.t :=
  SessionContext.set_updated_at now (SessionContext.set_status Status.completed context).

(** The context object [startSession] leaves in the store. *)
Definition after_greeting (agent : Agent.t) (userId strategyName : string)
    (initialContext : option (gmap string Value)) (w : StartWorld.t) : SessionContext.t :=
  let r := greeting agent userId strategyName initialContext w in
  SessionContext.set_updated_at (StartWorld.context_updated_at w)
    (merge_updates (AgentResponse.context_updates r)
       (SessionContext.push_message (greeting_message r w)
          (Sarufi.new_context userId strategyName initialContext w))).

(** The strategies whose agent can be constructed, and the calls that
    construct the agent they store. *)
Definition constructible `{Engine} (strategy : Strategy.t) : Prop :=
  is_Some (returned (getLanguageModel strategy)).

Definition constructs `{Engine} (c : Call) : Prop :=
  match c with
  | CallRegister strategy => constructible strategy
  | _ => True
  end.

(** Names are listed once, agents are stored for registered names only, and
    a registered strategy that is constructible has its own agent. *)
Definition registry_ok `{Engine} (self : Sarufi.t) : Prop :=
  NoDup (Sarufi.listStrategies self)
  ∧ (∀ name, is_Some (JSMap.get name (Sarufi.agents self)) →
             is_Some (Sarufi.getStrategy name self))
  ∧ (∀ name strategy,
       Sarufi.getStrategy name self = Some strategy → constructible strategy →
       JSMap.get name (Sarufi.agents self) = Some (Agent.new strategy)).

(** How a stored context may differ after a call: its identity, its
    creation time, its goal, its profile and its agent memory are kept,
    messages are only appended, the count does not go down, and a session that
    is not active stays so, a completed one completed. *)
Record evolves (c c' : SessionContext.t) : Prop := {
  evolves_session_id : SessionContext.session_id c' = SessionContext.session_id c;
  evolves_user_id : SessionContext.user_id c' = SessionContext.user_id c;
  evolves_strategy_name : SessionContext.strategy_name c' = SessionContext.strategy_name c;
  evolves_current_goal : SessionContext.current_goal c' = SessionContext.current_goal c;
  evolves_created_at : SessionContext.created_at c' = SessionContext.created_at c;
  evolves_user_profile : SessionContext.user_profile c' = SessionContext.user_profile c;
  evolves_agent_memory : SessionContext.agent_memory c' = SessionContext.agent_memory c;
  evolves_messages : SessionContext.messages c `prefix_of` SessionContext.messages c';
  evolves_messages_count :
    (SessionContext.messages_count c ≤ SessionContext.messages_count c')%Z;
  evolves_status :
    SessionContext.status c ≠ Status.active → SessionContext.status c' ≠ Status.active;
  evolves_completed :
    SessionContext.status c = Status.completed →
    SessionContext.status c' = Status.completed
}.

(** A call that stores a new context under [sessionId]. *)
Definition starts (c : Call) (sessionId : string) : Prop :=
  match c with
  | CallStart _ _ _ w => StartWorld.session_id w = sessionId
  | _ => False
  end.

(** The [Output] of a turn and the instance after it. *)
Definition turn_output (agent : Agent.t) (sessionId message : string) (w : SendWorld.t)
    (context : SessionContext.t) : Output.t :=
  let r := turn_response agent message w context in
  {| Output.message := AgentResponse.message r;
     Output.session_id := sessionId;
     Output.agent_reasoning := Some (AgentResponse.reasoning r);
     Output.suggested_actions := suggested r;
     Output.session_status := if escalates r then Status.escalated else Status.active |}.

Definition turn_state (self : Sarufi.t) (agent : Agent.t) (sessionId message : string)
    (w : SendWorld.t) (context : SessionContext.t) : Sarufi.t :=
  let r := turn_response agent message w context in
  {| Sarufi.strategies := Sarufi.strategies self;
     Sarufi.sessions :=
       JSMap.alter (λ _, after_turn agent message w context) sessionId (Sarufi.sessions self);
     Sarufi.agents := Sarufi.agents self;
     Sarufi.sessionStats :=
       (if escalates r then SessionStats.decr_activeSessions else id)
         (SessionStats.incr_totalMessages (Sarufi.sessionStats self)) |}.

(** The instance after [endSession] on a stored session. *)
Definition end_state (self : Sarufi.t) (sessionId : string) (now : Z)
    (context : SessionContext.t) : Sarufi.t :=
  {| Sarufi.strategies := Sarufi.strategies self;
     Sarufi.sessions :=
       JSMap.alter (λ _, after_end now context) sessionId (Sarufi.sessions self);
     Sarufi.agents := Sarufi.agents self;
     Sarufi.sessionStats :=
       SessionStats.add_totalSessionDuration (now - SessionContext.created_at context)
         (SessionStats.incr_completedSessions
            (SessionStats.decr_activeSessions (Sarufi.sessionStats self))) |}.

(** The instance after a successful [startSession]. *)
Definition start_state (self : Sarufi.t) (agent : Agent.t) (userId strategyName : string)
    (initialContext : option (gmap string Value)) (w : StartWorld.t) : Sarufi.t :=
  let self1 := ended_first userId w self in
  {| Sarufi.strategies := Sarufi.strategies self1;
     Sarufi.sessions :=
       JSMap.set (StartWorld.session_id w)
         (after_greeting agent userId strategyName initialContext w) (Sarufi.sessions self1);
     Sarufi.agents := Sarufi.agents self1;
     Sarufi.sessionStats :=
       SessionStats.incr_activeSessions
         (SessionStats.incr_totalSessions (Sarufi.sessionStats self1)) |}.


(** The decision of a turn: the input of the first call of the final
    decision tool, if it has the shape of a decision. *)
Definition decides (w : Turn.t) (decision : Decision.t) : Prop :=
  ∃ toolCalls decisionCall,
    Turn.round w = OracleReturns toolCalls
    ∧ List.find (λ call, String.eqb (ToolCall.toolName call) "answer") toolCalls
      = Some decisionCall
    ∧ ToolCall.input decisionCall = Conforming decision.

(** ** Further scenarios *)

Module Scenario.

(** An engine, by the wording of its [TypeError]. *)
Definition engine : Engine :=
  {| TypeError_message member := "providerConfig[" +:+ member +:+ "] is not a function" |}.

(** A strategy that is complete but asks the table for [__proto__]. *)
Definition unconstructible : Strategy.t :=
  {| Strategy.name := "Proto Bot";
     Strategy.domain := Strategy.domain Sample.bot;
     Strategy.primary_goal := Strategy.primary_goal Sample.bot;
     Strategy.secondary_goals := Strategy.secondary_goals Sample.bot;
     Strategy.llm_provider := LLMProvider.google;
     Strategy.model := "__proto__";
     Strategy.personality := Strategy.personality Sample.bot;
     Strategy.system_prompt := Strategy.system_prompt Sample.bot;
     Strategy.guidelines := Strategy.guidelines Sample.bot;
     Strategy.knowledge := Strategy.knowledge Sample.bot |}.

(** A strategy without guidelines. *)
Definition incomplete : Strategy.t :=
  {| Strategy.name := "Draft Bot";
     Strategy.domain := Strategy.domain Sample.bot;
     Strategy.primary_goal := Strategy.primary_goal Sample.bot;
     Strategy.secondary_goals := Strategy.secondary_goals Sample.bot;
     Strategy.llm_provider := LLMProvider.anthropic;
     Strategy.model := "claude-3-opus-20240229";
     Strategy.personality := Strategy.personality Sample.bot;
     Strategy.system_prompt := None;
     Strategy.guidelines := None;
     Strategy.knowledge := Strategy.knowledge Sample.bot |}.

(** The strategy of an active session is unregistered. *)
Definition unregistered : Sarufi.t := after (CallUnregister "Shoe Sales Bot") Sample.started.

(** A turn on the first session that the oracle answers, and one that times
    out. *)
Definition answered : Sarufi.t :=
  after (CallSend "sarufi_sess_100_a" "hello" (Sample.send Sample.answering)) Sample.started.

Definition timed_out : Sarufi.t :=
  after (CallSend "sarufi_sess_100_a" "hello" (Sample.send Sample.timing_out)) Sample.started.

(** A round with a call of another tool and two calls of the final decision
    tool. *)
Definition two_answers : Turn.t :=
  {| Turn.round :=
       OracleReturns
         [ {| ToolCall.toolName := "getProductInfo";
              ToolCall.input := Malformed (OtherValue None) |};
           {| ToolCall.toolName := "answer"; ToolCall.input := Conforming Sample.decision |};
           {| ToolCall.toolName := "answer";
              ToolCall.input := Conforming Sample.poor_decision |} ];
     Turn.last_decision_time := "2025-07-25T10:00:00.000Z";
     Turn.updated_at := "2025-07-25T10:00:00.001Z";
     Turn.error_timestamp := "2025-07-25T10:00:00.002Z" |}.


End Scenario.

(** The strategy a list of registrations leaves under a name. *)
Definition last_named (name : string) (strategies : list Strategy.t) : option Strategy.t :=
  last (filter (λ strategy, Strategy.name strategy = name) strategies).

(** A strategy [registerStrategy] accepts and stores with its agent. *)
Definition acceptable `{Engine} (strategy : Strategy.t) : Prop :=
  complete strategy ∧ constructible strategy.

(** ** The retrieval middleware ([RagMiddleware])

    A prompt is an array of messages.  The content of a message is a string
    or an array of parts; the parts, like the further properties of a message
    and of the call parameters, belong to the provider package and are copied
    as they are.  [Part_toString] is the string a part converts to (for a plain
    object, [[object Object]]). *)

Definition LF : string := String "010"%char "".

Module SourceChunk.
(** The metadata values of every chunk the repository makes are strings. *)
Record t := {
  id : string;
  content : string;
  metadata : option (gmap string string)
}.
End SourceChunk.

Inductive Content (Part : Type) :=
| CUndefined
| CNull
| CString (s : string)
| CParts (parts : list Part).
Arguments CUndefined {Part}.
Arguments CNull {Part}.
Arguments CString {Part} s.
Arguments CParts {Part} parts.

Module Msg.
Record t (Part Rest : Type) := {
  role : string;
  content : Content Part;
  rest : Rest
}.
Arguments role {Part Rest} _.
Arguments content {Part Rest} _.
Arguments rest {Part Rest} _.
End Msg.

Inductive Prompt (Part Rest Other : Type) :=
| PromptArray (messages : list (Msg.t Part Rest))
| PromptOther (value : Other).
Arguments PromptArray {Part Rest Other} messages.
Arguments PromptOther {Part Rest Other} value.

Module Params.
Record t (Part Rest Other ParamsRest : Type) := {
  prompt : Prompt Part Rest Other;
  rest : ParamsRest
}.
Arguments prompt {Part Rest Other ParamsRest} _.
Arguments rest {Part Rest Other ParamsRest} _.
End Params.

Section middleware.
Context {Part Rest Other ParamsRest : Type}.
Variable Part_toString : Part → string.

(** [content?.toString()] *)
Definition Content_toString (content : Content Part) : option string :=
  match content with
  | CUndefined | CNull => None
  | CString s => Some s
  | CParts parts => Some (String.concat "," (Part_toString <$> parts))
  end.

(** [`${content}`] *)
Definition Content_template (content : Content Part) : string :=
  match content with
  | CUndefined => "undefined"
  | CNull => "null"
  | CString s => s
  | CParts parts => String.concat "," (Part_toString <$> parts)
  end.

Definition getLastUserMessageText (prompt : Prompt Part Rest Other) : option string :=
  match prompt with
  | PromptArray messages =>
      match List.find (λ msg, String.eqb (Msg.role msg) "user") (reverse messages) with
      | Some lastMessage => Content_toString (Msg.content lastMessage)
      | None => None
      end
  | PromptOther _ => None
  end.

Definition findSources (text : string) : list SourceChunk.t :=
  [ {| SourceChunk.id := "doc1";
       SourceChunk.content := "Information about " +:+ text +:+ ": This is a sample document.";
       SourceChunk.metadata :=
         Some (<["title" := "Sample Doc 1"]> (<["created_at" := "2025-07-25"]> ∅)) |};
    {| SourceChunk.id := "doc2";
       SourceChunk.content := "More details on " +:+ text +:+ ": Additional context here.";
       SourceChunk.metadata :=
         Some (<["title" := "Sample Doc 2"]> (<["created_at" := "2025-07-24"]> ∅)) |} ].

Definition addToLastUserMessage (params : Params.t Part Rest Other ParamsRest)
    (text : string) : Params.t Part Rest Other ParamsRest :=
  let newPrompt :=
    match Params.prompt params with
    | PromptArray messages =>
        PromptArray
          (imap (λ index msg,
             if String.eqb (Msg.role msg) "user" && (index =? length messages - 1)%nat
             then {| Msg.role := Msg.role msg;
                     Msg.content :=
                       CString (Content_template (Msg.content msg) +:+ LF +:+ LF +:+ text);
                     Msg.rest := Msg.rest msg |}
             else msg) messages)
    | PromptOther value => PromptOther value
    end in
  {| Params.prompt := newPrompt; Params.rest := Params.rest params |}.

(** [chunk.metadata?.[key] || fallback] *)
Definition metadata_or (chunk : SourceChunk.t) (key fallback : string) : string :=
  JS.or_string (SourceChunk.metadata chunk ≫= (.!! key)) fallback.

Definition markdownDoc (chunk : SourceChunk.t) : string :=
  let title := metadata_or chunk "title" ("Document " +:+ SourceChunk.id chunk) in
  let createdAt := metadata_or chunk "created_at" "Unknown date" in
  "## " +:+ title +:+ LF +:+ LF +:+ SourceChunk.content chunk +:+ LF +:+ LF
  +:+ "**Metadata**:" +:+ LF +:+ "- ID: " +:+ SourceChunk.id chunk +:+ LF
  +:+ "- Created: " +:+ createdAt +:+ LF.

Definition instruction (sources : list SourceChunk.t) : string :=
  "Use the following Markdown documents to answer the question:" +:+ LF +:+ LF
  +:+ String.concat (LF +:+ "---" +:+ LF +:+ LF) (markdownDoc <$> sources).

End middleware.

Module RagMiddleware.
Definition transformParams {Part Rest Other ParamsRest : Type}
    (Part_toString : Part → string) (params : Params.t Part Rest Other ParamsRest) :
    Params.t Part Rest Other ParamsRest :=
  let lastUserMessageText := getLastUserMessageText Part_toString (Params.prompt params) in
  match lastUserMessageText with
  | None => params
  | Some lastUserMessageText =>
      let sources := findSources lastUserMessageText in
      addToLastUserMessage Part_toString params (instruction sources)
  end.
End RagMiddleware.

(** The note the middleware attaches for a query, written out. *)
Definition sample_doc (title id created body : string) : string :=
  "## " +:+ title +:+ LF +:+ LF +:+ body +:+ LF +:+ LF +:+ "**Metadata**:" +:+ LF
  +:+ "- ID: " +:+ id +:+ LF +:+ "- Created: " +:+ created +:+ LF.

Definition retrieval_note (text : string) : string :=
  "Use the following Markdown documents to answer the question:" +:+ LF +:+ LF
  +:+ sample_doc "Sample Doc 1" "doc1" "2025-07-25"
        ("Information about " +:+ text +:+ ": This is a sample document.")
  +:+ LF +:+ "---" +:+ LF +:+ LF
  +:+ sample_doc "Sample Doc 2" "doc2" "2025-07-24"
        ("More details on " +:+ text +:+ ": Additional context here.").

(** The message with the note attached to its content. *)
Definition with_note {Part Rest : Type} (text : string) (msg : Msg.t Part Rest) :
    Msg.t Part Rest :=
  {| Msg.role := Msg.role msg;
     Msg.content := CString (text +:+ LF +:+ LF +:+ retrieval_note text);
     Msg.rest := Msg.rest msg |}.

(** * Properties *)

(** ** The primitives on known values *)

Example Math_round_known_values :
  (λ x, JS.Integral_toString (JS.Math_round x))
    <$> [0.5; 2.5; -2.5; -0.5; 0.49999999999999994; 89.5; 0x1p64; 1e21; 0x1p70]%float
  = ["1"; "3"; "-2"; "0"; "0"; "90"; "18446744073709552000"; "1e+21";
     "1.1805916207174113e+21"].
Proof. vm_compute. reflexivity. Qed.

Example Math_max_min_known_values :
  JS.Math_max 0 (JS.Math_min 1 1.5) = 1%float
  ∧ JS.Math_max 0 (JS.Math_min 1 (-0.25)) = 0%float
  ∧ PrimFloat.is_nan (JS.Math_max 0 (JS.Math_min 1 nan)) = true
  ∧ JS.or_number (PrimFloat.div 0 0) 0 = 0%float
  ∧ JS.or_number 2.5 0 = 2.5%float.
Proof. repeat split; vm_compute; reflexivity. Qed.

(** ** The map operations *)

Section JSMap_facts.
Context {V : Type}.
Implicit Types (m : list (string * V)) (k : string) (v : V).

Lemma get_set_eq k v m : JSMap.get k (JSMap.set k v m) = Some v.
Proof.
  induction m as [|[k' v'] m IH]; simpl.
  - by rewrite decide_True.
  - destruct (decide (k = k')) as [->|Hne]; simpl.
    + by rewrite decide_True.
    + by rewrite decide_False.
Qed.

Lemma get_set_ne k k' v m : k ≠ k' → JSMap.get k' (JSMap.set k v m) = JSMap.get k' m.
Proof.
  intros Hne. induction m as [|[k0 v0] m IH]; simpl.
  - by rewrite decide_False.
  - destruct (decide (k = k0)) as [->|Hne0]; simpl.
    + by rewrite !decide_False.
    + destruct (decide (k' = k0)); done.
Qed.

Lemma get_alter_eq (f : V → V) k m :
  JSMap.get k (JSMap.alter f k m) = f <$> JSMap.get k m.
Proof.
  induction m as [|[k' v'] m IH]; simpl; [done|].
  destruct (decide (k = k')) as [->|Hne]; simpl.
  - by rewrite decide_True.
  - by rewrite decide_False.
Qed.

Lemma get_alter_ne (f : V → V) k k' m :
  k ≠ k' → JSMap.get k' (JSMap.alter f k m) = JSMap.get k' m.
Proof.
  intros Hne. induction m as [|[k0 v0] m IH]; simpl; [done|].
  destruct (decide (k = k0)) as [->|Hne0]; simpl.
  - by rewrite !decide_False.
  - destruct (decide (k' = k0)); done.
Qed.

Lemma get_delete_eq k m : JSMap.get k (JSMap.delete k m) = None.
Proof.
  unfold JSMap.delete. induction m as [|[k' v'] m IH]; simpl; [done|].
  rewrite filter_cons. simpl. destruct (decide (k' ≠ k)) as [Hne|Heq]; simpl.
  - rewrite decide_False by congruence. done.
  - done.
Qed.

Lemma keys_alter (f : V → V) k m : JSMap.keys (JSMap.alter f k m) = JSMap.keys m.
Proof.
  unfold JSMap.keys. induction m as [|[k' v'] m IH]; simpl; [done|].
  destruct (decide (k = k')); simpl; by f_equal.
Qed.

Lemma keys_set_NoDup k v m : NoDup (JSMap.keys m) → NoDup (JSMap.keys (JSMap.set k v m)).
Proof.
  unfold JSMap.keys. induction m as [|[k' v'] m IH]; simpl.
  - intros _. apply NoDup_singleton.
  - intros [Hnotin Hnd]%NoDup_cons. destruct (decide (k = k')) as [->|Hne]; simpl.
    + by apply NoDup_cons.
    + apply NoDup_cons. split; [|by apply IH].
      intros Hin. apply Hnotin. clear -Hin Hne.
      induction m as [|[k0 v0] m IH]; simpl in *.
      * apply list_elem_of_singleton in Hin. congruence.
      * destruct (decide (k = k0)) as [->|]; simpl in *; [done|].
        apply elem_of_cons in Hin as [->|Hin]; [left|right; auto].
Qed.

Lemma elem_of_get k v m : NoDup (JSMap.keys m) → (k, v) ∈ m → JSMap.get k m = Some v.
Proof.
  unfold JSMap.keys. induction m as [|[k' v'] m IH]; simpl.
  - intros _ H. by apply elem_of_nil in H.
  - intros [Hnotin Hnd]%NoDup_cons [Heq|Hin]%elem_of_cons.
    + inversion Heq; subst. by rewrite decide_True.
    + destruct (decide (k = k')) as [->|Hne]; [|by apply IH].
      exfalso. apply Hnotin. apply list_elem_of_fmap. by exists (k', v).
Qed.
Lemma get_alter_is_Some (f : V → V) k k' m :
  is_Some (JSMap.get k' (JSMap.alter f k m)) ↔ is_Some (JSMap.get k' m).
Proof.
  destruct (decide (k = k')) as [->|Hne].
  - rewrite get_alter_eq. apply fmap_is_Some.
  - by rewrite get_alter_ne.
Qed.

Lemma get_set_is_Some k k' v m :
  is_Some (JSMap.get k' m) → is_Some (JSMap.get k' (JSMap.set k v m)).
Proof.
  destruct (decide (k = k')) as [->|Hne].
  - rewrite get_set_eq. by eexists.
  - by rewrite get_set_ne.
Qed.
End JSMap_facts.

(** ** Running a method

    [run] unfolds the plumbing of the method monad and the field assignments,
    leaving the map operations. *)

Ltac run :=
  unfold Sarufi.mutate_session, Sarufi.mutate_stats, Sarufi.deref in *;
  unfold mbind, mret, Sarufi.M_bind, Sarufi.M_ret, Sarufi.this, Sarufi.modify,
    Sarufi.throw, Sarufi.try_, Sarufi.set_sessions, Sarufi.set_sessionStats,
    Sarufi.set_strategies, Sarufi.set_agents in *;
  cbn [fst snd Sarufi.strategies Sarufi.sessions Sarufi.agents Sarufi.sessionStats] in *.

(** ** Strategy registry *)

Lemma validateStrategy_name (strategy : Strategy.t) (self : Sarufi.t) :
  Sarufi.validateStrategy strategy self = (Returned (), self) →
  JS.truthy_string (Strategy.name strategy) = true.
Proof.
  unfold Sarufi.validateStrategy.
  destruct (JS.truthy_string (Strategy.name strategy)); [done|].
  simpl. unfold Sarufi.throw. intros H. inversion H.
Qed.

(** ** Calls on a session that cannot take a message *)

Lemma sendMessage_unknown (self : Sarufi.t) (sessionId message : string) (w : SendWorld.t) :
  JSMap.get sessionId (Sarufi.sessions self) = None →
  Sarufi.sendMessage sessionId message w self = (Threw (SessionNotFound sessionId), self).
Proof. intros Hget. unfold Sarufi.sendMessage. run. by rewrite Hget. Qed.

Lemma sendMessage_inactive (self : Sarufi.t) (sessionId message : string) (w : SendWorld.t)
    (context : SessionContext.t) :
  JSMap.get sessionId (Sarufi.sessions self) = Some context →
  SessionContext.status context ≠ Status.active →
  Sarufi.sendMessage sessionId message w self = (Threw (SessionNotActive sessionId), self).
Proof.
  intros Hget Hstatus. unfold Sarufi.sendMessage. run. rewrite Hget.
  by rewrite bool_decide_eq_false_2.
Qed.

(** C6. [sendMessage] on a session id that is not stored throws
    [SessionNotFound], and on a stored session whose status is not ['active']
    throws [SessionNotActive]; in both cases the instance after the call is the
    instance before it: no counter and no session has changed. *)
Theorem sendMessage_rejected (self : Sarufi.t) (sessionId message : string) (w : SendWorld.t) :
  (Sarufi.getSarufiSession sessionId self = None →
   Sarufi.sendMessage sessionId message w self = (Threw (SessionNotFound sessionId), self))
  ∧ (∀ context,
       Sarufi.getSarufiSession sessionId self = Some context →
       SessionContext.status context ≠ Status.active →
       Sarufi.sendMessage sessionId message w self = (Threw (SessionNotActive sessionId), self)).
Proof.
  unfold Sarufi.getSarufiSession. split.
  - apply sendMessage_unknown.
  - intros context. apply sendMessage_inactive.
Qed.

Lemma sendMessage_rejected_witness :
  Sarufi.sendMessage "nowhere" "hello" (Sample.send Sample.answering) Sample.started
    = (Threw (SessionNotFound "nowhere"), Sample.started)
  ∧ Sarufi.sendMessage "sarufi_sess_100_a" "hello" (Sample.send Sample.answering) Sample.ended
    = (Threw (SessionNotActive "sarufi_sess_100_a"), Sample.ended).
Proof.
  split.
  - apply (proj1 (sendMessage_rejected Sample.started "nowhere" "hello"
                    (Sample.send Sample.answering))).
    reflexivity.
  - eapply (proj2 (sendMessage_rejected Sample.ended "sarufi_sess_100_a" "hello"
                     (Sample.send Sample.answering))).
    + reflexivity.
    + simpl. discriminate.
Defined.

(** ** Strategy performance *)

(** C8. For a strategy name to which no stored session is bound,
    [getStrategyPerformance] returns completion rate 0, escalation rate 0,
    average messages 0 and performance score 0: the [NaN] of the division
    [0 / 0] in the average is replaced by [0] and reaches no field. *)
Theorem performance_without_sessions (self : Sarufi.t) (strategyName : string) :
  filter (λ c, SessionContext.strategy_name c = strategyName)
    (JSMap.values (Sarufi.sessions self)) = [] →
  Sarufi.getStrategyPerformance strategyName self
  = {| Performance.strategy_name := strategyName;
       Performance.total_sessions := 0;
       Performance.completion_rate := 0;
       Performance.escalation_rate := 0;
       Performance.average_messages := 0;
       Performance.performance_score := 0 |}.
Proof.
  intros Hnone. unfold Sarufi.getStrategyPerformance. rewrite Hnone.
  vm_compute. reflexivity.
Qed.

Lemma performance_without_sessions_witness :
  Sarufi.getStrategyPerformance "Unused" Sample.started
  = {| Performance.strategy_name := "Unused";
       Performance.total_sessions := 0;
       Performance.completion_rate := 0;
       Performance.escalation_rate := 0;
       Performance.average_messages := 0;
       Performance.performance_score := 0 |}.
Proof.
  apply (performance_without_sessions Sample.started "Unused"). reflexivity.
Defined.

(** ** Decision interpreter: quality tier *)

(** *** The length of a string in UTF-16 code units *)

Lemma length_append (s1 s2 : string) : JS.length (s1 +:+ s2) = JS.length s1 + JS.length s2.
Proof.
  induction s1 as [|c s1 IH]; [done|].
  change (JS.units_of_byte c + JS.length (s1 +:+ s2)
          = JS.units_of_byte c + JS.length s1 + JS.length s2).
  rewrite IH. lia.
Qed.

Lemma units_of_byte_N (b : N) :
  (b < 256)%N →
  JS.units_of_byte (ascii_of_N b)
  = if (b <? 128)%N then 1 else if (b <? 192)%N then 0 else if (b <? 240)%N then 1 else 2.
Proof. intros Hb. unfold JS.units_of_byte. by rewrite N_ascii_embedding. Qed.

Lemma units_of_bytes (q : N) :
  ((q < 0x80)%N → JS.units_of_byte (ascii_of_N q) = 1)
  ∧ ((q < 0x40)%N → JS.units_of_byte (ascii_of_N (0x80 + q)) = 0)
  ∧ ((q < 0x20)%N → JS.units_of_byte (ascii_of_N (0xC0 + q)) = 1)
  ∧ ((q < 0x10)%N → JS.units_of_byte (ascii_of_N (0xE0 + q)) = 1)
  ∧ ((q < 0x08)%N → JS.units_of_byte (ascii_of_N (0xF0 + q)) = 2).
Proof.
  repeat split; intros Hq; rewrite units_of_byte_N by lia;
    repeat match goal with
    | |- context [(?a <? ?b)%N] => destruct (N.ltb_spec a b); try lia
    end.
Qed.

Lemma length_utf8 (cp : N) : code_point cp → JS.length (utf8 cp) = utf16_units cp.
Proof.
  unfold code_point, utf8, utf16_units. intros Hcp.
  assert (H64 : ∀ n, (n mod 0x40 < 0x40)%N) by (intros n; by apply N.mod_lt).
  destruct (units_of_bytes cp) as (Hascii & _).
  destruct (units_of_bytes (cp mod 0x40)) as (_ & Hc0 & _).
  destruct (units_of_bytes (cp / 0x40 mod 0x40)) as (_ & Hc1 & _).
  destruct (units_of_bytes (cp / 0x1000 mod 0x40)) as (_ & Hc2 & _).
  destruct (units_of_bytes (cp / 0x40)) as (_ & _ & Hl2 & _).
  destruct (units_of_bytes (cp / 0x1000)) as (_ & _ & _ & Hl3 & _).
  destruct (units_of_bytes (cp / 0x40000)) as (_ & _ & _ & _ & Hl4).
  cbn [JS.length].
  destruct (cp <? 0x80)%N eqn:H1; [apply N.ltb_lt in H1|apply N.ltb_ge in H1].
  { replace (cp <? 0x10000)%N with true by (symmetry; apply N.ltb_lt; lia).
    cbn [JS.length]. by rewrite Hascii. }
  destruct (cp <? 0x800)%N eqn:H2; [apply N.ltb_lt in H2|apply N.ltb_ge in H2].
  { replace (cp <? 0x10000)%N with true by (symmetry; apply N.ltb_lt; lia).
    cbn [JS.length]. rewrite Hl2, Hc0; [done|apply H64|].
    apply N.Div0.div_lt_upper_bound; lia. }
  destruct (cp <? 0x10000)%N eqn:H3; [apply N.ltb_lt in H3|apply N.ltb_ge in H3].
  { cbn [JS.length]. rewrite Hl3, Hc1, Hc0; [done|apply H64..|].
    apply N.Div0.div_lt_upper_bound; lia. }
  cbn [JS.length]. rewrite Hl4, Hc2, Hc1, Hc0; [done|apply H64..|].
  apply N.Div0.div_lt_upper_bound; lia.
Qed.

Lemma length_utf8_text (text : list N) :
  Forall code_point text → JS.length (utf8_text text) = utf16_length text.
Proof.
  induction 1 as [|cp text Hcp _ IH]; [done|].
  cbn [utf8_text foldr]. fold (utf8_text text).
  rewrite length_append, (length_utf8 _ Hcp), IH. done.
Qed.

(** C4. The quality score is the sum, starting from 0, of 0.3 for at least
    one cited guideline, 0.3 for a confidence above 0.7, 0.2 for at least one
    opportunity or risk and 0.2 for a reasoning longer than 20 characters: the
    accumulated double is the one closest to the exact sum.  The tier is [high]
    iff the sum is at least 0.8, [medium] iff it is at least 0.5 and below 0.8,
    [low] otherwise.  Hence reasoning of 25 characters, confidence 0.9, one
    guideline and one opportunity give 1.0 and [high]; confidence 0.5, no
    guideline, no risk or opportunity and 5 characters give 0 and [low].  The
    characters counted are the UTF-16 code units of the reasoning: whatever
    text the reasoning encodes, the length that enters the score is the
    UTF-16 length of that text. *)
Theorem quality_score_and_tier (decision : Decision.t) :
  let strategy_analysis := Decision.strategy_analysis decision in
  let flow_decision := Decision.flow_decision decision in
  Agent.qualityScore decision = tenths (score_tenths decision)
  ∧ (Agent.evaluateDecisionQuality decision = Quality.high ↔ (8 ≤ score_tenths decision)%Z)
  ∧ (Agent.evaluateDecisionQuality decision = Quality.medium
     ↔ (5 ≤ score_tenths decision < 8)%Z)
  ∧ (Agent.evaluateDecisionQuality decision = Quality.low ↔ (score_tenths decision < 5)%Z)
  ∧ (∀ text : list N,
       Forall code_point text →
       FlowDecision.reasoning flow_decision = utf8_text text →
       JS.length (FlowDecision.reasoning flow_decision) = utf16_length text)
  ∧ (JS.length (FlowDecision.reasoning flow_decision) = 25%nat →
     FlowDecision.confidence flow_decision = 0.9%float →
     length (StrategyAnalysis.relevant_guidelines strategy_analysis) = 1%nat →
     length (StrategyAnalysis.opportunities strategy_analysis) = 1%nat →
     Agent.qualityScore decision = 1%float
     ∧ Agent.evaluateDecisionQuality decision = Quality.high)
  ∧ (JS.length (FlowDecision.reasoning flow_decision) = 5%nat →
     FlowDecision.confidence flow_decision = 0.5%float →
     length (StrategyAnalysis.relevant_guidelines strategy_analysis) = 0%nat →
     length (StrategyAnalysis.opportunities strategy_analysis) = 0%nat →
     length (StrategyAnalysis.risk_factors strategy_analysis) = 0%nat →
     Agent.qualityScore decision = 0%float
     ∧ Agent.evaluateDecisionQuality decision = Quality.low).
Proof.
  unfold Agent.evaluateDecisionQuality, Agent.qualityScore, score_tenths.
  cbv zeta.
  split; [|split; [|split; [|split; [|split; [|split]]]]].
  7: { intros -> -> -> -> ->. vm_compute. done. }
  6: { intros -> -> -> ->.
       destruct (0 <? length _)%nat; vm_compute; done. }
  5: { intros text Htext ->. by apply length_utf8_text. }
  all: destruct (0 <? length (StrategyAnalysis.relevant_guidelines _))%nat;
    destruct (PrimFloat.ltb 0.7 _);
    destruct ((0 <? length (StrategyAnalysis.opportunities _))%nat
              || (0 <? length (StrategyAnalysis.risk_factors _))%nat);
    destruct (20 <? JS.length _)%nat;
    vm_compute; try reflexivity; split; intros H; try done;
    try (by destruct H); try (by exfalso; apply H).
Qed.

(** The typographic apostrophe takes three bytes and one code unit: the
    reasoning has 19 characters, not more than 20, and the tier is [medium]. *)
Example quality_counts_code_units :
  FlowDecision.reasoning (Decision.flow_decision Sample.terse_decision)
  = "It" +:+ utf8 0x2019 +:+ "s a short reason"
  ∧ String.length (FlowDecision.reasoning (Decision.flow_decision Sample.terse_decision))
    = 21%nat
  ∧ JS.length (FlowDecision.reasoning (Decision.flow_decision Sample.terse_decision))
    = 19%nat
  ∧ score_tenths Sample.terse_decision = 6%Z
  ∧ Agent.evaluateDecisionQuality Sample.terse_decision = Quality.medium.
Proof. repeat split; vm_compute; reflexivity. Qed.

Example quality_of_samples :
  Agent.qualityScore Sample.decision = 1%float
  ∧ Agent.evaluateDecisionQuality Sample.decision = Quality.high
  ∧ Agent.qualityScore Sample.poor_decision = 0%float
  ∧ Agent.evaluateDecisionQuality Sample.poor_decision = Quality.low.
Proof. repeat split; vm_compute; reflexivity. Qed.

(** ** Decision interpreter: context updates *)

Lemma with_properties_lookup_other (target : gmap string Value)
    (props : list (string * Value)) (k : string) :
  k ∉ props.*1 → with_properties target props !! k = target !! k.
Proof.
  unfold with_properties. revert target.
  induction props as [|[k0 v0] props IH]; intros target Hk; simpl in *; [done|].
  apply not_elem_of_cons in Hk as [Hne Hk].
  rewrite IH by done. by apply lookup_insert_ne.
Qed.

Lemma with_properties_lookup (target : gmap string Value)
    (props : list (string * Value)) (k : string) (v : Value) :
  NoDup props.*1 → (k, v) ∈ props → with_properties target props !! k = Some v.
Proof.
  revert target.
  induction props as [|[k0 v0] props IH]; intros target Hnd Hin; simpl in *.
  - by apply elem_of_nil in Hin.
  - apply NoDup_cons in Hnd as [Hfresh Hnd].
    apply elem_of_cons in Hin as [Heq|Hin].
    + inversion Heq; subst.
      change (with_properties (<[k0:=v0]> target) props !! k0 = Some v0).
      rewrite with_properties_lookup_other by done. apply lookup_insert_eq.
    + by apply (IH (<[k0:=v0]> target)).
Qed.

Lemma derived_properties_NoDup decision prompt context w :
  NoDup (Agent.derived_properties decision prompt context w).*1.
Proof.
  unfold Agent.derived_properties. cbn [fmap list_fmap fst].
  apply (bool_decide_unpack _). vm_compute. exact I.
Qed.

(** C3. In the context updates of the interpreter the derived keys are
    defined after the decision's own [context_updates]: every derived key, among
    them [current_goal], [previous_goal], [session_stage] and [user_sentiment],
    holds its derived value whatever the decision supplied under that key, and
    only the other keys hold what the decision supplied. *)
Theorem derived_keys_win (decision : Decision.t) (prompt : string)
    (context : SessionContext.t) (w : Turn.t) :
  let updates := AgentResponse.context_updates
                   (Agent.interpretDecision decision prompt context w) in
  let own := ActionExecution.context_updates (Decision.action_execution decision) in
  Forall (λ kv, updates !! kv.1 = Some kv.2)
    (Agent.derived_properties decision prompt context w)
  ∧ updates !! "current_goal"
    = Some (VString (ActionExecution.next_goal (Decision.action_execution decision)))
  ∧ updates !! "previous_goal" = Some (VString (SessionContext.current_goal context))
  ∧ updates !! "session_stage"
    = Some (VString (SessionStage.to_string
                       (DecisionMeta.session_stage (Decision.meta decision))))
  ∧ updates !! "user_sentiment"
    = Some (VString (Sentiment.to_string
                       (DecisionMeta.user_sentiment (Decision.meta decision))))
  ∧ (∀ k, k ∉ (Agent.derived_properties decision prompt context w).*1 →
          updates !! k = own !! k).
Proof.
  cbv zeta. cbn [Agent.interpretDecision AgentResponse.context_updates].
  pose proof (derived_properties_NoDup decision prompt context w) as Hnd.
  assert (Hall : ∀ k v, (k, v) ∈ Agent.derived_properties decision prompt context w →
    with_properties (ActionExecution.context_updates (Decision.action_execution decision))
      (Agent.derived_properties decision prompt context w) !! k = Some v).
  { intros k v Hin. by apply with_properties_lookup. }
  split; [|split; [|split; [|split; [|split]]]].
  - apply Forall_forall. intros [k v] Hin. by apply Hall.
  - apply Hall. unfold Agent.derived_properties. set_solver.
  - apply Hall. unfold Agent.derived_properties. set_solver.
  - apply Hall. unfold Agent.derived_properties. set_solver.
  - apply Hall. unfold Agent.derived_properties. set_solver.
  - intros k Hk. by apply with_properties_lookup_other.
Qed.

(** A decision that supplies its own [current_goal] does not get it through. *)
Example derived_keys_win_on_collision :
  ActionExecution.context_updates (Decision.action_execution Sample.decision) !! "current_goal"
    = Some (VString "overridden")
  ∧ AgentResponse.context_updates
      (Agent.interpretDecision Sample.decision "hello"
         (Sarufi.new_context "user-1" "Shoe Sales Bot" None Sample.start1)
         Sample.answering) !! "current_goal"
    = Some (VString "discover_needs")
  ∧ AgentResponse.context_updates
      (Agent.interpretDecision Sample.decision "hello"
         (Sarufi.new_context "user-1" "Shoe Sales Bot" None Sample.start1)
         Sample.answering) !! "budget"
    = Some (VNumber 120).
Proof. repeat split; vm_compute; reflexivity. Qed.

(** ** Decision interpreter: reasoning trace *)

Lemma append_assoc (s1 s2 s3 : string) : (s1 +:+ s2) +:+ s3 = s1 +:+ (s2 +:+ s3).
Proof.
  induction s1 as [|c s1 IH]; [done|].
  change (String c ((s1 +:+ s2) +:+ s3) = String c (s1 +:+ (s2 +:+ s3))).
  by rewrite IH.
Qed.

Lemma round_half_up_nearest (n e : Z) : nearest_integer n e (JS.round_half_up n e).
Proof.
  unfold nearest_integer, JS.round_half_up.
  destruct (0 <=? e)%Z eqn:He; [done|].
  apply Z.leb_gt in He.
  replace (- e + 1)%Z with (Z.succ (- e)) by lia.
  rewrite Z.pow_succ_r by lia.
  assert (Hd : (0 < 2 ^ (- e))%Z) by (apply Z.pow_pos_nonneg; lia).
  set (d := (2 ^ (- e))%Z) in *.
  pose proof (Z.div_mod (2 * n + d) (2 * d) ltac:(lia)) as Hdm.
  pose proof (Z.mod_pos_bound (2 * n + d) (2 * d) ltac:(lia)) as Hr.
  nia.
Qed.

(** *** The digits of a natural number are its numeral *)

Lemma numeral_from_uint (d : Decimal.uint) (acc : Z) :
  numeral_from acc (NilEmpty.string_of_uint d) = Some (uint_from acc d).
Proof.
  revert acc. induction d; intros acc; cbn [NilEmpty.string_of_uint numeral_from uint_from];
    [done|..];
    match goal with
    | |- context [digit_value ?c] =>
        let v := eval vm_compute in (digit_value c) in change (digit_value c) with v
    end;
    cbv beta iota; rewrite IHd; do 2 f_equal; lia.
Qed.

Lemma uint_from_revapp (d d' : Decimal.uint) :
  uint_from (Z.of_N (Unsigned.of_lu d')) d = Z.of_N (Unsigned.of_lu (Decimal.revapp d d')).
Proof.
  revert d'. induction d; intros d'; cbn [uint_from Decimal.revapp]; [done|..];
    rewrite <- IHd; f_equal; cbn [Unsigned.of_lu]; lia.
Qed.

Lemma uint_from_of_uint (d : Decimal.uint) : uint_from 0 d = Z.of_N (Pos.of_uint d).
Proof. rewrite Unsigned.of_uint_alt. apply (uint_from_revapp d Decimal.Nil). Qed.

Lemma to_uint_head (p : positive) (d : Decimal.uint) : Pos.to_uint p ≠ Decimal.D0 d.
Proof.
  intros Hd. pose proof (Unsigned.to_of (Pos.to_uint p)) as Hnorm.
  rewrite Unsigned.of_to in Hnorm. cbn [N.to_uint] in Hnorm.
  unfold Decimal.unorm in Hnorm.
  destruct (Decimal.nzhead (Pos.to_uint p)) eqn:Hhead;
    try (rewrite Hd in Hnorm; discriminate).
  - by apply (Unsigned.to_uint_nonzero p).
  - apply (DecimalFacts.nzhead_nonzero (Pos.to_uint p) d). rewrite Hhead, <- Hnorm. exact Hd.
Qed.

Lemma digits_numeral (a : Z) : (0 ≤ a)%Z → numeral (JS.digits a) a.
Proof.
  intros Ha. destruct a as [|p|p]; [by vm_compute|clear Ha|lia].
  unfold JS.digits. cbn [Z.to_int NilZero.string_of_int].
  pose proof (Unsigned.to_uint_nonnil p) as Hnil.
  pose proof (to_uint_head p) as Hhead.
  pose proof (numeral_from_uint (Pos.to_uint p) 0) as Hvalue.
  rewrite uint_from_of_uint, Unsigned.of_to in Hvalue.
  unfold NilZero.string_of_uint.
  destruct (Pos.to_uint p) as [|d|d|d|d|d|d|d|d|d|d] eqn:Hd; [done|..];
    cbn [NilEmpty.string_of_uint] in *; (split; [exact Hvalue|]);
    try discriminate.
  by destruct (Hhead d).
Qed.

Lemma Integral_toString_decimal (z : Z) :
  (Z.abs z ≤ 2 ^ 53)%Z → decimal (JS.Integral_toString (JS.IInt z)) z.
Proof.
  intros Hz. unfold JS.Integral_toString, decimal.
  apply Z.leb_le in Hz. rewrite Hz.
  destruct (z <? 0)%Z eqn:Hneg.
  - apply Z.ltb_lt in Hneg. exists (JS.digits (Z.abs z)). split; [done|].
    replace (- z)%Z with (Z.abs z) by lia. apply digits_numeral. lia.
  - apply Z.ltb_ge in Hneg. rewrite Z.abs_eq by done. by apply digits_numeral.
Qed.

(** What [Math.round] and the conversion to a string give, by the class
    of the double. *)
Lemma Math_round_toString (x : float) :
  match Prim2SF x with
  | S754_nan => JS.Integral_toString (JS.Math_round x) = "NaN"
  | S754_infinity negative =>
      JS.Integral_toString (JS.Math_round x) = if negative then "-Infinity" else "Infinity"
  | S754_zero _ => JS.Integral_toString (JS.Math_round x) = "0"
  | S754_finite s m e =>
      ∃ z, nearest_integer (if s then Z.neg m else Z.pos m) e z
           ∧ ((Z.abs z ≤ 2 ^ 53)%Z → decimal (JS.Integral_toString (JS.Math_round x)) z)
  end.
Proof.
  unfold JS.Math_round. destruct (Prim2SF x) as [s|s| |s m e].
  - by destruct s.
  - by destruct s.
  - done.
  - exists (JS.round_half_up (if s then Z.neg m else Z.pos m) e).
    split; [apply round_half_up_nearest|]. intros Hz.
    destruct (s && (_ =? 0)%Z) eqn:Hzero.
    + apply andb_true_iff in Hzero as [_ ->%Z.eqb_eq]. by vm_compute.
    + by apply Integral_toString_decimal.
Qed.

(** C7. The reasoning of the interpreter is made of five labelled
    fragments in a fixed order, namely the situation assessment, the flow
    reasoning, the intent of the action, the confidence as a percentage and the
    session stage, separated by [" | "].  The percentage is the product of the
    confidence and 100 rounded to the nearest integer (upward on a tie) and
    written in decimal: [0] for a product that is zero, the decimal notation
    of the nearest integer for any other finite product (up to 2^53, far above
    what a confidence between 0 and 1 gives), and the name JavaScript gives to
    a product that is not a finite number. *)
Theorem reasoning_format (decision : Decision.t) (prompt : string)
    (context : SessionContext.t) (w : Turn.t) :
  let confidence := FlowDecision.confidence (Decision.flow_decision decision) in
  ∃ percent : string,
    AgentResponse.reasoning (Agent.interpretDecision decision prompt context w)
    = "Analysis: "
        +:+ StrategyAnalysis.situation_assessment (Decision.strategy_analysis decision)
      +:+ " | " +:+ "Decision: "
        +:+ FlowDecision.reasoning (Decision.flow_decision decision)
      +:+ " | " +:+ "Action: "
        +:+ ActionExecution.message_intent (Decision.action_execution decision)
      +:+ " | " +:+ "Confidence: " +:+ percent +:+ "%"
      +:+ " | " +:+ "Stage: "
        +:+ SessionStage.to_string (DecisionMeta.session_stage (Decision.meta decision))
    ∧ match Prim2SF (PrimFloat.mul confidence 100) with
      | S754_nan => percent = "NaN"
      | S754_infinity negative => percent = if negative then "-Infinity" else "Infinity"
      | S754_zero _ => percent = "0"
      | S754_finite s m e =>
          ∃ z : Z,
            nearest_integer (if s then Z.neg m else Z.pos m) e z
            ∧ ((Z.abs z ≤ 2 ^ 53)%Z → decimal percent z)
      end.
Proof.
  cbv zeta.
  exists (JS.Integral_toString
            (JS.Math_round
               (PrimFloat.mul (FlowDecision.confidence (Decision.flow_decision decision)) 100))).
  split.
  - cbn [Agent.interpretDecision AgentResponse.reasoning Agent.reasoning_fragments
         String.concat].
    rewrite !append_assoc. reflexivity.
  - apply Math_round_toString.
Qed.

(** A numeral has one value, and a number one numeral: the notation
    determines the percentage. *)
Example percentages_known_values :
  decimal "90" 90 ∧ decimal "0" 0 ∧ decimal "-3" (-3) ∧ decimal "100" 100
  ∧ ¬ decimal "090" 90 ∧ ¬ decimal "9" 90 ∧ ¬ decimal "" 0 ∧ ¬ decimal "-0" 0
  ∧ ¬ decimal "9e1" 90.
Proof.
  unfold decimal, numeral. cbn.
  repeat split; try done; try (by intros []); try (by intros [[=] _]);
    try (by intros [_ H]; discriminate H).
  by eexists; split; [reflexivity|split; [reflexivity|done]].
Qed.

Example reasoning_of_sample :
  AgentResponse.reasoning
    (Agent.interpretDecision Sample.decision "hello"
       (Sarufi.new_context "user-1" "Shoe Sales Bot" None Sample.start1) Sample.answering)
  = "Analysis: New visitor | Decision: Start with a warm welcome | Action: Open the conversation | Confidence: 90% | Stage: opening".
Proof. vm_compute. reflexivity. Qed.

(** ** What the lifecycle methods do to the instance *)

Lemma endSession_unknown (self : Sarufi.t) (sessionId : string) (now : Z) :
  JSMap.get sessionId (Sarufi.sessions self) = None →
  Sarufi.endSession sessionId now self = (Returned false, self).
Proof. intros H. unfold Sarufi.endSession. run. by rewrite H. Qed.

Lemma endSession_stored (self : Sarufi.t) (sessionId : string) (now : Z)
    (context : SessionContext.t) :
  JSMap.get sessionId (Sarufi.sessions self) = Some context →
  Sarufi.endSession sessionId now self
  = (Returned true,
     {| Sarufi.strategies := Sarufi.strategies self;
        Sarufi.sessions :=
          JSMap.alter (SessionContext.set_updated_at now) sessionId
            (JSMap.alter (SessionContext.set_status Status.completed) sessionId
               (Sarufi.sessions self));
        Sarufi.agents := Sarufi.agents self;
        Sarufi.sessionStats :=
          SessionStats.add_totalSessionDuration (now - SessionContext.created_at context)
            (SessionStats.incr_completedSessions
               (SessionStats.decr_activeSessions (Sarufi.sessionStats self))) |}).
Proof.
  intros H. unfold Sarufi.endSession. run. rewrite H. run.
  rewrite !get_alter_eq, H. reflexivity.
Qed.

Lemma sendMessage_active (self : Sarufi.t) (sessionId message : string) (w : SendWorld.t)
    (context : SessionContext.t) (agent : Agent.t) :
  JSMap.get sessionId (Sarufi.sessions self) = Some context →
  SessionContext.status context = Status.active →
  JSMap.get (SessionContext.strategy_name context) (Sarufi.agents self) = Some agent →
  let r := turn_response agent message w context in
  Sarufi.sendMessage sessionId message w self
  = (Returned
       {| Output.message := AgentResponse.message r;
          Output.session_id := sessionId;
          Output.agent_reasoning := Some (AgentResponse.reasoning r);
          Output.suggested_actions := suggested r;
          Output.session_status := if escalates r then Status.escalated else Status.active |},
     {| Sarufi.strategies := Sarufi.strategies self;
        Sarufi.sessions :=
          (if escalates r
           then JSMap.alter (SessionContext.set_status Status.escalated) sessionId
           else id)
            (JSMap.alter (SessionContext.set_updated_at (SendWorld.context_updated_at w))
               sessionId
               (JSMap.alter (merge_updates (AgentResponse.context_updates r)) sessionId
                  (JSMap.alter count_message sessionId
                     (JSMap.alter (SessionContext.push_message (assistant_message r w))
                        sessionId
                        (JSMap.alter count_message sessionId
                           (JSMap.alter
                              (SessionContext.push_message (user_message message w))
                              sessionId (Sarufi.sessions self)))))));
        Sarufi.agents := Sarufi.agents self;
        Sarufi.sessionStats :=
          (if escalates r then SessionStats.decr_activeSessions else id)
            (SessionStats.incr_totalMessages (Sarufi.sessionStats self)) |}).
Proof.
  intros Hget Hactive Hagent r.
  unfold Sarufi.sendMessage. run. rewrite Hget.
  rewrite bool_decide_eq_true_2 by done. cbn [negb]. rewrite Hagent. run.
  rewrite !get_alter_eq, Hget. cbn [fmap option_fmap option_map].
  unfold Sarufi.updateSessionContext. run.
  rewrite !get_alter_eq, Hget. cbn [fmap option_fmap option_map]. run.
  unfold escalates, suggested. subst r. unfold turn_response, heard.
  destruct (AgentResponse.meta _) as [meta|]; [destruct (ResponseMeta.should_escalate meta)|];
    run; rewrite ?get_alter_eq, ?Hget; cbn; rewrite ?Hactive; reflexivity.
Qed.

Lemma endSession_returns (self : Sarufi.t) (sessionId : string) (now : Z) :
  ∃ b, (Sarufi.endSession sessionId now self).1 = Returned b.
Proof.
  destruct (JSMap.get sessionId (Sarufi.sessions self)) as [context|] eqn:Hget.
  - rewrite (endSession_stored _ _ _ _ Hget). by exists true.
  - rewrite (endSession_unknown _ _ _ Hget). by exists false.
Qed.

Lemma startSession_ok (self : Sarufi.t) (userId strategyName : string)
    (initialContext : option (gmap string Value)) (w : StartWorld.t)
    (strategy : Strategy.t) (agent : Agent.t) :
  JSMap.get strategyName (Sarufi.strategies self) = Some strategy →
  JSMap.get strategyName (Sarufi.agents self) = Some agent →
  let self1 := ended_first userId w self in
  let sessionId := StartWorld.session_id w in
  let context := Sarufi.new_context userId strategyName initialContext w in
  let r := greeting agent userId strategyName initialContext w in
  Sarufi.startSession userId strategyName initialContext w self
  = (Returned
       {| Session.session_id := sessionId;
          Session.initial_message := AgentResponse.message r;
          Session.context :=
            SessionContext.set_updated_at (StartWorld.context_updated_at w)
              (merge_updates (AgentResponse.context_updates r)
                 (SessionContext.push_message (greeting_message r w) context)) |},
     {| Sarufi.strategies := Sarufi.strategies self1;
        Sarufi.sessions :=
          JSMap.alter (SessionContext.set_updated_at (StartWorld.context_updated_at w))
            sessionId
            (JSMap.alter (merge_updates (AgentResponse.context_updates r)) sessionId
               (JSMap.alter (SessionContext.push_message (greeting_message r w)) sessionId
                  (JSMap.set sessionId context (Sarufi.sessions self1))));
        Sarufi.agents := Sarufi.agents self1;
        Sarufi.sessionStats :=
          SessionStats.incr_activeSessions
            (SessionStats.incr_totalSessions (Sarufi.sessionStats self1)) |}).
Proof.
  intros Hstrategy Hagent self1 sessionId context r.
  unfold Sarufi.startSession. run. rewrite Hstrategy, Hagent.
  assert (Hrest : ∀ self0 : Sarufi.t,
    (let (o, self') :=
       Sarufi.updateSessionContext sessionId (AgentResponse.context_updates r)
         (StartWorld.context_updated_at w)
         {| Sarufi.strategies := Sarufi.strategies self0;
            Sarufi.sessions :=
              JSMap.alter (SessionContext.push_message (greeting_message r w)) sessionId
                (JSMap.set sessionId context (Sarufi.sessions self0));
            Sarufi.agents := Sarufi.agents self0;
            Sarufi.sessionStats :=
              SessionStats.incr_activeSessions
                (SessionStats.incr_totalSessions (Sarufi.sessionStats self0)) |} in
     match o with
     | Returned _ =>
         (Returned
            {| Session.session_id := sessionId;
               Session.initial_message := AgentResponse.message r;
               Session.context :=
                 default context (JSMap.get sessionId (Sarufi.sessions self')) |},
          self')
     | Threw e => (Threw e, self')
     end)
    = (Returned
         {| Session.session_id := sessionId;
            Session.initial_message := AgentResponse.message r;
            Session.context :=
              SessionContext.set_updated_at (StartWorld.context_updated_at w)
                (merge_updates (AgentResponse.context_updates r)
                   (SessionContext.push_message (greeting_message r w) context)) |},
       {| Sarufi.strategies := Sarufi.strategies self0;
          Sarufi.sessions :=
            JSMap.alter (SessionContext.set_updated_at (StartWorld.context_updated_at w))
              sessionId
              (JSMap.alter (merge_updates (AgentResponse.context_updates r)) sessionId
                 (JSMap.alter (SessionContext.push_message (greeting_message r w)) sessionId
                    (JSMap.set sessionId context (Sarufi.sessions self0))));
          Sarufi.agents := Sarufi.agents self0;
          Sarufi.sessionStats :=
            SessionStats.incr_activeSessions
              (SessionStats.incr_totalSessions (Sarufi.sessionStats self0)) |})).
  { intros self0. unfold Sarufi.updateSessionContext. run.
    rewrite get_alter_eq, get_set_eq. cbn [fmap option_fmap option_map]. run.
    rewrite !get_alter_eq, get_set_eq. reflexivity. }
  subst self1. unfold ended_first.
  destruct (Sarufi.findSessionByUser userId self) as [existing|].
  - destruct (endSession_returns self (SessionContext.session_id existing)
                (StartWorld.ended_at w)) as [b Hb].
    destruct (Sarufi.endSession _ _ self) as [o self1]. simpl in Hb. subst o.
    cbn [snd]. apply Hrest.
  - apply Hrest.
Qed.

Lemma startSession_throws userId strategyName initialContext w self :
  JSMap.get strategyName (Sarufi.strategies self) = None
  ∨ JSMap.get strategyName (Sarufi.agents self) = None →
  ∃ e, Sarufi.startSession userId strategyName initialContext w self = (Threw e, self).
Proof.
  unfold Sarufi.startSession. run. intros [H|H].
  - rewrite H. by eexists.
  - destruct (JSMap.get strategyName (Sarufi.strategies self)); rewrite ?H; by eexists.
Qed.

(** ** Ending a session *)

(** No call takes a session out of the store. *)
Lemma stored_stays (c : Call) (self : Sarufi.t) (sessionId : string) :
  is_Some (JSMap.get sessionId (Sarufi.sessions self)) →
  is_Some (JSMap.get sessionId (Sarufi.sessions (after c self))).
Proof.
  intros Hstored.
  assert (Hend : ∀ k now,
    is_Some (JSMap.get sessionId (Sarufi.sessions (Sarufi.endSession k now self).2))).
  { intros k now. destruct (JSMap.get k (Sarufi.sessions self)) as [context|] eqn:Hget.
    - rewrite (endSession_stored _ _ _ _ Hget). cbn [snd Sarufi.sessions].
      by rewrite !get_alter_is_Some.
    - by rewrite (endSession_unknown _ _ _ Hget). }
  destruct c as [strategy|name|userId strategyName initialContext w|k message w|k now];
    simpl.
  - unfold Sarufi.registerStrategy, Sarufi.validateStrategy. run.
    repeat (match goal with |- context [if ?b then _ else _] => destruct b end; try done).
  - done.
  - destruct (JSMap.get strategyName (Sarufi.strategies self)) as [strategy|] eqn:Hstrategy;
      [|by destruct (startSession_throws userId strategyName initialContext w self
                       (or_introl Hstrategy)) as [e ->]].
    destruct (JSMap.get strategyName (Sarufi.agents self)) as [agent|] eqn:Hagent;
      [|by destruct (startSession_throws userId strategyName initialContext w self
                       (or_intror Hagent)) as [e ->]].
    rewrite (startSession_ok _ _ _ _ _ _ _ Hstrategy Hagent). cbn [snd Sarufi.sessions].
    rewrite !get_alter_is_Some. apply get_set_is_Some.
    unfold ended_first. destruct (Sarufi.findSessionByUser userId self); [apply Hend|done].
  - destruct (JSMap.get k (Sarufi.sessions self)) as [context|] eqn:Hget;
      [|by rewrite (sendMessage_unknown _ _ _ _ Hget)].
    destruct (decide (SessionContext.status context = Status.active)) as [Hactive|Hinactive];
      [|by rewrite (sendMessage_inactive _ _ _ _ _ Hget Hinactive)].
    destruct (JSMap.get (SessionContext.strategy_name context) (Sarufi.agents self))
      as [agent|] eqn:Hagent.
    + rewrite (sendMessage_active _ _ _ _ _ _ Hget Hactive Hagent). cbn [snd Sarufi.sessions].
      destruct (escalates _); cbn [id]; by rewrite !get_alter_is_Some.
    + unfold Sarufi.sendMessage. run. rewrite Hget.
      rewrite bool_decide_eq_true_2 by done. cbn [negb]. by rewrite Hagent.
  - apply Hend.
Qed.

(** C2, as amended.  [endSession] returns [true] whenever the session id
    is stored, and no call takes a session out of the store: ending a started
    session a second time returns [true] again and leaves it ['completed'].  It
    returns [false] only for an id that is not stored, and that call changes
    nothing, no counter and no session. *)
Theorem endSession_twice (self : Sarufi.t) (sessionId : string) (now1 now2 : Z) :
  (Sarufi.getSarufiSession sessionId self ≠ None →
   ∃ self1 self2 context2,
     Sarufi.endSession sessionId now1 self = (Returned true, self1)
     ∧ Sarufi.endSession sessionId now2 self1 = (Returned true, self2)
     ∧ Sarufi.getSarufiSession sessionId self2 = Some context2
     ∧ SessionContext.status context2 = Status.completed)
  ∧ (Sarufi.getSarufiSession sessionId self = None →
     Sarufi.endSession sessionId now1 self = (Returned false, self))
  ∧ (∀ c : Call,
       Sarufi.getSarufiSession sessionId self ≠ None →
       Sarufi.getSarufiSession sessionId (after c self) ≠ None).
Proof.
  unfold Sarufi.getSarufiSession. split; [|split].
  - destruct (JSMap.get sessionId (Sarufi.sessions self)) as [context|] eqn:Hget; [|done].
    intros _. rewrite (endSession_stored _ _ _ _ Hget).
    eexists _, _, _. split; [reflexivity|].
    erewrite endSession_stored; last first.
    { cbn [Sarufi.sessions]. rewrite !get_alter_eq, Hget. reflexivity. }
    split; [reflexivity|]. cbn [Sarufi.sessions].
    rewrite !get_alter_eq, Hget. split; reflexivity.
  - apply endSession_unknown.
  - intros c Hstored. apply not_eq_None_Some. apply stored_stays.
    by apply not_eq_None_Some.
Qed.

Lemma endSession_twice_witness :
  ∃ self1 self2 context2,
    Sarufi.endSession "sarufi_sess_100_a" 400 Sample.started = (Returned true, self1)
    ∧ Sarufi.endSession "sarufi_sess_100_a" 500 self1 = (Returned true, self2)
    ∧ Sarufi.getSarufiSession "sarufi_sess_100_a" self2 = Some context2
    ∧ SessionContext.status context2 = Status.completed.
Proof.
  apply (proj1 (endSession_twice Sample.started "sarufi_sess_100_a" 400 500)).
  discriminate.
Defined.

(** C2 as stated fails: the second [endSession] of a started session
    returns [true], not [false], and counts the session a second time. *)
Lemma endSession_twice_counterexample :
  Sarufi.endSession "sarufi_sess_100_a" 400 Sample.started = (Returned true, Sample.ended)
  ∧ (Sarufi.endSession "sarufi_sess_100_a" 500 Sample.ended).1 = Returned true
  ∧ (Sarufi.endSession "sarufi_sess_100_a" 500 Sample.ended).1 ≠ Returned false
  ∧ SessionStats.completedSessions (Sarufi.sessionStats Sample.ended) = 1%Z
  ∧ SessionStats.completedSessions
      (Sarufi.sessionStats (Sarufi.endSession "sarufi_sess_100_a" 500 Sample.ended).2) = 2%Z
  ∧ SessionStats.activeSessions
      (Sarufi.sessionStats (Sarufi.endSession "sarufi_sess_100_a" 500 Sample.ended).2)
    = (-1)%Z.
Proof. repeat split; try (vm_compute; reflexivity). vm_compute. discriminate. Qed.

(** ** The synthetic first turn *)

Lemma ended_first_totalMessages (userId : string) (w : StartWorld.t) (self : Sarufi.t) :
  SessionStats.totalMessages (Sarufi.sessionStats (ended_first userId w self))
  = SessionStats.totalMessages (Sarufi.sessionStats self).
Proof.
  unfold ended_first. destruct (Sarufi.findSessionByUser userId self) as [existing|]; [|done].
  destruct (JSMap.get (SessionContext.session_id existing) (Sarufi.sessions self))
    as [context|] eqn:Hget.
  - by rewrite (endSession_stored _ _ _ _ Hget).
  - by rewrite (endSession_unknown _ _ _ Hget).
Qed.

(** C10. A successful [startSession] appends exactly one message, the
    assistant's answer to ['[SESSION_STARTED]'], to the stored session, leaves
    that session's [messages_count] at 0 and leaves the total-messages counter
    as it was.  A [sendMessage] turn on an active session appends the user's and
    the assistant's message, adds 2 to [messages_count] (one for each) and 1 to
    the total-messages counter (for the user's message). *)
Theorem synthetic_turn_not_counted (self : Sarufi.t) (userId strategyName : string)
    (initialContext : option (gmap string Value)) (w : StartWorld.t)
    (strategy : Strategy.t) (agent : Agent.t) :
  JSMap.get strategyName (Sarufi.strategies self) = Some strategy →
  JSMap.get strategyName (Sarufi.agents self) = Some agent →
  (∃ session self',
     Sarufi.startSession userId strategyName initialContext w self = (Returned session, self')
     ∧ Sarufi.getSarufiSession (Session.session_id session) self'
       = Some (Session.context session)
     ∧ SessionContext.messages (Session.context session)
       = [ {| Message.id := StartWorld.message_id w;
              Message.role := Role.assistant;
              Message.content := Session.initial_message session;
              Message.timestamp := StartWorld.message_timestamp w |} ]
     ∧ SessionContext.messages_count (Session.context session) = 0%Z
     ∧ SessionStats.totalMessages (Sarufi.sessionStats self')
       = SessionStats.totalMessages (Sarufi.sessionStats self))
  ∧ (∀ (self0 : Sarufi.t) (sessionId message : string) (w0 : SendWorld.t)
       (context0 : SessionContext.t) (agent0 : Agent.t),
       Sarufi.getSarufiSession sessionId self0 = Some context0 →
       SessionContext.status context0 = Status.active →
       JSMap.get (SessionContext.strategy_name context0) (Sarufi.agents self0) = Some agent0 →
       ∃ out self0' context0',
         Sarufi.sendMessage sessionId message w0 self0 = (Returned out, self0')
         ∧ Sarufi.getSarufiSession sessionId self0' = Some context0'
         ∧ SessionContext.messages context0'
           = SessionContext.messages context0
               ++ [ user_message message w0;
                    {| Message.id := SendWorld.assistant_message_id w0;
                       Message.role := Role.assistant;
                       Message.content := Output.message out;
                       Message.timestamp := SendWorld.assistant_timestamp w0 |} ]
         ∧ SessionContext.messages_count context0'
           = (SessionContext.messages_count context0 + 2)%Z
         ∧ SessionStats.totalMessages (Sarufi.sessionStats self0')
           = (SessionStats.totalMessages (Sarufi.sessionStats self0) + 1)%Z).
Proof.
  intros Hstrategy Hagent. split.
  - eexists _, _. split; [by eapply startSession_ok|].
    unfold Sarufi.getSarufiSession. cbn [Session.session_id Session.context Sarufi.sessions
      Sarufi.sessionStats Session.initial_message].
    rewrite !get_alter_eq, get_set_eq.
    split; [reflexivity|]. split; [reflexivity|]. split; [reflexivity|].
    apply ended_first_totalMessages.
  - unfold Sarufi.getSarufiSession.
    intros self0 sessionId message w0 context0 agent0 Hget Hactive Hagent0.
    rewrite (sendMessage_active _ _ _ _ _ _ Hget Hactive Hagent0).
    destruct (escalates _); (eexists _, _, _; split; [reflexivity|]);
      cbn [Sarufi.sessions Sarufi.sessionStats id]; rewrite !get_alter_eq, Hget;
      (split; [reflexivity|]);
      (split; [cbn; by rewrite <- app_assoc|]);
      (split; [cbn; lia|]); cbn; lia.
Qed.

Lemma synthetic_turn_not_counted_witness :
  ∃ session self',
    Sarufi.startSession "user-1" "Shoe Sales Bot" None Sample.start1 Sample.registered
      = (Returned session, self')
    ∧ Sarufi.getSarufiSession (Session.session_id session) self'
      = Some (Session.context session)
    ∧ SessionContext.messages (Session.context session)
      = [ {| Message.id := "msg_101_a";
             Message.role := Role.assistant;
             Message.content := Session.initial_message session;
             Message.timestamp := 101 |} ]
    ∧ SessionContext.messages_count (Session.context session) = 0%Z
    ∧ SessionStats.totalMessages (Sarufi.sessionStats self')
      = SessionStats.totalMessages (Sarufi.sessionStats Sample.registered).
Proof.
  eapply (proj1 (synthetic_turn_not_counted Sample.registered "user-1" "Shoe Sales Bot"
                   None Sample.start1 Sample.bot (Agent.new Sample.bot) _ _)).
  Unshelve. all: reflexivity.
Defined.

(** ** A turn that fails *)

Lemma turn_fails_iff (prompt : string) (context : SessionContext.t) (w : Turn.t) (e : Thrown) :
  turn_fails w e ↔ Agent.processPrompt_try prompt context w = Threw e.
Proof.
  unfold Agent.processPrompt_try. split.
  - intros [e' Hround|toolCalls Hround Hfind|toolCalls decisionCall e' Hround Hfind Hinput];
      rewrite Hround; simpl; [done|by rewrite Hfind|by rewrite Hfind, Hinput].
  - destruct (Turn.round w) as [e'|toolCalls] eqn:Hround; simpl.
    + intros [= <-]. by apply fails_oracle.
    + destruct (List.find _ toolCalls) as [decisionCall|] eqn:Hfind.
      * destruct (ToolCall.input decisionCall) as [decision|e'] eqn:Hinput; [done|].
        intros [= <-]. by eapply fails_malformed.
      * intros [= <-]. by eapply fails_decision_missing.
Qed.

(** The agent catches every failure of its turn: it answers with its
    fallback and never throws into [sendMessage]. *)
Lemma processPrompt_fallback (agent : Agent.t) (prompt : string)
    (context : SessionContext.t) (w : Turn.t) (e : Thrown) :
  turn_fails w e →
  Agent.processPrompt agent prompt context w = Agent.generateFallbackResponse e w.
Proof.
  intros Hfails%(turn_fails_iff prompt context). unfold Agent.processPrompt.
  by rewrite Hfails.
Qed.

(** C1.  The code at a [sendMessage] whose oracle call times out, on an
    active session: the agent has caught the failure, so the handler of
    [sendMessage] does not run.  The session is ['escalated'], in the store
    and in the returned [Output]; the fallback's context delta is in
    [user_inputs]; the error counter has not moved; the message is the
    agent's fallback, not the one of the handler, and the reasoning starts
    with ["System error: "], not with ["Error: "].  The same failure during
    the greeting turn of [startSession] leaves the new session ['active']. *)
Lemma failed_turn_at_timeout :
  SessionContext.status <$> Sarufi.getSarufiSession "sarufi_sess_100_a" Sample.started
    = Some Status.active
  ∧ turn_fails Sample.timing_out (ErrorObject "timeout")
  ∧ (Sarufi.sendMessage "sarufi_sess_100_a" "hello"
       (Sample.send Sample.timing_out) Sample.started).1
    = Returned
        {| Output.message := Agent.fallback_message;
           Output.session_id := "sarufi_sess_100_a";
           Output.agent_reasoning := Some "System error: timeout";
           Output.suggested_actions := Some ["rephrase_or_retry"];
           Output.session_status := Status.escalated |}
  ∧ Agent.fallback_message ≠ Sarufi.degraded_message
  ∧ SessionContext.status
      <$> Sarufi.getSarufiSession "sarufi_sess_100_a"
            (Sarufi.sendMessage "sarufi_sess_100_a" "hello"
               (Sample.send Sample.timing_out) Sample.started).2
    = Some Status.escalated
  ∧ (Sarufi.getSarufiSession "sarufi_sess_100_a" Sample.started
       ≫= λ c, SessionContext.user_inputs c !! "last_error") = None
  ∧ (Sarufi.getSarufiSession "sarufi_sess_100_a"
       (Sarufi.sendMessage "sarufi_sess_100_a" "hello"
          (Sample.send Sample.timing_out) Sample.started).2
       ≫= λ c, SessionContext.user_inputs c !! "last_error") = Some (VString "timeout")
  ∧ SessionStats.errorCount
      (Sarufi.sessionStats
         (Sarufi.sendMessage "sarufi_sess_100_a" "hello"
            (Sample.send Sample.timing_out) Sample.started).2)
    = SessionStats.errorCount (Sarufi.sessionStats Sample.started)
  ∧ SessionContext.status
      <$> Sarufi.getSarufiSession "sarufi_sess_100_a"
            (Sarufi.startSession "user-1" "Shoe Sales Bot" None Sample.start_timing_out
               Sample.registered).2
    = Some Status.active.
Proof.
  split; [vm_compute; reflexivity|].
  split; [by apply fails_oracle|].
  repeat split; try done; vm_compute; reflexivity.
Qed.

(** ** One active session per user *)

Create HintDb benign.

Lemma benign_set_status s : s ≠ Status.active → benign (SessionContext.set_status s).
Proof. intros Hs c. repeat split. simpl. congruence. Qed.

Lemma benign_set_updated_at now : benign (SessionContext.set_updated_at now).
Proof. intros c. by repeat split. Qed.

Lemma benign_push_message msg : benign (SessionContext.push_message msg).
Proof. intros c. by repeat split. Qed.

Lemma benign_count_message : benign count_message.
Proof. intros c. by repeat split. Qed.

Lemma benign_merge_updates updates : benign (merge_updates updates).
Proof. intros c. by repeat split. Qed.

#[global] Hint Resolve benign_set_updated_at benign_push_message benign_count_message
  benign_merge_updates : benign.
#[global] Hint Extern 1 (benign (SessionContext.set_status _)) =>
  apply benign_set_status; discriminate : benign.

Lemma active_sessions_of_length (userId : string) (self : Sarufi.t) :
  length (active_sessions_of userId self) = count_active userId (Sarufi.sessions self).
Proof.
  unfold active_sessions_of, Sarufi.getUserSarufiSessions, count_active, JSMap.values.
  induction (Sarufi.sessions self) as [|[k c] m IH]; [done|].
  unfold active_for in *. cbn [fmap list_fmap snd]. rewrite !filter_cons. cbn [snd].
  destruct (decide (SessionContext.user_id c = userId)) as [Hu|Hu].
  - rewrite filter_cons. destruct (decide (SessionContext.status c = Status.active)) as [Hs|Hs].
    + rewrite decide_True by done. simpl. by rewrite <- IH.
    + rewrite decide_False by tauto. done.
  - rewrite decide_False by tauto. done.
Qed.

Section alter_set.
Implicit Types (m : list (string * SessionContext.t)) (k userId : string).

Lemma alter_well_formed f k m : benign f → well_formed m → well_formed (JSMap.alter f k m).
Proof.
  intros Hf [Hkeys Hids]. split; [by rewrite keys_alter|].
  clear Hkeys. induction m as [|[k' c] m IH]; [done|].
  apply Forall_cons in Hids as [Hid Hids]. simpl.
  destruct (decide (k = k')) as [->|Hne]; apply Forall_cons; split; auto.
  simpl in *. by rewrite (proj1 (Hf c)).
Qed.

Lemma alter_count_le f k userId m :
  benign f → count_active userId (JSMap.alter f k m) ≤ count_active userId m.
Proof.
  intros Hf. unfold count_active. induction m as [|[k' c] m IH]; [done|]. simpl.
  destruct (decide (k = k')) as [->|Hne]; rewrite !filter_cons; simpl.
  - destruct (Hf c) as (_ & Huser & Hstatus).
    destruct (decide (active_for userId (f c))) as [[Hu Hs]|Hn].
    + rewrite decide_True; [done|]. split; [congruence|auto].
    + destruct (decide (active_for userId c)); simpl; lia.
  - destruct (decide (active_for userId c)); simpl; lia.
Qed.

Lemma set_well_formed k c m :
  SessionContext.session_id c = k → well_formed m → well_formed (JSMap.set k c m).
Proof.
  intros Hid [Hkeys Hids]. split; [by apply keys_set_NoDup|].
  clear Hkeys. induction m as [|[k' c'] m IH]; simpl.
  - by apply Forall_singleton.
  - apply Forall_cons in Hids as [Hid' Hids].
    destruct (decide (k = k')) as [->|Hne]; apply Forall_cons; split; auto.
Qed.

Lemma set_count_le k c userId m :
  count_active userId (JSMap.set k c m)
  ≤ count_active userId m + (if decide (active_for userId c) then 1 else 0).
Proof.
  unfold count_active. induction m as [|[k' c'] m IH]; simpl.
  - rewrite filter_cons. simpl. destruct (decide (active_for userId c)); simpl; lia.
  - destruct (decide (k = k')) as [->|Hne]; rewrite !filter_cons; simpl.
    + destruct (decide (active_for userId c)), (decide (active_for userId c'));
        simpl; lia.
    + destruct (decide (active_for userId c')); simpl; lia.
Qed.

(** [find] returns the active session of the user when there is one. *)
Lemma find_active k c userId m :
  count_active userId m ≤ 1 → (k, c) ∈ m → active_for userId c →
  List.find (λ c, bool_decide (active_for userId c)) (JSMap.values m) = Some c.
Proof.
  unfold count_active, JSMap.values. intros Hcount Hin Hactive.
  induction m as [|[k' c'] m IH]; [by apply elem_of_nil in Hin|].
  rewrite filter_cons in Hcount. simpl in *.
  destruct (decide (active_for userId c')) as [Ha|Hn].
  - rewrite bool_decide_eq_true_2 by done.
    apply elem_of_cons in Hin as [[= -> ->]|Hin]; [done|].
    exfalso. simpl in Hcount.
    assert ((k, c) ∈ filter (λ kv, active_for userId kv.2) m) as Hf
      by (by apply list_elem_of_filter).
    destruct (filter _ m); [by apply elem_of_nil in Hf|simpl in Hcount; lia].
  - rewrite bool_decide_eq_false_2 by done.
    apply elem_of_cons in Hin as [[= -> ->]|Hin]; [done|]. by apply IH.
Qed.

Lemma find_none_count userId m :
  List.find (λ c, bool_decide (active_for userId c)) (JSMap.values m) = None →
  count_active userId m = 0.
Proof.
  unfold count_active, JSMap.values. induction m as [|[k c] m IH]; [done|]. simpl.
  rewrite filter_cons. simpl. destruct (decide (active_for userId c)) as [Ha|Hn].
  - by rewrite bool_decide_eq_true_2.
  - rewrite bool_decide_eq_false_2 by done. apply IH.
Qed.

Lemma find_some_elem userId c m :
  well_formed m →
  List.find (λ c, bool_decide (active_for userId c)) (JSMap.values m) = Some c →
  (SessionContext.session_id c, c) ∈ m ∧ active_for userId c.
Proof.
  unfold JSMap.values. intros [_ Hids]. induction m as [|[k c'] m IH]; [done|]. simpl.
  apply Forall_cons in Hids as [Hid Hids]. simpl in Hid.
  destruct (decide (active_for userId c')) as [Ha|Hn].
  - rewrite bool_decide_eq_true_2 by done. intros [= ->]. split; [|done].
    rewrite Hid. left.
  - rewrite bool_decide_eq_false_2 by done. intros Hfind.
    destruct (IH Hids Hfind). split; [by right|done].
Qed.

(** Making the one active session of a user inactive leaves none. *)
Lemma alter_count_zero f k c userId m :
  NoDup (JSMap.keys m) → count_active userId m ≤ 1 →
  (k, c) ∈ m → active_for userId c → ¬ active_for userId (f c) →
  count_active userId (JSMap.alter f k m) = 0.
Proof.
  unfold count_active, JSMap.keys. intros Hkeys Hcount Hin Hactive Hinactive.
  induction m as [|[k' c'] m IH]; [done|].
  apply NoDup_cons in Hkeys as [Hfresh Hkeys].
  rewrite filter_cons in Hcount. simpl in *.
  destruct (decide (k = k')) as [->|Hne].
  - apply elem_of_cons in Hin as [[= ->]|Hin].
    + rewrite filter_cons. simpl. rewrite decide_False by done.
      rewrite decide_True in Hcount by done. simpl in Hcount. lia.
    + exfalso. apply Hfresh. apply list_elem_of_fmap. by exists (k', c).
  - apply elem_of_cons in Hin as [[= -> ->]|Hin]; [done|].
    assert ((k, c) ∈ filter (λ kv, active_for userId kv.2) m) as Hf
      by (by apply list_elem_of_filter).
    rewrite filter_cons. simpl.
    destruct (decide (active_for userId c')) as [Ha|Hn].
    + exfalso. simpl in Hcount.
      destruct (filter _ m); [by apply elem_of_nil in Hf|simpl in Hcount; lia].
    + by apply IH.
Qed.
End alter_set.

Lemma get_elem {V : Type} (k : string) (v : V) (m : list (string * V)) :
  JSMap.get k m = Some v → (k, v) ∈ m.
Proof.
  induction m as [|[k' v'] m IH]; simpl; [done|].
  destruct (decide (k = k')) as [->|Hne].
  - intros [= ->]. left.
  - intros H. right. by apply IH.
Qed.

Lemma invariant_alter f k m : benign f → invariant_map m → invariant_map (JSMap.alter f k m).
Proof.
  intros Hf [Hwf Hcount]. split; [by apply alter_well_formed|].
  intros userId. etrans; [by apply alter_count_le|]. apply Hcount.
Qed.

Lemma invariant_set k c m :
  SessionContext.session_id c = k →
  count_active (SessionContext.user_id c) m = 0 →
  invariant_map m → invariant_map (JSMap.set k c m).
Proof.
  intros Hid Hzero [Hwf Hcount]. split; [by apply set_well_formed|].
  intros userId. etrans; [apply set_count_le|].
  destruct (decide (active_for userId c)) as [[<- _]|_].
  - rewrite Hzero. lia.
  - specialize (Hcount userId). lia.
Qed.

Lemma invariant_endSession sessionId now self :
  invariant_map (Sarufi.sessions self) →
  invariant_map (Sarufi.sessions (Sarufi.endSession sessionId now self).2).
Proof.
  intros Hinv.
  destruct (JSMap.get sessionId (Sarufi.sessions self)) as [context|] eqn:Hget.
  - rewrite (endSession_stored _ _ _ _ Hget). cbn [snd Sarufi.sessions].
    repeat apply invariant_alter; auto with benign.
  - by rewrite (endSession_unknown _ _ _ Hget).
Qed.

(** After the first step of [startSession] the user has no active session. *)
Lemma ended_first_spec userId w self :
  invariant_map (Sarufi.sessions self) →
  invariant_map (Sarufi.sessions (ended_first userId w self))
  ∧ count_active userId (Sarufi.sessions (ended_first userId w self)) = 0
  ∧ ∀ k c, JSMap.get k (Sarufi.sessions self) = Some c → active_for userId c →
           ∃ c', JSMap.get k (Sarufi.sessions (ended_first userId w self)) = Some c'
                 ∧ SessionContext.status c' = Status.completed.
Proof.
  intros Hinv. pose proof Hinv as [[Hkeys Hids] Hcount].
  unfold ended_first, Sarufi.findSessionByUser.
  destruct (List.find _ _) as [existing|] eqn:Hfind.
  - change (List.find (λ c, bool_decide (active_for userId c))
              (JSMap.values (Sarufi.sessions self)) = Some existing) in Hfind.
    pose proof (find_some_elem _ _ _ (conj Hkeys Hids) Hfind) as [Hin Hactive].
    pose proof (elem_of_get _ _ _ Hkeys Hin) as Hget.
    rewrite (endSession_stored _ _ _ _ Hget). cbn [snd Sarufi.sessions].
    split; [repeat apply invariant_alter; auto with benign|]. split.
    + apply Nat.le_0_r. etrans; [apply alter_count_le; auto with benign|].
      apply Nat.le_0_r.
      apply (alter_count_zero _ _ existing); auto.
      intros [_ Hs]. discriminate Hs.
    + intros k c Hk Hc. apply get_elem in Hk.
      pose proof (find_active _ _ _ _ (Hcount userId) Hk Hc) as Hfind'.
      rewrite Hfind in Hfind'. injection Hfind' as ->.
      apply Forall_forall with (x := (k, c)) in Hids; [|done]. simpl in Hids. subst k.
      rewrite !get_alter_eq, Hget. eexists. split; reflexivity.
  - change (List.find (λ c, bool_decide (active_for userId c))
              (JSMap.values (Sarufi.sessions self)) = None) in Hfind.
    split; [done|]. split; [by apply find_none_count|].
    intros k c Hk Hc. apply get_elem in Hk.
    pose proof (find_active _ _ _ _ (Hcount userId) Hk Hc) as Hfind'. congruence.
Qed.

Lemma registerStrategy_sessions strategy self :
  Sarufi.sessions (Sarufi.registerStrategy strategy self).2 = Sarufi.sessions self.
Proof.
  unfold Sarufi.registerStrategy, Sarufi.validateStrategy. run.
  repeat (match goal with |- context [if ?b then _ else _] => destruct b end;
          try reflexivity).
Qed.

Lemma unregisterStrategy_sessions name self :
  Sarufi.sessions (Sarufi.unregisterStrategy name self).2 = Sarufi.sessions self.
Proof. reflexivity. Qed.

Lemma invariant_sendMessage sessionId message w self :
  invariant_map (Sarufi.sessions self) →
  invariant_map (Sarufi.sessions (Sarufi.sendMessage sessionId message w self).2).
Proof.
  intros Hinv.
  destruct (JSMap.get sessionId (Sarufi.sessions self)) as [context|] eqn:Hget;
    [|by rewrite (sendMessage_unknown _ _ _ _ Hget)].
  destruct (decide (SessionContext.status context = Status.active)) as [Hactive|Hinactive];
    [|by rewrite (sendMessage_inactive _ _ _ _ _ Hget Hinactive)].
  destruct (JSMap.get (SessionContext.strategy_name context) (Sarufi.agents self))
    as [agent|] eqn:Hagent.
  - rewrite (sendMessage_active _ _ _ _ _ _ Hget Hactive Hagent). cbn [snd Sarufi.sessions].
    destruct (escalates _); cbn [id]; repeat apply invariant_alter; auto with benign.
  - unfold Sarufi.sendMessage. run. rewrite Hget.
    rewrite bool_decide_eq_true_2 by done. cbn [negb]. by rewrite Hagent.
Qed.

Lemma invariant_startSession userId strategyName initialContext w self :
  invariant_map (Sarufi.sessions self) →
  invariant_map
    (Sarufi.sessions (Sarufi.startSession userId strategyName initialContext w self).2).
Proof.
  intros Hinv.
  destruct (JSMap.get strategyName (Sarufi.strategies self)) as [strategy|] eqn:Hstrategy;
    [|by destruct (startSession_throws userId strategyName initialContext w self
                     (or_introl Hstrategy)) as [e ->]].
  destruct (JSMap.get strategyName (Sarufi.agents self)) as [agent|] eqn:Hagent;
    [|by destruct (startSession_throws userId strategyName initialContext w self
                     (or_intror Hagent)) as [e ->]].
  rewrite (startSession_ok _ _ _ _ _ _ _ Hstrategy Hagent). cbn [snd Sarufi.sessions].
  destruct (ended_first_spec userId w self Hinv) as (Hinv1 & Hzero & _).
  repeat apply invariant_alter; auto with benign.
  by apply invariant_set.
Qed.

Lemma invariant_after c self :
  invariant_map (Sarufi.sessions self) → invariant_map (Sarufi.sessions (after c self)).
Proof.
  intros Hinv. destruct c; simpl.
  - by rewrite registerStrategy_sessions.
  - done.
  - by apply invariant_startSession.
  - by apply invariant_sendMessage.
  - by apply invariant_endSession.
Qed.

Lemma reachable_invariant self : reachable self → invariant_map (Sarufi.sessions self).
Proof.
  induction 1 as [|self c _ IH].
  - split; [split; [apply NoDup_nil_2|apply Forall_nil_2]|].
    intros userId. unfold count_active. simpl. lia.
  - by apply invariant_after.
Qed.

(** C5. In every instance that calls can produce, a user has at most one
    stored session whose status is ['active']; and a successful [startSession]
    for a user leaves every session of that user that was active before it
    ['completed']. *)
Theorem at_most_one_active_session (self : Sarufi.t) :
  reachable self →
  (∀ userId, length (active_sessions_of userId self) ≤ 1)
  ∧ (∀ userId strategyName initialContext w session self',
       Sarufi.startSession userId strategyName initialContext w self
         = (Returned session, self') →
       length (active_sessions_of userId self') ≤ 1
       ∧ ∀ sessionId context,
           Sarufi.getSarufiSession sessionId self = Some context →
           SessionContext.user_id context = userId →
           SessionContext.status context = Status.active →
           sessionId ≠ Session.session_id session →
           ∃ context',
             Sarufi.getSarufiSession sessionId self' = Some context'
             ∧ SessionContext.status context' = Status.completed).
Proof.
  intros Hreach. pose proof (reachable_invariant self Hreach) as Hinv. split.
  - intros userId. rewrite active_sessions_of_length. apply Hinv.
  - intros userId strategyName initialContext w session self' Hstart. split.
    + rewrite active_sessions_of_length.
      pose proof (invariant_startSession userId strategyName initialContext w self Hinv)
        as Hinv'.
      rewrite Hstart in Hinv'. apply Hinv'.
    + unfold Sarufi.getSarufiSession.
      intros sessionId context Hget Huser Hactive Hother.
      destruct (JSMap.get strategyName (Sarufi.strategies self)) as [strategy|] eqn:Hstrategy;
        [|destruct (startSession_throws userId strategyName initialContext w self
                      (or_introl Hstrategy)) as [e He]; congruence].
      destruct (JSMap.get strategyName (Sarufi.agents self)) as [agent|] eqn:Hagent;
        [|destruct (startSession_throws userId strategyName initialContext w self
                      (or_intror Hagent)) as [e He]; congruence].
      rewrite (startSession_ok _ _ _ _ _ _ _ Hstrategy Hagent) in Hstart.
      injection Hstart as <- <-. cbn [Session.session_id] in Hother.
      cbn [Sarufi.sessions]. rewrite !get_alter_ne, get_set_ne by done.
      destruct (ended_first_spec userId w self Hinv) as (_ & _ & Hended).
      by apply (Hended sessionId context).
Qed.

Lemma at_most_one_active_session_witness :
  reachable Sample.restarted
  ∧ (∀ userId, length (active_sessions_of userId Sample.restarted) ≤ 1)
  ∧ (∀ userId strategyName initialContext w session self',
       Sarufi.startSession userId strategyName initialContext w Sample.restarted
         = (Returned session, self') →
       length (active_sessions_of userId self') ≤ 1
       ∧ ∀ sessionId context,
           Sarufi.getSarufiSession sessionId Sample.restarted = Some context →
           SessionContext.user_id context = userId →
           SessionContext.status context = Status.active →
           sessionId ≠ Session.session_id session →
           ∃ context',
             Sarufi.getSarufiSession sessionId self' = Some context'
             ∧ SessionContext.status context' = Status.completed).
Proof.
  assert (Hreach : reachable Sample.restarted).
  { unfold Sample.restarted, Sample.started, Sample.registered.
    repeat apply reachable_call. apply reachable_new. }
  split; [exact Hreach|]. exact (at_most_one_active_session Sample.restarted Hreach).
Defined.

(** The first session of the user was completed when the second started. *)
Example restarted_statuses :
  (λ c, (SessionContext.session_id c, SessionContext.status c))
    <$> Sarufi.getUserSarufiSessions "user-1" Sample.restarted
  = [ ("sarufi_sess_100_a", Status.completed); ("sarufi_sess_200_b", Status.active) ].
Proof. vm_compute. reflexivity. Qed.

(** ** The error counter *)

Lemma after_errorCount (c : Call) (self : Sarufi.t) :
  SessionStats.errorCount (Sarufi.sessionStats (after c self))
  = SessionStats.errorCount (Sarufi.sessionStats self).
Proof.
  assert (Hend : ∀ sessionId now self0,
    SessionStats.errorCount (Sarufi.sessionStats (Sarufi.endSession sessionId now self0).2)
    = SessionStats.errorCount (Sarufi.sessionStats self0)).
  { intros sessionId now self0.
    destruct (JSMap.get sessionId (Sarufi.sessions self0)) as [context|] eqn:Hget.
    - by rewrite (endSession_stored _ _ _ _ Hget).
    - by rewrite (endSession_unknown _ _ _ Hget). }
  destruct c as [strategy|name|userId strategyName initialContext w|sessionId message w
                |sessionId now]; simpl.
  - unfold Sarufi.registerStrategy, Sarufi.validateStrategy. run.
    repeat (match goal with |- context [if ?b then _ else _] => destruct b end;
            try reflexivity).
  - reflexivity.
  - destruct (JSMap.get strategyName (Sarufi.strategies self)) as [strategy|] eqn:Hstrategy;
      [|by destruct (startSession_throws userId strategyName initialContext w self
                       (or_introl Hstrategy)) as [e ->]].
    destruct (JSMap.get strategyName (Sarufi.agents self)) as [agent|] eqn:Hagent;
      [|by destruct (startSession_throws userId strategyName initialContext w self
                       (or_intror Hagent)) as [e ->]].
    rewrite (startSession_ok _ _ _ _ _ _ _ Hstrategy Hagent). cbn [snd Sarufi.sessionStats].
    unfold ended_first. cbn [SessionStats.errorCount SessionStats.incr_activeSessions
      SessionStats.incr_totalSessions].
    destruct (Sarufi.findSessionByUser userId self); [apply Hend|done].
  - destruct (JSMap.get sessionId (Sarufi.sessions self)) as [context|] eqn:Hget;
      [|by rewrite (sendMessage_unknown _ _ _ _ Hget)].
    destruct (decide (SessionContext.status context = Status.active)) as [Hactive|Hinactive];
      [|by rewrite (sendMessage_inactive _ _ _ _ _ Hget Hinactive)].
    destruct (JSMap.get (SessionContext.strategy_name context) (Sarufi.agents self))
      as [agent|] eqn:Hagent.
    + rewrite (sendMessage_active _ _ _ _ _ _ Hget Hactive Hagent).
      cbn [snd Sarufi.sessionStats]. by destruct (escalates _).
    + unfold Sarufi.sendMessage. run. rewrite Hget.
      rewrite bool_decide_eq_true_2 by done. cbn [negb]. by rewrite Hagent.
  - apply Hend.
Qed.

(** No call increments the error counter: the handler of [sendMessage] that
    does so is never entered, because the agent catches every failure of its
    turn before. *)
Lemma errorCount_stays_zero (self : Sarufi.t) :
  reachable self → SessionStats.errorCount (Sarufi.sessionStats self) = 0%Z.
Proof.
  induction 1 as [|self c _ IH]; [done|]. by rewrite after_errorCount.
Qed.

(** * Further properties *)

(** ** More on the map operations *)

Section JSMap_more.
Context {V : Type}.
Implicit Types (m : list (string * V)) (k : string) (v : V).

Lemma keys_set k v m :
  JSMap.keys (JSMap.set k v m)
  = if JSMap.has k m then JSMap.keys m else JSMap.keys m ++ [k].
Proof.
  unfold JSMap.keys, JSMap.has. induction m as [|[k' v'] m IH]; [done|].
  cbn [JSMap.set JSMap.get]. destruct (decide (k = k')) as [->|Hne]; [done|].
  rewrite fmap_cons, IH. by destruct (JSMap.get k m).
Qed.

Lemma get_delete_ne k k' m : k ≠ k' → JSMap.get k' (JSMap.delete k m) = JSMap.get k' m.
Proof.
  intros Hne. unfold JSMap.delete. induction m as [|[k0 v0] m IH]; simpl; [done|].
  rewrite filter_cons. simpl. destruct (decide (k0 ≠ k)) as [Hk|Hk]; simpl.
  - by rewrite IH.
  - apply dec_stable in Hk. subst k0. by rewrite decide_False.
Qed.

Lemma keys_delete_NoDup k m : NoDup (JSMap.keys m) → NoDup (JSMap.keys (JSMap.delete k m)).
Proof.
  unfold JSMap.keys, JSMap.delete. intros Hnd.
  eapply sublist_NoDup; [exact Hnd|]. apply fmap_sublist, sublist_filter.
Qed.

Lemma alter_alter (f g : V → V) k m :
  JSMap.alter f k (JSMap.alter g k m) = JSMap.alter (f ∘ g) k m.
Proof.
  induction m as [|[k' v'] m IH]; simpl; [done|].
  destruct (decide (k = k')) as [->|Hne]; simpl.
  - by rewrite decide_True.
  - rewrite decide_False by done. by rewrite IH.
Qed.

Lemma alter_id k m : JSMap.alter id k m = m.
Proof.
  induction m as [|[k' v'] m IH]; simpl; [done|].
  destruct (decide (k = k')); simpl; [done|]. by rewrite IH.
Qed.
End JSMap_more.

Lemma truthy_string_iff (s : string) : JS.truthy_string s = true ↔ s ≠ "".
Proof. destruct s; simpl; split; congruence. Qed.


(** ** The outcomes of the lifecycle methods, case by case *)

Lemma alter_get {V : Type} (f g : V → V) (k : string) (v : V) (m : list (string * V)) :
  JSMap.get k m = Some v → f v = g v → JSMap.alter f k m = JSMap.alter g k m.
Proof.
  intros Hget Hfg. induction m as [|[k' v'] m IH]; simpl in *; [done|].
  destruct (decide (k = k')) as [->|Hne].
  - injection Hget as ->. by rewrite Hfg.
  - by rewrite IH.
Qed.

Lemma alter_set {V : Type} (f : V → V) (k : string) (v : V) (m : list (string * V)) :
  JSMap.alter f k (JSMap.set k v m) = JSMap.set k (f v) m.
Proof.
  induction m as [|[k' v'] m IH]; simpl.
  - by rewrite decide_True.
  - destruct (decide (k = k')) as [->|Hne]; simpl.
    + by rewrite decide_True.
    + rewrite decide_False by done. by rewrite IH.
Qed.

Lemma endSession_end_state (self : Sarufi.t) (sessionId : string) (now : Z)
    (context : SessionContext.t) :
  JSMap.get sessionId (Sarufi.sessions self) = Some context →
  Sarufi.endSession sessionId now self = (Returned true, end_state self sessionId now context).
Proof.
  intros Hget. rewrite (endSession_stored _ _ _ _ Hget). unfold end_state.
  rewrite alter_alter. by rewrite (alter_get _ (λ _, after_end now context) _ _ _ Hget).
Qed.

Lemma sendMessage_turn (self : Sarufi.t) (sessionId message : string) (w : SendWorld.t)
    (context : SessionContext.t) (agent : Agent.t) :
  JSMap.get sessionId (Sarufi.sessions self) = Some context →
  SessionContext.status context = Status.active →
  JSMap.get (SessionContext.strategy_name context) (Sarufi.agents self) = Some agent →
  Sarufi.sendMessage sessionId message w self
  = (Returned (turn_output agent sessionId message w context),
     turn_state self agent sessionId message w context).
Proof.
  intros Hget Hactive Hagent.
  rewrite (sendMessage_active _ _ _ _ _ _ Hget Hactive Hagent).
  unfold turn_output, turn_state, after_turn. cbv zeta. do 2 f_equal.
  destruct (escalates _); cbn [id]; rewrite !alter_alter;
    by apply (alter_get _ _ _ _ _ Hget).
Qed.

Lemma sendMessage_no_agent (self : Sarufi.t) (sessionId message : string) (w : SendWorld.t)
    (context : SessionContext.t) :
  JSMap.get sessionId (Sarufi.sessions self) = Some context →
  SessionContext.status context = Status.active →
  JSMap.get (SessionContext.strategy_name context) (Sarufi.agents self) = None →
  Sarufi.sendMessage sessionId message w self
  = (Threw (AgentNotFound (SessionContext.strategy_name context)), self).
Proof.
  intros Hget Hactive Hagent. unfold Sarufi.sendMessage. run. rewrite Hget.
  rewrite bool_decide_eq_true_2 by done. cbn [negb]. by rewrite Hagent.
Qed.

Lemma sendMessage_cases (self : Sarufi.t) (sessionId message : string) (w : SendWorld.t) :
  (JSMap.get sessionId (Sarufi.sessions self) = None
   ∧ Sarufi.sendMessage sessionId message w self = (Threw (SessionNotFound sessionId), self))
  ∨ (∃ context,
       JSMap.get sessionId (Sarufi.sessions self) = Some context
       ∧ ((SessionContext.status context ≠ Status.active
           ∧ Sarufi.sendMessage sessionId message w self
             = (Threw (SessionNotActive sessionId), self))
          ∨ (SessionContext.status context = Status.active
             ∧ JSMap.get (SessionContext.strategy_name context) (Sarufi.agents self) = None
             ∧ Sarufi.sendMessage sessionId message w self
               = (Threw (AgentNotFound (SessionContext.strategy_name context)), self))
          ∨ (∃ agent,
               SessionContext.status context = Status.active
               ∧ JSMap.get (SessionContext.strategy_name context) (Sarufi.agents self)
                 = Some agent
               ∧ Sarufi.sendMessage sessionId message w self
                 = (Returned (turn_output agent sessionId message w context),
                    turn_state self agent sessionId message w context)))).
Proof.
  destruct (JSMap.get sessionId (Sarufi.sessions self)) as [context|] eqn:Hget;
    [right; exists context; split; [done|]|left; split; [done|by apply sendMessage_unknown]].
  destruct (decide (SessionContext.status context = Status.active)) as [Hactive|Hinactive];
    [|left; split; [done|by apply (sendMessage_inactive _ _ _ _ context)]].
  destruct (JSMap.get (SessionContext.strategy_name context) (Sarufi.agents self))
    as [agent|] eqn:Hagent.
  - right; right. exists agent. repeat split; try done. by apply sendMessage_turn.
  - right; left. repeat split; try done. by apply sendMessage_no_agent.
Qed.

Lemma startSession_start_state (self : Sarufi.t) (userId strategyName : string)
    (initialContext : option (gmap string Value)) (w : StartWorld.t)
    (strategy : Strategy.t) (agent : Agent.t) :
  JSMap.get strategyName (Sarufi.strategies self) = Some strategy →
  JSMap.get strategyName (Sarufi.agents self) = Some agent →
  Sarufi.startSession userId strategyName initialContext w self
  = (Returned
       {| Session.session_id := StartWorld.session_id w;
          Session.initial_message :=
            AgentResponse.message (greeting agent userId strategyName initialContext w);
          Session.context := after_greeting agent userId strategyName initialContext w |},
     start_state self agent userId strategyName initialContext w).
Proof.
  intros Hstrategy Hagent. rewrite (startSession_ok _ _ _ _ _ _ _ Hstrategy Hagent).
  unfold start_state, after_greeting. cbv zeta. do 2 f_equal.
  by rewrite !alter_alter, alter_set.
Qed.

Lemma startSession_no_strategy (self : Sarufi.t) (userId strategyName : string)
    (initialContext : option (gmap string Value)) (w : StartWorld.t) :
  JSMap.get strategyName (Sarufi.strategies self) = None →
  Sarufi.startSession userId strategyName initialContext w self
  = (Threw (StrategyNotFound strategyName), self).
Proof. intros H. unfold Sarufi.startSession. run. by rewrite H. Qed.

Lemma startSession_no_agent (self : Sarufi.t) (userId strategyName : string)
    (initialContext : option (gmap string Value)) (w : StartWorld.t) (strategy : Strategy.t) :
  JSMap.get strategyName (Sarufi.strategies self) = Some strategy →
  JSMap.get strategyName (Sarufi.agents self) = None →
  Sarufi.startSession userId strategyName initialContext w self
  = (Threw (AgentNotFound strategyName), self).
Proof. intros Hs Ha. unfold Sarufi.startSession. run. by rewrite Hs, Ha. Qed.

(** [ended_first] is the instance itself or the instance after an
    [endSession] on a stored session of the user. *)
Lemma ended_first_cases (userId : string) (w : StartWorld.t) (self : Sarufi.t) :
  ended_first userId w self = self
  ∨ ∃ existing,
      Sarufi.findSessionByUser userId self = Some existing
      ∧ ((JSMap.get (SessionContext.session_id existing) (Sarufi.sessions self) = None
          ∧ ended_first userId w self = self)
         ∨ ∃ context,
             JSMap.get (SessionContext.session_id existing) (Sarufi.sessions self)
               = Some context
             ∧ ended_first userId w self
               = end_state self (SessionContext.session_id existing)
                   (StartWorld.ended_at w) context).
Proof.
  unfold ended_first.
  destruct (Sarufi.findSessionByUser userId self) as [existing|]; [|by left].
  right. exists existing. split; [done|].
  destruct (JSMap.get (SessionContext.session_id existing) (Sarufi.sessions self))
    as [context|] eqn:Hget.
  - right. exists context. split; [done|]. by rewrite (endSession_end_state _ _ _ _ Hget).
  - left. split; [done|]. by rewrite (endSession_unknown _ _ _ Hget).
Qed.

(** ** The language model of a strategy *)

Ltac name_is n k :=
  destruct (decide (n = k)) as [->|?]; [vm_compute; reflexivity|].

Ltac name_is_none n :=
  unfold getLanguageModel, has_property, call_property, JSMap.has, MODEL_CONFIGS,
    anthropic_config, google_config, Object_prototype, LLMProvider_to_string;
  cbn [JS.or_string JS.truthy_string JSMap.get Strategy.llm_provider Strategy.model];
  repeat (rewrite decide_False by done); repeat (rewrite decide_True by done);
  cbn [JSMap.get]; repeat (rewrite decide_False by done).

Ltac not_listed :=
  repeat (apply not_elem_of_cons; split; [done|]); apply not_elem_of_nil.

(** The decision table of [getLanguageModel]. *)
Lemma getLanguageModel_table `{Engine} (strategy : Strategy.t) :
  let modelName := Strategy.model strategy in
  let inherited :=
    if bool_decide (modelName ∈ ["__proto__"; "__defineGetter__"; "__defineSetter__"])
    then Some (Threw (ErrorObject (TypeError_message modelName)))
    else if bool_decide (modelName ∈ ["constructor"; "hasOwnProperty"; "__lookupGetter__";
                                      "__lookupSetter__"; "isPrototypeOf";
                                      "propertyIsEnumerable"; "toString"; "valueOf";
                                      "toLocaleString"])
    then Some (Returned (NotModel modelName))
    else None in
  getLanguageModel strategy
  = match Strategy.llm_provider strategy with
    | LLMProvider.openai => Returned (Model (LanguageModel.google "gemini-2.5-flash"))
    | LLMProvider.anthropic =>
        if bool_decide (modelName ∈ ["claude-3-5-sonnet-20241022";
                                     "claude-3-5-haiku-20241022";
                                     "claude-3-opus-20240229"])
        then Returned (Model (LanguageModel.anthropic modelName))
        else default (Returned (Model (LanguageModel.anthropic "claude-3-5-sonnet-20241022")))
               inherited
    | LLMProvider.google =>
        if bool_decide (modelName ∈ ["gemini-1.5-pro-latest"; "gemini-2.5-flash";
                                     "gemini-pro"])
        then Returned (Model (LanguageModel.google modelName))
        else default (Returned (Model (LanguageModel.google "gemini-2.5-flash"))) inherited
    end.
Proof.
  destruct strategy as [name domain primary_goal secondary_goals provider modelName
                          personality system_prompt guidelines knowledge].
  cbn [Strategy.llm_provider Strategy.model]. cbv zeta.
  destruct provider; [reflexivity| |].
  - name_is modelName "". name_is modelName "default".
    name_is modelName "claude-3-5-sonnet-20241022".
    name_is modelName "claude-3-5-haiku-20241022".
    name_is modelName "claude-3-opus-20240229".
    name_is modelName "__proto__". name_is modelName "__defineGetter__".
    name_is modelName "__defineSetter__". name_is modelName "constructor".
    name_is modelName "hasOwnProperty". name_is modelName "__lookupGetter__".
    name_is modelName "__lookupSetter__". name_is modelName "isPrototypeOf".
    name_is modelName "propertyIsEnumerable". name_is modelName "toString".
    name_is modelName "valueOf". name_is modelName "toLocaleString".
    rewrite !bool_decide_eq_false_2 by not_listed.
    destruct modelName; [done|]. name_is_none modelName. reflexivity.
  - name_is modelName "". name_is modelName "default".
    name_is modelName "gemini-1.5-pro-latest".
    name_is modelName "gemini-2.5-flash".
    name_is modelName "gemini-pro".
    name_is modelName "__proto__". name_is modelName "__defineGetter__".
    name_is modelName "__defineSetter__". name_is modelName "constructor".
    name_is modelName "hasOwnProperty". name_is modelName "__lookupGetter__".
    name_is modelName "__lookupSetter__". name_is modelName "isPrototypeOf".
    name_is modelName "propertyIsEnumerable". name_is modelName "toString".
    name_is modelName "valueOf". name_is modelName "toLocaleString".
    rewrite !bool_decide_eq_false_2 by not_listed.
    destruct modelName; [done|]. name_is_none modelName. reflexivity.
Qed.

(** X10. [getLanguageModel] by provider and model name.  For the provider
    [openai] there is no table, and every model name gives Google's
    [gemini-2.5-flash].  For [anthropic] and [google] a key of the provider's
    table gives that model; [__proto__], [__defineGetter__] and
    [__defineSetter__] make the call throw a [TypeError]; the nine other
    members of [Object.prototype] give the member's return value, which is no
    model; and every other name (the empty one, [default], a name of the other
    provider, a name the types declare but the table lacks) gives the
    provider's default model. *)
Theorem getLanguageModel_choice `{Engine} (strategy : Strategy.t) :
  let modelName := Strategy.model strategy in
  let inherited :=
    if bool_decide (modelName ∈ ["__proto__"; "__defineGetter__"; "__defineSetter__"])
    then Some (Threw (ErrorObject (TypeError_message modelName)))
    else if bool_decide (modelName ∈ ["constructor"; "hasOwnProperty"; "__lookupGetter__";
                                      "__lookupSetter__"; "isPrototypeOf";
                                      "propertyIsEnumerable"; "toString"; "valueOf";
                                      "toLocaleString"])
    then Some (Returned (NotModel modelName))
    else None in
  getLanguageModel strategy
  = match Strategy.llm_provider strategy with
    | LLMProvider.openai => Returned (Model (LanguageModel.google "gemini-2.5-flash"))
    | LLMProvider.anthropic =>
        if bool_decide (modelName ∈ ["claude-3-5-sonnet-20241022";
                                     "claude-3-5-haiku-20241022";
                                     "claude-3-opus-20240229"])
        then Returned (Model (LanguageModel.anthropic modelName))
        else default (Returned (Model (LanguageModel.anthropic "claude-3-5-sonnet-20241022")))
               inherited
    | LLMProvider.google =>
        if bool_decide (modelName ∈ ["gemini-1.5-pro-latest"; "gemini-2.5-flash";
                                     "gemini-pro"])
        then Returned (Model (LanguageModel.google modelName))
        else default (Returned (Model (LanguageModel.google "gemini-2.5-flash"))) inherited
    end.
Proof. apply getLanguageModel_table. Qed.

(** The agent of a strategy can be constructed unless a table is asked for
    one of the three members whose call throws. *)
Lemma constructible_spec `{Engine} (strategy : Strategy.t) :
  constructible strategy
  ↔ Strategy.llm_provider strategy = LLMProvider.openai
    ∨ Strategy.model strategy ∉ ["__proto__"; "__defineGetter__"; "__defineSetter__"].
Proof.
  unfold constructible. rewrite getLanguageModel_table. cbv zeta.
  destruct (Strategy.llm_provider strategy).
  - split; [by left|by eexists].
  - case_bool_decide as Hown.
    + split; [intros _; right|by eexists].
      rewrite !elem_of_cons, elem_of_nil in Hown.
      destruct Hown as [->|[->|[->|[]]]]; not_listed.
    + case_bool_decide as Hthrows.
      * split; [by intros [? [=]]|by intros [[=]|?]].
      * split; [by right|]. intros _. case_bool_decide; by eexists.
  - case_bool_decide as Hown.
    + split; [intros _; right|by eexists].
      rewrite !elem_of_cons, elem_of_nil in Hown.
      destruct Hown as [->|[->|[->|[]]]]; not_listed.
    + case_bool_decide as Hthrows.
      * split; [by intros [? [=]]|by intros [[=]|?]].
      * split; [by right|]. intros _. case_bool_decide; by eexists.
Qed.

(** ** Registration with the construction of the agent *)

#[global] Instance complete_dec (strategy : Strategy.t) : Decision (complete strategy).
Proof. unfold complete. apply _. Defined.

#[global] Instance constructible_dec `{Engine} (strategy : Strategy.t) :
  Decision (constructible strategy).
Proof. unfold constructible. apply _. Defined.

Lemma registerStrategy_complete (strategy : Strategy.t) (self : Sarufi.t) :
  complete strategy →
  Sarufi.registerStrategy strategy self
  = (Returned (),
     {| Sarufi.strategies :=
          JSMap.set (Strategy.name strategy) strategy (Sarufi.strategies self);
        Sarufi.sessions := Sarufi.sessions self;
        Sarufi.agents :=
          JSMap.set (Strategy.name strategy) (Agent.new strategy) (Sarufi.agents self);
        Sarufi.sessionStats := Sarufi.sessionStats self |}).
Proof.
  unfold complete, Sarufi.registerStrategy, Sarufi.validateStrategy.
  rewrite <- !truthy_string_iff. intros (-> & -> & -> & Hp & Hg). cbn [negb].
  rewrite !bool_decide_eq_true_2 by done. cbn [negb]. by run.
Qed.

Lemma WithModel_registerStrategy_constructible `{Engine} (strategy : Strategy.t)
    (self : Sarufi.t) :
  constructible strategy →
  WithModel.registerStrategy strategy self = Sarufi.registerStrategy strategy self.
Proof.
  unfold constructible, WithModel.registerStrategy, Sarufi.registerStrategy,
    WithModel.new_Agent.
  destruct (getLanguageModel strategy) as [handle|e]; [intros _|by intros [? [=]]].
  destruct (negb _); [done|]. run.
  by destruct (Sarufi.validateStrategy strategy self) as [[[]|e] self'].
Qed.

Lemma WithModel_registerStrategy_incomplete `{Engine} (strategy : Strategy.t)
    (self : Sarufi.t) :
  ¬ complete strategy →
  ∃ message,
    WithModel.registerStrategy strategy self = (Threw (ErrorObject message), self).
Proof.
  unfold complete, WithModel.registerStrategy, Sarufi.validateStrategy.
  rewrite <- !truthy_string_iff. intros Hincomplete.
  destruct (JS.truthy_string (Strategy.name strategy)) eqn:Hn; cbn [negb];
    [|by eexists].
  run. destruct (JS.truthy_string (Strategy.primary_goal strategy)) eqn:Hg; cbn [negb];
    [|by eexists].
  destruct (JS.truthy_string (Strategy.domain strategy)) eqn:Hd; cbn [negb];
    [|by eexists].
  destruct (bool_decide (is_Some (Strategy.personality strategy))) eqn:Hp; cbn [negb];
    [|by eexists].
  destruct (bool_decide (is_Some (Strategy.guidelines strategy))) eqn:Hgu; cbn [negb];
    [|by eexists].
  exfalso. apply Hincomplete.
  apply bool_decide_eq_true_1 in Hp, Hgu. done.
Qed.

Lemma WithModel_registerStrategy_unconstructible `{Engine} (strategy : Strategy.t)
    (self : Sarufi.t) :
  complete strategy → ¬ constructible strategy →
  WithModel.registerStrategy strategy self
  = (Threw (ErrorObject (TypeError_message (Strategy.model strategy))),
     Sarufi.set_strategies
       (JSMap.set (Strategy.name strategy) strategy (Sarufi.strategies self)) self).
Proof.
  intros Hcomplete Hnot.
  assert (Hthrows : getLanguageModel strategy
                    = Threw (ErrorObject (TypeError_message (Strategy.model strategy)))).
  { rewrite constructible_spec in Hnot.
    assert (Hprovider : Strategy.llm_provider strategy ≠ LLMProvider.openai)
      by (intros ?; apply Hnot; by left).
    assert (Hmodel : Strategy.model strategy
                     ∈ ["__proto__"; "__defineGetter__"; "__defineSetter__"])
      by (apply dec_stable; intros ?; apply Hnot; by right).
    rewrite getLanguageModel_table. cbv zeta.
    rewrite (bool_decide_eq_true_2 _ Hmodel).
    rewrite !elem_of_cons, elem_of_nil in Hmodel.
    destruct (Strategy.llm_provider strategy); [done| |];
      destruct Hmodel as [->|[->|[->|[]]]]; reflexivity. }
  revert Hcomplete.
  unfold complete, WithModel.registerStrategy, Sarufi.validateStrategy, WithModel.new_Agent.
  rewrite <- !truthy_string_iff. intros (-> & -> & -> & Hp & Hg). cbn [negb].
  rewrite !bool_decide_eq_true_2 by done. cbn [negb]. rewrite Hthrows. by run.
Qed.

(** ** Calls with the construction of the agent *)

Lemma perform_constructs `{Engine} (c : Call) (self : Sarufi.t) :
  constructs c → perform c self = after c self.
Proof.
  destruct c; try done. intros Hc. unfold perform, after.
  by rewrite WithModel_registerStrategy_constructible.
Qed.

Lemma WithModel_registerStrategy_cases `{Engine} (strategy : Strategy.t) (self : Sarufi.t) :
  (WithModel.registerStrategy strategy self).2 = self
  ∨ (complete strategy ∧ constructible strategy
     ∧ (WithModel.registerStrategy strategy self).2
       = {| Sarufi.strategies :=
              JSMap.set (Strategy.name strategy) strategy (Sarufi.strategies self);
            Sarufi.sessions := Sarufi.sessions self;
            Sarufi.agents :=
              JSMap.set (Strategy.name strategy) (Agent.new strategy) (Sarufi.agents self);
            Sarufi.sessionStats := Sarufi.sessionStats self |})
  ∨ (complete strategy ∧ ¬ constructible strategy
     ∧ (WithModel.registerStrategy strategy self).2
       = Sarufi.set_strategies
           (JSMap.set (Strategy.name strategy) strategy (Sarufi.strategies self)) self).
Proof.
  destruct (decide (complete strategy)) as [Hc|Hc].
  - destruct (decide (constructible strategy)) as [Hm|Hm].
    + right; left. split; [done|]. split; [done|].
      by rewrite WithModel_registerStrategy_constructible, registerStrategy_complete.
    + right; right. split; [done|]. split; [done|].
      by rewrite WithModel_registerStrategy_unconstructible.
  - left. by destruct (WithModel_registerStrategy_incomplete strategy self Hc) as [m ->].
Qed.

Lemma perform_sessions `{Engine} (c : Call) (self : Sarufi.t) :
  Sarufi.sessions (perform c self) = Sarufi.sessions (after c self).
Proof.
  destruct c as [strategy| | | |]; try done. unfold perform, after.
  rewrite registerStrategy_sessions.
  by destruct (WithModel_registerStrategy_cases strategy self)
    as [->|[(_ & _ & ->)|(_ & _ & ->)]].
Qed.

Lemma perform_sessionStats `{Engine} (c : Call) (self : Sarufi.t) :
  Sarufi.sessionStats (perform c self) = Sarufi.sessionStats (after c self).
Proof.
  destruct c as [strategy| | | |]; try done. unfold perform, after.
  destruct (decide (complete strategy)) as [Hc|Hc].
  - rewrite registerStrategy_complete by done.
    by destruct (WithModel_registerStrategy_cases strategy self)
      as [->|[(_ & _ & ->)|(_ & _ & ->)]].
  - destruct (WithModel_registerStrategy_incomplete strategy self Hc) as [m ->].
    unfold complete in Hc. rewrite <- !truthy_string_iff in Hc.
    unfold Sarufi.registerStrategy, Sarufi.validateStrategy. run.
    repeat (match goal with |- context [if ?b then _ else _] => destruct b end;
            try reflexivity).
Qed.

Lemma attainable_after `{Engine} (c : Call) (self : Sarufi.t) :
  constructs c → attainable self → attainable (after c self).
Proof. intros Hc Hself. rewrite <- perform_constructs by done. by constructor. Qed.


Ltac attained :=
  repeat (apply attainable_after; [first [exact I|by vm_compute; eexists]|]);
  apply attainable_new.
(** ** Register, get, unregister, get *)

Lemma validateStrategy_complete (strategy : Strategy.t) (self : Sarufi.t) :
  Sarufi.validateStrategy strategy self = (Returned (), self) → complete strategy.
Proof.
  unfold complete, Sarufi.validateStrategy. rewrite <- !truthy_string_iff.
  destruct (JS.truthy_string (Strategy.name strategy)); [|by intros [=]].
  destruct (JS.truthy_string (Strategy.primary_goal strategy)); [|by intros [=]].
  destruct (JS.truthy_string (Strategy.domain strategy)); [|by intros [=]].
  cbn [negb]. case_bool_decide as Hp; [|by intros [=]].
  case_bool_decide as Hg; [|by intros [=]]. done.
Qed.

Lemma unregisterStrategy_getStrategy (name : string) (self : Sarufi.t) :
  Sarufi.getStrategy name (Sarufi.unregisterStrategy name self).2 = None.
Proof.
  unfold Sarufi.unregisterStrategy, Sarufi.getStrategy. run. apply get_delete_eq.
Qed.

(** C9. For every valid strategy (one that [validateStrategy] accepts),
    [registerStrategy] followed by [getStrategy] with the same name returns the
    strategy that was registered, and [unregisterStrategy] followed by
    [getStrategy] with the same name returns nothing.  The call of
    [registerStrategy] returns when the agent of the strategy can be
    constructed; when the constructor throws, the strategy is stored by then,
    and [getStrategy] returns it all the same.  [unregisterStrategy] reports
    that it removed the strategy, and after it [getStrategy] returns nothing
    for the name, in whatever state it was called. *)
Theorem register_get_unregister_get `{Engine} (self : Sarufi.t) (strategy : Strategy.t) :
  Sarufi.validateStrategy strategy self = (Returned (), self) →
  Sarufi.getStrategy (Strategy.name strategy)
    (WithModel.registerStrategy strategy self).2 = Some strategy
  ∧ (constructible strategy → (WithModel.registerStrategy strategy self).1 = Returned ())
  ∧ (Sarufi.unregisterStrategy (Strategy.name strategy)
       (WithModel.registerStrategy strategy self).2).1 = Returned true
  ∧ Sarufi.getStrategy (Strategy.name strategy)
      (Sarufi.unregisterStrategy (Strategy.name strategy)
         (WithModel.registerStrategy strategy self).2).2 = None
  ∧ (∀ other : Sarufi.t,
       Sarufi.getStrategy (Strategy.name strategy)
         (Sarufi.unregisterStrategy (Strategy.name strategy) other).2 = None).
Proof.
  intros Hcomplete%validateStrategy_complete.
  assert (Hstored : Sarufi.getStrategy (Strategy.name strategy)
                      (WithModel.registerStrategy strategy self).2 = Some strategy).
  { destruct (decide (constructible strategy)) as [Hc|Hc].
    - rewrite WithModel_registerStrategy_constructible, registerStrategy_complete by done.
      unfold Sarufi.getStrategy. cbn [snd Sarufi.strategies]. apply get_set_eq.
    - rewrite WithModel_registerStrategy_unconstructible by done.
      unfold Sarufi.getStrategy, Sarufi.set_strategies. cbn [snd Sarufi.strategies].
      apply get_set_eq. }
  split; [exact Hstored|]. split.
  { intros Hc.
    by rewrite WithModel_registerStrategy_constructible, registerStrategy_complete. }
  split.
  { revert Hstored. unfold Sarufi.getStrategy, Sarufi.unregisterStrategy, JSMap.has.
    generalize (WithModel.registerStrategy strategy self).2. intros self' Hstored. run.
    by rewrite Hstored. }
  split; intros; apply unregisterStrategy_getStrategy.
Qed.

Lemma register_get_unregister_get_witness :
  (Sarufi.getStrategy "Shoe Sales Bot"
     (@WithModel.registerStrategy Scenario.engine Sample.bot Sarufi.new).2 = Some Sample.bot
   ∧ (@WithModel.registerStrategy Scenario.engine Sample.bot Sarufi.new).1 = Returned ())
  ∧ (Sarufi.getStrategy "Proto Bot"
       (@WithModel.registerStrategy Scenario.engine Scenario.unconstructible Sarufi.new).2
     = Some Scenario.unconstructible
     ∧ (@WithModel.registerStrategy Scenario.engine Scenario.unconstructible Sarufi.new).1
       = Threw (ErrorObject "providerConfig[__proto__] is not a function")
     ∧ Sarufi.getStrategy "Proto Bot"
         (Sarufi.unregisterStrategy "Proto Bot"
            (@WithModel.registerStrategy Scenario.engine Scenario.unconstructible
               Sarufi.new).2).2 = None).
Proof.
  split.
  - destruct (@register_get_unregister_get Scenario.engine Sarufi.new Sample.bot)
      as (Hget & Hreturns & _); [reflexivity|].
    split; [exact Hget|]. apply Hreturns. by vm_compute; eexists.
  - destruct (@register_get_unregister_get Scenario.engine Sarufi.new
                Scenario.unconstructible) as (Hget & _ & _ & Hgone & _); [reflexivity|].
    split; [exact Hget|]. split; [reflexivity|exact Hgone].
Defined.

(** ** What a call does to the stores *)

Lemma ended_first_registry (userId : string) (w : StartWorld.t) (self : Sarufi.t) :
  Sarufi.strategies (ended_first userId w self) = Sarufi.strategies self
  ∧ Sarufi.agents (ended_first userId w self) = Sarufi.agents self.
Proof.
  destruct (ended_first_cases userId w self)
    as [->|(existing & _ & [[_ ->]|(context & _ & ->)])]; done.
Qed.

Lemma startSession_cases (self : Sarufi.t) (userId strategyName : string)
    (initialContext : option (gmap string Value)) (w : StartWorld.t) :
  (∃ e, Sarufi.startSession userId strategyName initialContext w self = (Threw e, self))
  ∨ ∃ strategy agent,
      JSMap.get strategyName (Sarufi.strategies self) = Some strategy
      ∧ JSMap.get strategyName (Sarufi.agents self) = Some agent
      ∧ Sarufi.startSession userId strategyName initialContext w self
        = (Returned
             {| Session.session_id := StartWorld.session_id w;
                Session.initial_message :=
                  AgentResponse.message (greeting agent userId strategyName initialContext w);
                Session.context := after_greeting agent userId strategyName initialContext w |},
           start_state self agent userId strategyName initialContext w).
Proof.
  destruct (JSMap.get strategyName (Sarufi.strategies self)) as [strategy|] eqn:Hs;
    [|left; eexists; by apply startSession_no_strategy].
  destruct (JSMap.get strategyName (Sarufi.agents self)) as [agent|] eqn:Ha;
    [|left; eexists; by apply (startSession_no_agent _ _ _ _ _ strategy)].
  right. exists strategy, agent. repeat split. by apply (startSession_start_state _ _ _ _ _ strategy).
Qed.

Lemma endSession_cases (self : Sarufi.t) (sessionId : string) (now : Z) :
  (JSMap.get sessionId (Sarufi.sessions self) = None
   ∧ Sarufi.endSession sessionId now self = (Returned false, self))
  ∨ ∃ context,
      JSMap.get sessionId (Sarufi.sessions self) = Some context
      ∧ Sarufi.endSession sessionId now self
        = (Returned true, end_state self sessionId now context).
Proof.
  destruct (JSMap.get sessionId (Sarufi.sessions self)) as [context|] eqn:Hget.
  - right. exists context. split; [done|]. by apply endSession_end_state.
  - left. split; [done|]. by apply endSession_unknown.
Qed.

(** Only the two registry methods write to the strategies and the agents. *)
Lemma after_registry (c : Call) (self : Sarufi.t) :
  match c with
  | CallRegister _ | CallUnregister _ => True
  | _ =>
      Sarufi.strategies (after c self) = Sarufi.strategies self
      ∧ Sarufi.agents (after c self) = Sarufi.agents self
  end.
Proof.
  destruct c as [strategy|name|userId strategyName initialContext w|sessionId message w
                 |sessionId now]; [done|done|..]; unfold after.
  - destruct (startSession_cases self userId strategyName initialContext w)
      as [[e ->]|(strategy & agent & _ & _ & ->)]; [done|].
    apply ended_first_registry.
  - destruct (sendMessage_cases self sessionId message w)
      as [[_ ->]|(context & _ & [[_ ->]|[(_ & _ & ->)|(agent & _ & _ & ->)]])]; done.
  - destruct (endSession_cases self sessionId now) as [[_ ->]|(context & _ & ->)]; done.
Qed.

Lemma registry_ok_perform `{Engine} (c : Call) (self : Sarufi.t) :
  registry_ok self → registry_ok (perform c self).
Proof.
  intros (Hnd & Hstored & Hagents).
  assert (Hframe : ∀ self',
    Sarufi.strategies self' = Sarufi.strategies self →
    Sarufi.agents self' = Sarufi.agents self → registry_ok self').
  { intros self' Hs Ha.
    unfold registry_ok, Sarufi.listStrategies, Sarufi.getStrategy. by rewrite Hs, Ha. }
  destruct c as [strategy|name|userId strategyName initialContext w|sessionId message w
                 |sessionId now].
  - unfold perform.
    destruct (WithModel_registerStrategy_cases strategy self)
      as [->|[(_ & Hm & ->)|(_ & Hm & ->)]]; [done| |].
    + split; [by apply keys_set_NoDup|]. split.
      * intros name. unfold Sarufi.getStrategy. cbn [Sarufi.strategies Sarufi.agents].
        destruct (decide (Strategy.name strategy = name)) as [<-|Hne].
        -- rewrite !get_set_eq. intros _. by eexists.
        -- rewrite !get_set_ne by done. apply Hstored.
      * intros name strategy'. unfold Sarufi.getStrategy.
        cbn [Sarufi.strategies Sarufi.agents].
        destruct (decide (Strategy.name strategy = name)) as [<-|Hne].
        -- rewrite !get_set_eq. by intros [= ->].
        -- rewrite !get_set_ne by done. apply Hagents.
    + split; [by apply keys_set_NoDup|]. split.
      * intros name Hagent. apply get_set_is_Some. by apply Hstored.
      * intros name strategy'. unfold Sarufi.getStrategy.
        cbn [Sarufi.set_strategies Sarufi.strategies Sarufi.agents].
        destruct (decide (Strategy.name strategy = name)) as [<-|Hne].
        -- rewrite get_set_eq. by intros [= <-].
        -- rewrite get_set_ne by done. apply Hagents.
  - split; [by apply keys_delete_NoDup|].
    unfold perform, after, Sarufi.unregisterStrategy, Sarufi.getStrategy. run. split.
    + intros name'. destruct (decide (name = name')) as [<-|Hne].
      * rewrite get_delete_eq. by intros [? [=]].
      * rewrite !get_delete_ne by done. apply Hstored.
    + intros name' strategy'. destruct (decide (name = name')) as [<-|Hne].
      * by rewrite get_delete_eq.
      * rewrite !get_delete_ne by done. apply Hagents.
  - by apply Hframe;
      apply (after_registry (CallStart userId strategyName initialContext w) self).
  - by apply Hframe; apply (after_registry (CallSend sessionId message w) self).
  - by apply Hframe; apply (after_registry (CallEnd sessionId now) self).
Qed.

Lemma attainable_registry `{Engine} (self : Sarufi.t) : attainable self → registry_ok self.
Proof.
  induction 1 as [|self c _ IH]; [|by apply registry_ok_perform].
  split; [apply NoDup_nil_2|]. split; [by intros name [? [=]]|done].
Qed.

Lemma elem_of_keys {V : Type} (k : string) (m : list (string * V)) :
  k ∈ JSMap.keys m ↔ is_Some (JSMap.get k m).
Proof.
  unfold JSMap.keys. induction m as [|[k' v] m IH]; simpl.
  - rewrite elem_of_nil. split; [done|]. by intros [? ?].
  - rewrite elem_of_cons. destruct (decide (k = k')) as [->|Hne].
    + split; [by eexists|by left].
    + rewrite IH. split; [by intros [?|?]|by right].
Qed.

(** ** Registering strategies *)

(** X1. [registerStrategy], the construction of the agent included.  A
    strategy is complete when its name, primary goal and domain are non-empty
    and its personality and guidelines are present.  An incomplete strategy
    makes the call throw and changes nothing.  A complete strategy whose agent
    can be constructed is stored with its agent under its name, at the end of
    the list of names if the name is new and in place of the old one
    otherwise; the other strategies and agents, the sessions and the counters
    are untouched.  A complete strategy whose model name makes
    [getLanguageModel] throw is stored all the same, and the call throws before
    an agent is stored: the agents are as before, so the name keeps the agent
    of the strategy it replaced, or has none. *)
Theorem registerStrategy_outcome `{Engine} (self : Sarufi.t) (strategy : Strategy.t) :
  let name := Strategy.name strategy in
  (¬ complete strategy →
   ∃ message, WithModel.registerStrategy strategy self = (Threw (ErrorObject message), self))
  ∧ (complete strategy →
     ∃ outcome self',
       WithModel.registerStrategy strategy self = (outcome, self')
       ∧ Sarufi.getStrategy name self' = Some strategy
       ∧ (∀ other, other ≠ name →
            Sarufi.getStrategy other self' = Sarufi.getStrategy other self
            ∧ JSMap.get other (Sarufi.agents self') = JSMap.get other (Sarufi.agents self))
       ∧ Sarufi.listStrategies self'
         = (if JSMap.has name (Sarufi.strategies self)
            then Sarufi.listStrategies self
            else Sarufi.listStrategies self ++ [name])
       ∧ Sarufi.sessions self' = Sarufi.sessions self
       ∧ Sarufi.sessionStats self' = Sarufi.sessionStats self
       ∧ if decide (constructible strategy)
         then outcome = Returned ()
              ∧ JSMap.get name (Sarufi.agents self') = Some (Agent.new strategy)
         else outcome = Threw (ErrorObject (TypeError_message (Strategy.model strategy)))
              ∧ Sarufi.agents self' = Sarufi.agents self).
Proof.
  intros name. split; [apply WithModel_registerStrategy_incomplete|].
  intros Hcomplete. unfold Sarufi.getStrategy, Sarufi.listStrategies.
  destruct (decide (constructible strategy)) as [Hm|Hm].
  - rewrite WithModel_registerStrategy_constructible, registerStrategy_complete by done.
    eexists _, _. split; [reflexivity|]. cbn [Sarufi.strategies Sarufi.agents
      Sarufi.sessions Sarufi.sessionStats].
    rewrite !get_set_eq, keys_set. repeat split; try done; by rewrite get_set_ne.
  - rewrite WithModel_registerStrategy_unconstructible by done.
    eexists _, _. split; [reflexivity|]. cbn [Sarufi.set_strategies Sarufi.strategies
      Sarufi.agents Sarufi.sessions Sarufi.sessionStats].
    rewrite !get_set_eq, keys_set. repeat split; try done; by rewrite get_set_ne.
Qed.

(** X2. In every instance that calls produce from [new Sarufi()], a name is
    listed by [listStrategies] exactly when [getStrategy] finds it, and no
    name is listed twice; an agent is stored only under a registered name; and
    a registered strategy whose agent can be constructed has the agent that
    was constructed from it. *)
Theorem registry_consistent `{Engine} (self : Sarufi.t) (name : string) :
  attainable self →
  NoDup (Sarufi.listStrategies self)
  ∧ (name ∈ Sarufi.listStrategies self ↔ is_Some (Sarufi.getStrategy name self))
  ∧ (is_Some (JSMap.get name (Sarufi.agents self)) →
     is_Some (Sarufi.getStrategy name self))
  ∧ (∀ strategy,
       Sarufi.getStrategy name self = Some strategy → constructible strategy →
       JSMap.get name (Sarufi.agents self) = Some (Agent.new strategy)).
Proof.
  intros (Hnd & Hstored & Hagents)%attainable_registry.
  split; [done|]. split; [apply elem_of_keys|]. split; [apply Hstored|apply Hagents].
Qed.

Lemma registry_consistent_witness :
  NoDup (Sarufi.listStrategies Sample.restarted)
  ∧ ("Shoe Sales Bot" ∈ Sarufi.listStrategies Sample.restarted
     ↔ is_Some (Sarufi.getStrategy "Shoe Sales Bot" Sample.restarted))
  ∧ (is_Some (JSMap.get "Shoe Sales Bot" (Sarufi.agents Sample.restarted)) →
     is_Some (Sarufi.getStrategy "Shoe Sales Bot" Sample.restarted))
  ∧ (∀ strategy,
       Sarufi.getStrategy "Shoe Sales Bot" Sample.restarted = Some strategy →
       constructible (H := Scenario.engine) strategy →
       JSMap.get "Shoe Sales Bot" (Sarufi.agents Sample.restarted)
       = Some (Agent.new strategy)).
Proof.
  apply (registry_consistent (H := Scenario.engine) Sample.restarted "Shoe Sales Bot").
  attained.
Defined.

(** ** The context after a turn, an end and a greeting, field by field *)

Lemma after_turn_fields (agent : Agent.t) (message : string) (w : SendWorld.t)
    (context : SessionContext.t) :
  let r := turn_response agent message w context in
  let c' := after_turn agent message w context in
  SessionContext.session_id c' = SessionContext.session_id context
  ∧ SessionContext.user_id c' = SessionContext.user_id context
  ∧ SessionContext.strategy_name c' = SessionContext.strategy_name context
  ∧ SessionContext.current_goal c' = SessionContext.current_goal context
  ∧ SessionContext.created_at c' = SessionContext.created_at context
  ∧ SessionContext.user_profile c' = SessionContext.user_profile context
  ∧ SessionContext.agent_memory c' = SessionContext.agent_memory context
  ∧ SessionContext.messages c'
    = SessionContext.messages context ++ [user_message message w; assistant_message r w]
  ∧ SessionContext.messages_count c' = (SessionContext.messages_count context + 2)%Z
  ∧ SessionContext.status c'
    = (if escalates r then Status.escalated else SessionContext.status context)
  ∧ SessionContext.user_inputs c'
    = Object_assign (SessionContext.user_inputs context) (AgentResponse.context_updates r)
  ∧ SessionContext.updated_at c' = SendWorld.context_updated_at w.
Proof.
  intros r c'. subst c'. unfold after_turn. fold r.
  destruct (escalates r); cbn; rewrite <- app_assoc; repeat split; lia.
Qed.

Lemma after_end_fields (now : Z) (context : SessionContext.t) :
  let c' := after_end now context in
  SessionContext.session_id c' = SessionContext.session_id context
  ∧ SessionContext.user_id c' = SessionContext.user_id context
  ∧ SessionContext.strategy_name c' = SessionContext.strategy_name context
  ∧ SessionContext.current_goal c' = SessionContext.current_goal context
  ∧ SessionContext.created_at c' = SessionContext.created_at context
  ∧ SessionContext.user_profile c' = SessionContext.user_profile context
  ∧ SessionContext.agent_memory c' = SessionContext.agent_memory context
  ∧ SessionContext.messages c' = SessionContext.messages context
  ∧ SessionContext.messages_count c' = SessionContext.messages_count context
  ∧ SessionContext.status c' = Status.completed
  ∧ SessionContext.user_inputs c' = SessionContext.user_inputs context
  ∧ SessionContext.updated_at c' = now.
Proof. done. Qed.

Lemma after_greeting_fields (agent : Agent.t) (userId strategyName : string)
    (initialContext : option (gmap string Value)) (w : StartWorld.t) :
  let r := greeting agent userId strategyName initialContext w in
  let c' := after_greeting agent userId strategyName initialContext w in
  SessionContext.session_id c' = StartWorld.session_id w
  ∧ SessionContext.user_id c' = userId
  ∧ SessionContext.strategy_name c' = strategyName
  ∧ SessionContext.current_goal c' = "initial_engagement"
  ∧ SessionContext.created_at c' = StartWorld.created_at w
  ∧ SessionContext.user_profile c' = UserProfile.empty
  ∧ SessionContext.messages c' = [greeting_message r w]
  ∧ SessionContext.messages_count c' = 0%Z
  ∧ SessionContext.status c' = Status.active
  ∧ SessionContext.user_inputs c'
    = Object_assign (default ∅ initialContext) (AgentResponse.context_updates r)
  ∧ SessionContext.updated_at c' = StartWorld.context_updated_at w.
Proof. done. Qed.

(** ** Starting a session *)

Lemma processPrompt_decides (agent : Agent.t) (prompt : string) (context : SessionContext.t)
    (w : Turn.t) (decision : Decision.t) :
  decides w decision →
  Agent.processPrompt agent prompt context w
  = Agent.interpretDecision decision prompt context w.
Proof.
  intros (toolCalls & decisionCall & Hround & Hfind & Hinput).
  unfold Agent.processPrompt, Agent.processPrompt_try.
  rewrite Hround. cbn [Outcome_bind]. by rewrite Hfind, Hinput.
Qed.

(** X3. In every instance that calls produce, [startSession] with a name
    that is not registered throws the strategy-not-found error and changes
    nothing, whatever initial context it is given.  With a registered strategy
    whose agent can be constructed, and without an initial context (the
    session then has a fresh object of its own for its [user_inputs]), it
    returns a session.  The session returned is stored under the new id,
    belongs to the user and the strategy, is active whatever the first turn
    answered (also when the turn failed and the fallback asks for escalation),
    counts no message and holds one message, the greeting: the message of the
    decision when the first turn gave one, the fallback message when the turn
    failed. *)
Theorem startSession_outcome `{Engine} (self : Sarufi.t) (userId strategyName : string)
    (w : StartWorld.t) :
  attainable self →
  match Sarufi.getStrategy strategyName self with
  | Some strategy =>
      constructible strategy →
      ∃ session self',
        Sarufi.startSession userId strategyName None w self = (Returned session, self')
        ∧ Session.session_id session = StartWorld.session_id w
        ∧ Sarufi.getSarufiSession (StartWorld.session_id w) self'
          = Some (Session.context session)
        ∧ SessionContext.session_id (Session.context session) = StartWorld.session_id w
        ∧ SessionContext.user_id (Session.context session) = userId
        ∧ SessionContext.strategy_name (Session.context session) = strategyName
        ∧ SessionContext.status (Session.context session) = Status.active
        ∧ SessionContext.messages_count (Session.context session) = 0%Z
        ∧ Message.content <$> SessionContext.messages (Session.context session)
          = [Session.initial_message session]
        ∧ Message.role <$> SessionContext.messages (Session.context session)
          = [Role.assistant]
        ∧ (∀ decision,
             decides (StartWorld.turn w) decision →
             Session.initial_message session
             = ActionExecution.message (Decision.action_execution decision))
        ∧ (∀ error,
             turn_fails (StartWorld.turn w) error →
             Session.initial_message session = Agent.fallback_message)
  | None =>
      ∀ initialContext,
        Sarufi.startSession userId strategyName initialContext w self
        = (Threw (StrategyNotFound strategyName), self)
  end.
Proof.
  intros (_ & _ & Hagents)%attainable_registry. specialize (Hagents strategyName).
  unfold Sarufi.getStrategy in *.
  destruct (JSMap.get strategyName (Sarufi.strategies self)) as [strategy|] eqn:Hs;
    [|by intros initialContext; apply startSession_no_strategy].
  intros Hm.
  rewrite (startSession_start_state _ _ _ _ _ _ _ Hs (Hagents _ eq_refl Hm)).
  eexists _, _. split; [reflexivity|].
  unfold Sarufi.getSarufiSession, start_state. cbn [Sarufi.sessions Session.context
    Session.session_id Session.initial_message].
  rewrite get_set_eq. do 9 (split; [done|]). unfold greeting. split.
  - intros decision Hdecides. by rewrite (processPrompt_decides _ _ _ _ _ Hdecides).
  - intros error Hfails. by rewrite (processPrompt_fallback _ _ _ _ _ Hfails).
Qed.

Lemma startSession_outcome_witness :
  (∃ session self',
     Sarufi.startSession "user-1" "Shoe Sales Bot" None Sample.start2 Sample.ended
     = (Returned session, self')
     ∧ Session.session_id session = StartWorld.session_id Sample.start2
     ∧ Sarufi.getSarufiSession (StartWorld.session_id Sample.start2) self'
       = Some (Session.context session)
     ∧ SessionContext.session_id (Session.context session)
       = StartWorld.session_id Sample.start2
     ∧ SessionContext.user_id (Session.context session) = "user-1"
     ∧ SessionContext.strategy_name (Session.context session) = "Shoe Sales Bot"
     ∧ SessionContext.status (Session.context session) = Status.active
     ∧ SessionContext.messages_count (Session.context session) = 0%Z
     ∧ Message.content <$> SessionContext.messages (Session.context session)
       = [Session.initial_message session]
     ∧ Message.role <$> SessionContext.messages (Session.context session)
       = [Role.assistant]
     ∧ (∀ decision,
          decides (StartWorld.turn Sample.start2) decision →
          Session.initial_message session
          = ActionExecution.message (Decision.action_execution decision))
     ∧ (∀ error,
          turn_fails (StartWorld.turn Sample.start2) error →
          Session.initial_message session = Agent.fallback_message))
  ∧ (∀ initialContext,
       Sarufi.startSession "user-1" "Hat Sales Bot" initialContext Sample.start2
         Sample.ended
       = (Threw (StrategyNotFound "Hat Sales Bot"), Sample.ended)).
Proof.
  split.
  - apply (startSession_outcome (H := Scenario.engine) Sample.ended "user-1"
             "Shoe Sales Bot" Sample.start2).
    + attained.
    + by vm_compute; eexists.
  - pose proof (startSession_outcome (H := Scenario.engine) Sample.ended "user-1"
                  "Hat Sales Bot" Sample.start2) as Hnone.
    assert (Hs : Sarufi.getStrategy "Hat Sales Bot" Sample.ended = None)
      by (vm_compute; reflexivity).
    rewrite Hs in Hnone. apply Hnone. attained.
Defined.

(** X11. A complete strategy whose model name makes [getLanguageModel]
    throw, registered under a name that was free, is registered without an
    agent: [getStrategy] finds it and [listStrategies] lists it, but
    [startSession] with its name throws the agent-not-found error and changes
    nothing. *)
Theorem unconstructible_strategy_cannot_start `{Engine} (self : Sarufi.t)
    (strategy : Strategy.t) (userId : string) (initialContext : option (gmap string Value))
    (w : StartWorld.t) :
  attainable self →
  complete strategy → ¬ constructible strategy →
  Sarufi.getStrategy (Strategy.name strategy) self = None →
  let self' := perform (CallRegister strategy) self in
  Sarufi.getStrategy (Strategy.name strategy) self' = Some strategy
  ∧ Strategy.name strategy ∈ Sarufi.listStrategies self'
  ∧ Sarufi.startSession userId (Strategy.name strategy) initialContext w self'
    = (Threw (AgentNotFound (Strategy.name strategy)), self').
Proof.
  intros (_ & Hstored & _)%attainable_registry Hcomplete Hm Hfree self'.
  specialize (Hstored (Strategy.name strategy)). subst self'.
  unfold perform. rewrite WithModel_registerStrategy_unconstructible by done.
  unfold Sarufi.getStrategy, Sarufi.listStrategies in *.
  cbn [snd Sarufi.set_strategies Sarufi.strategies].
  assert (Hget : JSMap.get (Strategy.name strategy)
                   (JSMap.set (Strategy.name strategy) strategy (Sarufi.strategies self))
                 = Some strategy) by apply get_set_eq.
  split; [done|]. split; [apply elem_of_keys; by eexists|].
  apply (startSession_no_agent _ _ _ _ _ strategy); [done|].
  cbn [Sarufi.agents].
  destruct (JSMap.get (Strategy.name strategy) (Sarufi.agents self)) eqn:Ha; [|done].
  rewrite Hfree in Hstored. by destruct Hstored as [? [=]].
Qed.

Lemma unconstructible_strategy_cannot_start_witness :
  Sarufi.getStrategy "Proto Bot"
    (perform (H := Scenario.engine) (CallRegister Scenario.unconstructible) Sample.started)
  = Some Scenario.unconstructible
  ∧ "Proto Bot"
    ∈ Sarufi.listStrategies
        (perform (H := Scenario.engine) (CallRegister Scenario.unconstructible)
           Sample.started)
  ∧ Sarufi.startSession "user-2" "Proto Bot" None Sample.start2
      (perform (H := Scenario.engine) (CallRegister Scenario.unconstructible) Sample.started)
    = (Threw (AgentNotFound "Proto Bot"),
       perform (H := Scenario.engine) (CallRegister Scenario.unconstructible)
         Sample.started).
Proof.
  apply (unconstructible_strategy_cannot_start (H := Scenario.engine) Sample.started
           Scenario.unconstructible "user-2" None Sample.start2).
  - attained.
  - vm_compute. repeat split; try discriminate; by eexists.
  - vm_compute. by intros [? [=]].
  - reflexivity.
Defined.

(** ** Sending a message *)

(** X4. In every instance that calls produce, whether an active session
    can take a message depends on the registry at the time of the call.  While
    a strategy whose agent can be constructed is registered under the
    session's strategy name, [sendMessage] returns an [Output] for the
    session.  Once the strategy has been unregistered the call throws the
    agent-not-found error and changes nothing: the session stays stored and
    active, and takes no message. *)
Theorem sendMessage_needs_registered_strategy `{Engine} (self : Sarufi.t)
    (sessionId message : string) (w : SendWorld.t) (context : SessionContext.t) :
  attainable self →
  Sarufi.getSarufiSession sessionId self = Some context →
  SessionContext.status context = Status.active →
  match Sarufi.getStrategy (SessionContext.strategy_name context) self with
  | Some strategy =>
      constructible strategy →
      ∃ output self',
        Sarufi.sendMessage sessionId message w self = (Returned output, self')
        ∧ Output.session_id output = sessionId
  | None =>
      Sarufi.sendMessage sessionId message w self
      = (Threw (AgentNotFound (SessionContext.strategy_name context)), self)
      ∧ SessionContext.status <$> Sarufi.getSarufiSession sessionId self
        = Some Status.active
  end.
Proof.
  intros (_ & Hstored & Hagents)%attainable_registry Hget Hactive.
  specialize (Hagents (SessionContext.strategy_name context)).
  specialize (Hstored (SessionContext.strategy_name context)).
  unfold Sarufi.getSarufiSession, Sarufi.getStrategy in *.
  destruct (JSMap.get (SessionContext.strategy_name context) (Sarufi.strategies self))
    as [strategy|] eqn:Hs.
  - intros Hm.
    rewrite (sendMessage_turn _ _ _ _ _ _ Hget Hactive (Hagents _ eq_refl Hm)).
    eexists _, _. split; [reflexivity|]. done.
  - split; [|by rewrite Hget, <- Hactive]. apply sendMessage_no_agent; [done..|].
    destruct (JSMap.get (SessionContext.strategy_name context) (Sarufi.agents self))
      eqn:Ha; [|done].
    by destruct Hstored as [? [=]].
Qed.

Lemma sendMessage_needs_registered_strategy_witness :
  (∃ output self',
     Sarufi.sendMessage "sarufi_sess_100_a" "hello" (Sample.send Sample.answering)
       Sample.started
     = (Returned output, self')
     ∧ Output.session_id output = "sarufi_sess_100_a")
  ∧ (Sarufi.sendMessage "sarufi_sess_100_a" "hello" (Sample.send Sample.answering)
       Scenario.unregistered
     = (Threw (AgentNotFound "Shoe Sales Bot"), Scenario.unregistered)
     ∧ SessionContext.status
         <$> Sarufi.getSarufiSession "sarufi_sess_100_a" Scenario.unregistered
       = Some Status.active).
Proof.
  split.
  - apply (sendMessage_needs_registered_strategy (H := Scenario.engine)
             Sample.started "sarufi_sess_100_a" "hello" (Sample.send Sample.answering)
             (after_greeting (Agent.new Sample.bot) "user-1" "Shoe Sales Bot" None
                Sample.start1)).
    + attained.
    + by vm_compute.
    + reflexivity.
    + by vm_compute; eexists.
  - apply (sendMessage_needs_registered_strategy (H := Scenario.engine)
             Scenario.unregistered "sarufi_sess_100_a" "hello"
             (Sample.send Sample.answering)
             (after_greeting (Agent.new Sample.bot) "user-1" "Shoe Sales Bot" None
                Sample.start1)).
    + attained.
    + by vm_compute.
    + reflexivity.
Defined.

(** X5. When [sendMessage] returns, the status it reports is the status of
    the stored session: [escalated] if the response asked for escalation and
    [active] otherwise.  An escalation takes one off the counter of active
    sessions and closes the session for messages: every later [sendMessage] on
    it throws the not-active error and changes nothing.  Without escalation the
    counter is kept. *)
Theorem escalation_closes_session (self self' : Sarufi.t) (sessionId message : string)
    (w : SendWorld.t) (output : Output.t) :
  Sarufi.sendMessage sessionId message w self = (Returned output, self') →
  SessionContext.status <$> Sarufi.getSarufiSession sessionId self'
    = Some (Output.session_status output)
  ∧ match Output.session_status output with
    | Status.escalated =>
        SessionStats.activeSessions (Sarufi.sessionStats self')
        = (SessionStats.activeSessions (Sarufi.sessionStats self) - 1)%Z
        ∧ ∀ message' w',
            Sarufi.sendMessage sessionId message' w' self'
            = (Threw (SessionNotActive sessionId), self')
    | Status.active =>
        SessionStats.activeSessions (Sarufi.sessionStats self')
        = SessionStats.activeSessions (Sarufi.sessionStats self)
    | _ => False
    end.
Proof.
  intros Hsend.
  destruct (sendMessage_cases self sessionId message w)
    as [[_ H]|(context & Hget & [[_ H]|[(_ & _ & H)|(agent & Hactive & Hagent & H)]])];
    rewrite H in Hsend; try discriminate.
  injection Hsend as <- <-.
  unfold Sarufi.getSarufiSession, turn_state, turn_output.
  cbn [Sarufi.sessions Sarufi.sessionStats Output.session_status].
  rewrite get_alter_eq, Hget. cbn [fmap option_fmap option_map].
  destruct (after_turn_fields agent message w context)
    as (_ & _ & _ & _ & _ & _ & _ & _ & _ & Hstatus & _).
  rewrite Hstatus, Hactive.
  destruct (escalates (turn_response agent message w context)) eqn:Hesc;
    (split; [done|]); [|done].
  split; [done|]. intros message' w'.
  apply (sendMessage_inactive _ _ _ _ (after_turn agent message w context)).
  - cbn [Sarufi.sessions]. by rewrite get_alter_eq, Hget.
  - by rewrite Hstatus.
Qed.

Lemma escalation_closes_session_witness :
  Sarufi.sendMessage "sarufi_sess_100_a" "hello" (Sample.send Sample.timing_out)
    Sample.started
  = (Returned
       {| Output.message := Agent.fallback_message;
          Output.session_id := "sarufi_sess_100_a";
          Output.agent_reasoning := Some "System error: timeout";
          Output.suggested_actions := Some ["rephrase_or_retry"];
          Output.session_status := Status.escalated |},
     Scenario.timed_out)
  ∧ SessionContext.status <$> Sarufi.getSarufiSession "sarufi_sess_100_a" Scenario.timed_out
    = Some Status.escalated
  ∧ SessionStats.activeSessions (Sarufi.sessionStats Scenario.timed_out)
    = (SessionStats.activeSessions (Sarufi.sessionStats Sample.started) - 1)%Z
  ∧ ∀ message' w',
      Sarufi.sendMessage "sarufi_sess_100_a" message' w' Scenario.timed_out
      = (Threw (SessionNotActive "sarufi_sess_100_a"), Scenario.timed_out).
Proof.
  assert (Hsend :
    Sarufi.sendMessage "sarufi_sess_100_a" "hello" (Sample.send Sample.timing_out)
      Sample.started
    = (Returned
         {| Output.message := Agent.fallback_message;
            Output.session_id := "sarufi_sess_100_a";
            Output.agent_reasoning := Some "System error: timeout";
            Output.suggested_actions := Some ["rephrase_or_retry"];
            Output.session_status := Status.escalated |},
       Scenario.timed_out)) by (vm_compute; reflexivity).
  split; [exact Hsend|].
  exact (escalation_closes_session _ _ _ _ _ _ Hsend).
Defined.

(** ** What a call leaves alone *)






(** ** How a stored session may change *)

Lemma evolves_refl (c : SessionContext.t) : evolves c c.
Proof. by split. Qed.

Lemma evolves_trans (c1 c2 c3 : SessionContext.t) :
  evolves c1 c2 → evolves c2 c3 → evolves c1 c3.
Proof.
  intros [] []. split; try congruence; try (by etrans); try lia; auto.
Qed.

Lemma evolves_turn (agent : Agent.t) (message : string) (w : SendWorld.t)
    (context : SessionContext.t) :
  SessionContext.status context = Status.active →
  evolves context (after_turn agent message w context).
Proof.
  intros Hactive.
  destruct (after_turn_fields agent message w context)
    as (? & ? & ? & ? & ? & ? & ? & Hm & Hc & Hs & _).
  split; try done.
  - rewrite Hm. by apply prefix_app_r.
  - lia.
  - congruence.
Qed.

Lemma evolves_end (now : Z) (context : SessionContext.t) :
  evolves context (after_end now context).
Proof. by split. Qed.

Lemma evolves_after (c : Call) (self : Sarufi.t) (sessionId : string)
    (context : SessionContext.t) :
  JSMap.get sessionId (Sarufi.sessions self) = Some context →
  ¬ starts c sessionId →
  ∃ context',
    JSMap.get sessionId (Sarufi.sessions (after c self)) = Some context'
    ∧ evolves context context'.
Proof.
  intros Hget Hstarts.
  assert (Hsame : ∃ context',
    JSMap.get sessionId (Sarufi.sessions self) = Some context' ∧ evolves context context')
    by (exists context; split; [done|apply evolves_refl]).
  assert (Hend : ∀ k now context0,
    JSMap.get k (Sarufi.sessions self) = Some context0 →
    ∃ context',
      JSMap.get sessionId (Sarufi.sessions (end_state self k now context0)) = Some context'
      ∧ evolves context context').
  { intros k now context0 Hget0. cbn [end_state Sarufi.sessions].
    destruct (decide (k = sessionId)) as [->|Hne].
    - rewrite get_alter_eq, Hget. eexists. split; [reflexivity|].
      replace context0 with context by congruence. apply evolves_end.
    - by rewrite get_alter_ne. }
  destruct c as [strategy|name|userId strategyName initialContext w|sessionId' message w
                 |sessionId' now]; unfold after; cbn [starts] in Hstarts.
  - by rewrite registerStrategy_sessions.
  - by rewrite unregisterStrategy_sessions.
  - destruct (startSession_cases self userId strategyName initialContext w)
      as [[e ->]|(strategy & agent & _ & _ & ->)]; [done|].
    cbn [snd start_state Sarufi.sessions]. rewrite get_set_ne by done.
    destruct (ended_first_cases userId w self)
      as [->|(existing & Hfind & [[_ ->]|(context0 & Hget0 & ->)])]; [done|done|].
    by apply Hend.
  - destruct (sendMessage_cases self sessionId' message w)
      as [[_ ->]|(context0 & Hget0 & [[_ ->]|[(_ & _ & ->)|(agent & Hactive & _ & ->)]])];
      try done.
    cbn [snd turn_state Sarufi.sessions].
    destruct (decide (sessionId' = sessionId)) as [->|Hne].
    + rewrite get_alter_eq, Hget. eexists. split; [reflexivity|].
      replace context0 with context in * by congruence. by apply evolves_turn.
    + by rewrite get_alter_ne.
  - destruct (endSession_cases self sessionId' now) as [[_ ->]|(context0 & Hget0 & ->)];
      [done|].
    by apply Hend.
Qed.

(** X7. Through any sequence of calls that does not start a session under
    the same id, a stored session stays stored; it keeps its id, user,
    strategy name, goal, profile, agent memory and creation time; its message
    history only grows at the end and its message count never goes down; once
    it is not active it never becomes active again, and once completed it
    stays completed. *)
Theorem stored_session_evolves `{Engine} (calls : list Call) (self : Sarufi.t)
    (sessionId : string) (context : SessionContext.t) :
  Sarufi.getSarufiSession sessionId self = Some context →
  Forall (λ c, ¬ starts c sessionId) calls →
  ∃ context',
    Sarufi.getSarufiSession sessionId (perform_all calls self) = Some context'
    ∧ evolves context context'.
Proof.
  unfold Sarufi.getSarufiSession, perform_all.
  revert self context. induction calls as [|c calls IH]; intros self context Hget Hcalls.
  - exists context. split; [done|apply evolves_refl].
  - apply Forall_cons in Hcalls as [Hc Hcalls].
    destruct (evolves_after c self sessionId context Hget Hc) as (context1 & Hget1 & He1).
    rewrite <- perform_sessions in Hget1.
    destruct (IH (perform c self) context1 Hget1 Hcalls) as (context2 & Hget2 & He2).
    exists context2. split; [done|]. by apply (evolves_trans _ context1).
Qed.

Lemma stored_session_evolves_witness :
  ∃ context,
    Sarufi.getSarufiSession "sarufi_sess_100_a" Sample.started = Some context
    ∧ ∃ context',
        Sarufi.getSarufiSession "sarufi_sess_100_a"
          (perform_all (H := Scenario.engine)
             [CallSend "sarufi_sess_100_a" "hello" (Sample.send Sample.answering);
              CallStart "user-1" "Shoe Sales Bot" None Sample.start2;
              CallUnregister "Shoe Sales Bot"] Sample.started)
        = Some context'
        ∧ evolves context context'.
Proof.
  eexists. split; [reflexivity|].
  apply (stored_session_evolves (H := Scenario.engine)
           [CallSend "sarufi_sess_100_a" "hello" (Sample.send Sample.answering);
            CallStart "user-1" "Shoe Sales Bot" None Sample.start2;
            CallUnregister "Shoe Sales Bot"] Sample.started "sarufi_sess_100_a").
  - reflexivity.
  - repeat constructor; cbn; try discriminate; tauto.
Defined.

(** ** Invariants of the stored sessions *)

(** A property that every greeting establishes and every turn and every end
    keeps holds of every stored session. *)
Lemma stored_after (P : SessionContext.t → Prop) (c : Call) (self : Sarufi.t) :
  (∀ agent userId strategyName initialContext w,
     P (after_greeting agent userId strategyName initialContext w)) →
  (∀ agent message w context,
     P context → SessionContext.status context = Status.active →
     P (after_turn agent message w context)) →
  (∀ now context, P context → P (after_end now context)) →
  (∀ sessionId context,
     JSMap.get sessionId (Sarufi.sessions self) = Some context → P context) →
  ∀ sessionId context,
    JSMap.get sessionId (Sarufi.sessions (after c self)) = Some context → P context.
Proof.
  intros Hgreeting Hturn Hend IH.
  assert (Hended : ∀ k now context0 sessionId context,
    JSMap.get k (Sarufi.sessions self) = Some context0 →
    JSMap.get sessionId (Sarufi.sessions (end_state self k now context0)) = Some context →
    P context).
  { intros k now context0 sessionId context Hget0. cbn [end_state Sarufi.sessions].
    destruct (decide (k = sessionId)) as [->|Hne].
    - rewrite get_alter_eq, Hget0. intros [= <-]. apply Hend. by apply (IH sessionId).
    - rewrite get_alter_ne by done. apply IH. }
  intros sessionId context.
  destruct c as [strategy|name|userId strategyName initialContext w|sessionId' message w
                 |sessionId' now]; unfold after.
  - rewrite registerStrategy_sessions. apply IH.
  - rewrite unregisterStrategy_sessions. apply IH.
  - destruct (startSession_cases self userId strategyName initialContext w)
      as [[e ->]|(strategy & agent & _ & _ & ->)]; [apply IH|].
    cbn [snd start_state Sarufi.sessions].
    destruct (decide (StartWorld.session_id w = sessionId)) as [<-|Hne].
    + rewrite get_set_eq. intros [= <-]. apply Hgreeting.
    + rewrite get_set_ne by done.
      destruct (ended_first_cases userId w self)
        as [->|(existing & Hfind & [[_ ->]|(context0 & Hget0 & ->)])];
        [apply IH|apply IH|by apply Hended].
  - destruct (sendMessage_cases self sessionId' message w)
      as [[_ ->]|(context0 & Hget0 & [[_ ->]|[(_ & _ & ->)|(agent & Hactive & _ & ->)]])];
      try apply IH.
    cbn [snd turn_state Sarufi.sessions].
    destruct (decide (sessionId' = sessionId)) as [->|Hne].
    + rewrite get_alter_eq, Hget0. intros [= <-]. apply Hturn; [|done].
      by apply (IH sessionId).
    + rewrite get_alter_ne by done. apply IH.
  - destruct (endSession_cases self sessionId' now) as [[_ ->]|(context0 & Hget0 & ->)];
      [apply IH|by apply Hended].
Qed.

Lemma stored_invariant `{Engine} (P : SessionContext.t → Prop) :
  (∀ agent userId strategyName initialContext w,
     P (after_greeting agent userId strategyName initialContext w)) →
  (∀ agent message w context,
     P context → SessionContext.status context = Status.active →
     P (after_turn agent message w context)) →
  (∀ now context, P context → P (after_end now context)) →
  ∀ self, attainable self →
  ∀ sessionId context, JSMap.get sessionId (Sarufi.sessions self) = Some context → P context.
Proof.
  intros Hgreeting Hturn Hend self Hself.
  induction Hself as [|self c _ IH]; [done|].
  rewrite perform_sessions. by apply stored_after.
Qed.

Lemma concat_replicate_snoc {A : Type} (n : nat) (l : list A) :
  concat (replicate (S n) l) = concat (replicate n l) ++ l.
Proof.
  induction n as [|n IH]; [simpl; by rewrite app_nil_r|].
  change (l ++ concat (replicate (S n) l) = (l ++ concat (replicate n l)) ++ l).
  by rewrite IH, app_assoc.
Qed.

(** X8. In every instance that calls produce, the history of a stored
    session is the assistant's greeting followed by pairs of a user message and
    an assistant message, and [messages_count] counts the messages of the pairs:
    it is even and one less than the length of the history. *)
Theorem history_shape `{Engine} (self : Sarufi.t) (sessionId : string) (context : SessionContext.t) :
  attainable self →
  Sarufi.getSarufiSession sessionId self = Some context →
  ∃ turns : nat,
    Message.role <$> SessionContext.messages context
    = Role.assistant :: concat (replicate turns [Role.user; Role.assistant])
    ∧ SessionContext.messages_count context = (2 * Z.of_nat turns)%Z
    ∧ Z.of_nat (length (SessionContext.messages context))
      = (SessionContext.messages_count context + 1)%Z.
Proof.
  intros Hreach. revert sessionId context.
  apply (stored_invariant (λ context, ∃ turns : nat,
    Message.role <$> SessionContext.messages context
    = Role.assistant :: concat (replicate turns [Role.user; Role.assistant])
    ∧ SessionContext.messages_count context = (2 * Z.of_nat turns)%Z
    ∧ Z.of_nat (length (SessionContext.messages context))
      = (SessionContext.messages_count context + 1)%Z)); [| | |done].
  - intros. by exists 0%nat.
  - intros agent message w context (turns & Hroles & Hcount & Hlen) _.
    destruct (after_turn_fields agent message w context)
      as (_ & _ & _ & _ & _ & _ & _ & -> & -> & _).
    exists (S turns). rewrite fmap_app, Hroles, concat_replicate_snoc, length_app.
    cbn [fmap list_fmap Message.role user_message assistant_message length].
    split; [done|]. lia.
  - intros now context Hcontext. exact Hcontext.
Qed.

Lemma history_shape_witness :
  ∃ context,
    Sarufi.getSarufiSession "sarufi_sess_100_a" Scenario.answered = Some context
    ∧ ∃ turns : nat,
        Message.role <$> SessionContext.messages context
        = Role.assistant :: concat (replicate turns [Role.user; Role.assistant])
        ∧ SessionContext.messages_count context = (2 * Z.of_nat turns)%Z
        ∧ Z.of_nat (length (SessionContext.messages context))
          = (SessionContext.messages_count context + 1)%Z.
Proof.
  eexists. split; [reflexivity|].
  apply (history_shape (H := Scenario.engine) Scenario.answered "sarufi_sess_100_a").
  - attained.
  - reflexivity.
Defined.

(** X9. The session's own [current_goal], its user profile and its agent
    memory are written when the session is created and by nothing else: in
    every instance that calls can produce, a stored session has the goal
    [initial_engagement], the empty profile and the memory of a session just
    started.  The goal a decision names goes to the free-form inputs only, so
    the [previous_goal] the interpreter derives for such a session is always
    [initial_engagement]. *)
Theorem session_goal_never_advances `{Engine} (self : Sarufi.t) (sessionId : string)
    (context : SessionContext.t) :
  attainable self →
  Sarufi.getSarufiSession sessionId self = Some context →
  SessionContext.current_goal context = "initial_engagement"
  ∧ SessionContext.user_profile context = UserProfile.empty
  ∧ AgentMemory.last_action (SessionContext.agent_memory context) = "session_started"
  ∧ AgentMemory.reasoning_history (SessionContext.agent_memory context) = []
  ∧ ∀ decision message w,
      let updates :=
        AgentResponse.context_updates
          (Agent.interpretDecision decision message (heard message w context)
             (SendWorld.turn w)) in
      updates !! "previous_goal" = Some (VString "initial_engagement")
      ∧ updates !! "current_goal"
        = Some (VString (ActionExecution.next_goal (Decision.action_execution decision))).
Proof.
  intros Hreach Hget.
  assert (Hfields :
    SessionContext.current_goal context = "initial_engagement"
    ∧ SessionContext.user_profile context = UserProfile.empty
    ∧ AgentMemory.last_action (SessionContext.agent_memory context) = "session_started"
    ∧ AgentMemory.reasoning_history (SessionContext.agent_memory context) = []).
  { revert sessionId context Hget.
    apply (stored_invariant (λ context,
      SessionContext.current_goal context = "initial_engagement"
      ∧ SessionContext.user_profile context = UserProfile.empty
      ∧ AgentMemory.last_action (SessionContext.agent_memory context) = "session_started"
      ∧ AgentMemory.reasoning_history (SessionContext.agent_memory context) = []));
      [done| |done|done].
    intros agent message w context Hcontext _.
    destruct (after_turn_fields agent message w context)
      as (_ & _ & _ & -> & _ & -> & -> & _).
    exact Hcontext. }
  destruct Hfields as (Hgoal & Hprofile & Haction & Hhistory).
  repeat (split; [done|]).
  intros decision message w. cbv zeta.
  cbn [Agent.interpretDecision AgentResponse.context_updates].
  pose proof (derived_properties_NoDup decision message (heard message w context)
                (SendWorld.turn w)) as Hnd.
  split; apply with_properties_lookup; try done; unfold Agent.derived_properties.
  - replace (SessionContext.current_goal (heard message w context))
      with "initial_engagement" by (by rewrite <- Hgoal). set_solver.
  - set_solver.
Qed.

Lemma session_goal_never_advances_witness :
  ∃ context,
    Sarufi.getSarufiSession "sarufi_sess_100_a" Scenario.answered = Some context
    ∧ SessionContext.current_goal context = "initial_engagement"
    ∧ SessionContext.user_inputs context !! "current_goal" = Some (VString "discover_needs")
    ∧ ∀ decision message w,
        AgentResponse.context_updates
          (Agent.interpretDecision decision message (heard message w context)
             (SendWorld.turn w)) !! "previous_goal"
        = Some (VString "initial_engagement").
Proof.
  eexists. split; [reflexivity|].
  pose proof (session_goal_never_advances (H := Scenario.engine) Scenario.answered
                "sarufi_sess_100_a" _ ltac:(attained) eq_refl)
    as (Hgoal & _ & _ & _ & Hupdates).
  split; [exact Hgoal|]. split; [vm_compute; reflexivity|].
  intros decision message w. apply Hupdates.
Defined.

(** ** The builder *)

Lemma register_each_acceptable `{Engine} (strategies : list Strategy.t) (self : Sarufi.t) :
  Forall acceptable strategies →
  ∃ self',
    Builder.register_each strategies self = (Returned (), self')
    ∧ Sarufi.sessions self' = Sarufi.sessions self
    ∧ Sarufi.sessionStats self' = Sarufi.sessionStats self
    ∧ (attainable self → attainable self')
    ∧ ∀ name,
        Sarufi.getStrategy name self'
        = from_option Some (Sarufi.getStrategy name self) (last_named name strategies)
        ∧ JSMap.get name (Sarufi.agents self')
          = from_option (Some ∘ Agent.new) (JSMap.get name (Sarufi.agents self))
              (last_named name strategies).
Proof.
  revert self. induction strategies as [|strategy strategies IH]; intros self Hall.
  - exists self. done.
  - apply Forall_cons in Hall as [[Hc Hm] Hall].
    cbn [Builder.register_each]. run.
    rewrite WithModel_registerStrategy_constructible, registerStrategy_complete by done.
    destruct (IH {| Sarufi.strategies :=
                      JSMap.set (Strategy.name strategy) strategy (Sarufi.strategies self);
                    Sarufi.sessions := Sarufi.sessions self;
                    Sarufi.agents :=
                      JSMap.set (Strategy.name strategy) (Agent.new strategy)
                        (Sarufi.agents self);
                    Sarufi.sessionStats := Sarufi.sessionStats self |} Hall)
      as (self' & -> & Hsessions & Hstats & Hattainable & Hnames).
    exists self'. split; [done|]. split; [done|]. split; [done|]. split.
    { intros Hself. apply Hattainable.
      replace {| Sarufi.strategies := _; Sarufi.sessions := _; Sarufi.agents := _;
                 Sarufi.sessionStats := _ |}
        with (perform (CallRegister strategy) self); [by constructor|].
      unfold perform.
      by rewrite WithModel_registerStrategy_constructible, registerStrategy_complete. }
    intros name. destruct (Hnames name) as [-> ->].
    unfold last_named, Sarufi.getStrategy. cbn [Sarufi.strategies Sarufi.agents].
    rewrite filter_cons. destruct (decide (Strategy.name strategy = name)) as [<-|Hne].
    + rewrite !get_set_eq.
      destruct (filter _ strategies) as [|s l] eqn:Hf; [done|].
      rewrite last_cons_cons.
      destruct (last (s :: l)) eqn:Hl; [done|by apply last_None in Hl].
    + by rewrite !get_set_ne.
Qed.

Lemma register_each_app `{Engine} (l1 l2 : list Strategy.t) (self : Sarufi.t) :
  Builder.register_each (l1 ++ l2) self
  = match Builder.register_each l1 self with
    | (Returned _, self') => Builder.register_each l2 self'
    | (Threw e, self') => (Threw e, self')
    end.
Proof.
  revert self. induction l1 as [|strategy l1 IH]; intros self; [done|].
  cbn [app Builder.register_each]. run.
  destruct (WithModel.registerStrategy strategy self) as [[[]|e] self']; [apply IH|done].
Qed.

(** X12. [build] registers the builder's strategies in order and stops at
    the first one that is rejected.  While the strategies are acceptable
    (complete, with an agent that can be constructed) each is stored with its
    agent, a later one replacing an earlier one of the same name; names that no
    strategy of the builder bears keep what the system had, and sessions and
    counters are untouched.  If all are acceptable the call returns the system;
    if the next one is incomplete the call throws, the strategies before it
    stay registered and the ones after it are not looked at.  The system stays
    one that calls produce. *)
Theorem build_outcome `{Engine} (builder : Builder.t) (accepted remaining : list Strategy.t) :
  Builder.strategies builder = accepted ++ remaining →
  Forall acceptable accepted →
  match remaining with
  | [] => True
  | rejected :: _ => ¬ complete rejected
  end →
  ∃ outcome system',
    Builder.build builder
    = (outcome,
       {| Builder.system := system'; Builder.strategies := Builder.strategies builder |})
    ∧ match remaining with
      | [] => outcome = Returned system'
      | _ :: _ => ∃ message, outcome = Threw (ErrorObject message)
      end
    ∧ Sarufi.sessions system' = Sarufi.sessions (Builder.system builder)
    ∧ Sarufi.sessionStats system' = Sarufi.sessionStats (Builder.system builder)
    ∧ (attainable (Builder.system builder) → attainable system')
    ∧ ∀ name,
        match last_named name accepted with
        | Some strategy =>
            Sarufi.getStrategy name system' = Some strategy
            ∧ JSMap.get name (Sarufi.agents system') = Some (Agent.new strategy)
        | None =>
            Sarufi.getStrategy name system' = Sarufi.getStrategy name (Builder.system builder)
            ∧ JSMap.get name (Sarufi.agents system')
              = JSMap.get name (Sarufi.agents (Builder.system builder))
        end.
Proof.
  intros Hstrategies Haccepted Hrejected.
  destruct (register_each_acceptable accepted (Builder.system builder) Haccepted)
    as (system' & Hregister & Hsessions & Hstats & Hattainable & Hnames).
  assert (Hfacts : ∀ name,
    match last_named name accepted with
    | Some strategy =>
        Sarufi.getStrategy name system' = Some strategy
        ∧ JSMap.get name (Sarufi.agents system') = Some (Agent.new strategy)
    | None =>
        Sarufi.getStrategy name system' = Sarufi.getStrategy name (Builder.system builder)
        ∧ JSMap.get name (Sarufi.agents system')
          = JSMap.get name (Sarufi.agents (Builder.system builder))
    end).
  { intros name. destruct (Hnames name) as [-> ->]. by destruct (last_named name accepted). }
  unfold Builder.build. rewrite Hstrategies, register_each_app, Hregister.
  destruct remaining as [|rejected rest].
  - exists (Returned system'), system'. done.
  - destruct (WithModel_registerStrategy_incomplete rejected system' Hrejected)
      as [message Hthrows].
    cbn [Builder.register_each]. run. rewrite Hthrows.
    exists (Threw (ErrorObject message)), system'.
    split; [done|]. split; [by exists message|]. done.
Qed.

Lemma build_outcome_witness :
  ∃ outcome system',
    Builder.build (H := Scenario.engine)
      (Builder.withStrategy Scenario.incomplete (Builder.withStrategy Sample.bot createBuilder))
    = (outcome,
       {| Builder.system := system';
          Builder.strategies := [Sample.bot; Scenario.incomplete] |})
    ∧ (∃ message, outcome = Threw (ErrorObject message))
    ∧ Sarufi.sessions system' = []
    ∧ Sarufi.sessionStats system' = SessionStats.zero
    ∧ (attainable (H := Scenario.engine) Sarufi.new → attainable (H := Scenario.engine) system')
    ∧ ∀ name,
        match last_named name [Sample.bot] with
        | Some strategy =>
            Sarufi.getStrategy name system' = Some strategy
            ∧ JSMap.get name (Sarufi.agents system') = Some (Agent.new strategy)
        | None =>
            Sarufi.getStrategy name system' = None
            ∧ JSMap.get name (Sarufi.agents system') = None
        end.
Proof.
  apply (build_outcome (H := Scenario.engine)
           (Builder.withStrategy Scenario.incomplete
              (Builder.withStrategy Sample.bot createBuilder))
           [Sample.bot] [Scenario.incomplete]).
  - reflexivity.
  - repeat constructor; try discriminate; by vm_compute; eexists.
  - vm_compute. intros (_ & _ & _ & _ & [? [=]]).
Defined.

(** X13. [createCustomSarufiSystem] returns a system that holds the strategy
    and its agent and nothing else, provided the strategy is complete and its
    agent can be constructed; the system is then one that calls produce.  For
    an incomplete strategy it throws, and so it does when [getLanguageModel]
    throws. *)
Theorem createCustomSarufiSystem_outcome `{Engine} (strategy : Strategy.t) :
  (acceptable strategy →
   createCustomSarufiSystem strategy
   = Returned
       {| Sarufi.strategies := [(Strategy.name strategy, strategy)];
          Sarufi.sessions := [];
          Sarufi.agents := [(Strategy.name strategy, Agent.new strategy)];
          Sarufi.sessionStats := SessionStats.zero |}
   ∧ attainable
       {| Sarufi.strategies := [(Strategy.name strategy, strategy)];
          Sarufi.sessions := [];
          Sarufi.agents := [(Strategy.name strategy, Agent.new strategy)];
          Sarufi.sessionStats := SessionStats.zero |})
  ∧ (¬ acceptable strategy →
     ∃ message, createCustomSarufiSystem strategy = Threw (ErrorObject message)).
Proof.
  unfold createCustomSarufiSystem, createBuilder, Builder.build, Builder.withStrategy,
    Builder.new, acceptable.
  cbn [Builder.strategies Builder.system app Builder.register_each]. run. split.
  - intros [Hc Hm].
    assert (Hregister : WithModel.registerStrategy strategy Sarufi.new
      = (Returned (),
         {| Sarufi.strategies := [(Strategy.name strategy, strategy)];
            Sarufi.sessions := [];
            Sarufi.agents := [(Strategy.name strategy, Agent.new strategy)];
            Sarufi.sessionStats := SessionStats.zero |}))
      by (by rewrite WithModel_registerStrategy_constructible, registerStrategy_complete).
    rewrite Hregister. split; [done|].
    replace {| Sarufi.strategies := _; Sarufi.sessions := _; Sarufi.agents := _;
               Sarufi.sessionStats := _ |}
      with (perform (CallRegister strategy) Sarufi.new); [repeat constructor|].
    unfold perform. by rewrite Hregister.
  - intros Hnot. destruct (decide (complete strategy)) as [Hc|Hc].
    + rewrite WithModel_registerStrategy_unconstructible by tauto. by eexists.
    + destruct (WithModel_registerStrategy_incomplete strategy Sarufi.new Hc) as [m ->].
      by eexists.
Qed.

(** ** The retrieval middleware *)

Lemma instruction_findSources (text : string) :
  instruction (findSources text) = retrieval_note text.
Proof. reflexivity. Qed.

Section middleware_facts.
Context {Part Rest Other ParamsRest : Type}.
Variable Part_toString : Part → string.
Implicit Types (msg : Msg.t Part Rest) (params : Params.t Part Rest Other ParamsRest).

Lemma find_skip {A : Type} (P : A → bool) (l r : list A) :
  Forall (λ x, P x = false) l → List.find P (l ++ r) = List.find P r.
Proof.
  induction 1 as [|x l Hx _ IH]; [done|]. cbn [app List.find]. by rewrite Hx.
Qed.

Lemma Content_template_toString (content : Content Part) (text : string) :
  Content_toString Part_toString content = Some text →
  Content_template Part_toString content = text.
Proof. destruct content; cbn; congruence. Qed.

Lemma addToLastUserMessage_last params (earlier : list (Msg.t Part Rest)) final
    (text : string) :
  Params.prompt params = PromptArray (earlier ++ [final]) →
  addToLastUserMessage Part_toString params text
  = {| Params.prompt :=
         PromptArray
           (earlier
            ++ [if String.eqb (Msg.role final) "user"
                then {| Msg.role := Msg.role final;
                        Msg.content :=
                          CString (Content_template Part_toString (Msg.content final)
                                   +:+ LF +:+ LF +:+ text);
                        Msg.rest := Msg.rest final |}
                else final]);
       Params.rest := Params.rest params |}.
Proof.
  intros Hprompt. unfold addToLastUserMessage. rewrite Hprompt. cbv zeta. do 2 f_equal.
  rewrite imap_app. f_equal.
  - rewrite <- (list_fmap_id earlier) at 2. rewrite <- (imap_const id).
    apply imap_ext. intros i msg Hi. apply lookup_lt_Some in Hi.
    rewrite length_app. cbn [length].
    replace (i =? length earlier + 1 - 1)%nat with false
      by (symmetry; apply Nat.eqb_neq; lia).
    by rewrite andb_false_r.
  - cbn [imap]. rewrite length_app. cbn [length].
    replace (length earlier + 0 =? length earlier + 1 - 1)%nat with true
      by (symmetry; apply Nat.eqb_eq; lia).
    by rewrite andb_true_r.
Qed.

Lemma params_eta params :
  {| Params.prompt := Params.prompt params; Params.rest := Params.rest params |} = params.
Proof. by destruct params. Qed.

(** X14. [RagMiddleware.transformParams] rewrites the last message of the
    prompt, and only if it is a user message with a content: the content
    becomes a string, the old content converted to a string followed by the
    note with the two documents retrieved for it; every other message, the
    role and further properties of the last one, and the other parameters are
    kept.  If the last message is not a user message nothing is attached, also
    when an earlier user message gave a query; a prompt that is empty or no
    array is returned as it is. *)
Theorem transformParams_outcome params :
  (∀ earlier final,
     Params.prompt params = PromptArray (earlier ++ [final]) →
     RagMiddleware.transformParams Part_toString params
     = if String.eqb (Msg.role final) "user"
       then match Content_toString Part_toString (Msg.content final) with
            | Some text =>
                {| Params.prompt := PromptArray (earlier ++ [with_note text final]);
                   Params.rest := Params.rest params |}
            | None => params
            end
       else params)
  ∧ (Params.prompt params = PromptArray [] →
     RagMiddleware.transformParams Part_toString params = params)
  ∧ (∀ value, Params.prompt params = PromptOther value →
     RagMiddleware.transformParams Part_toString params = params).
Proof.
  unfold RagMiddleware.transformParams. split; [|split].
  - intros earlier final Hprompt. cbv zeta.
    destruct (String.eqb (Msg.role final) "user") eqn:Hrole.
    + unfold getLastUserMessageText. rewrite Hprompt, reverse_snoc.
      cbn [List.find]. rewrite Hrole.
      destruct (Content_toString Part_toString (Msg.content final)) as [text|] eqn:Htext;
        [|done].
      rewrite (addToLastUserMessage_last _ _ _ _ Hprompt), Hrole.
      by rewrite (Content_template_toString _ _ Htext), instruction_findSources.
    + destruct (getLastUserMessageText Part_toString (Params.prompt params)); [|done].
      rewrite (addToLastUserMessage_last _ _ _ _ Hprompt), Hrole, <- Hprompt.
      apply params_eta.
  - intros Hprompt. by rewrite Hprompt.
  - intros value Hprompt. by rewrite Hprompt.
Qed.

(** X15. [getLastUserMessageText] gives the content of the last message with
    role [user], wherever it stands in the prompt, converted to a string: a
    string content as it is, and an array of parts as the strings of the parts
    joined with commas, so for parts that are plain objects not the text they
    carry.  Without a user message, and for a user message without content,
    it gives [null]. *)
Theorem getLastUserMessageText_finds_last (before after : list (Msg.t Part Rest)) msg :
  Msg.role msg = "user" →
  Forall (λ later, Msg.role later ≠ "user") after →
  getLastUserMessageText Part_toString (PromptArray (Other := Other) (before ++ msg :: after))
  = match Msg.content msg with
    | CUndefined | CNull => None
    | CString s => Some s
    | CParts parts => Some (String.concat "," (Part_toString <$> parts))
    end.
Proof.
  intros Hrole Hafter. unfold getLastUserMessageText.
  rewrite reverse_app, reverse_cons, <- app_assoc. rewrite find_skip.
  - cbn [app List.find]. rewrite Hrole. cbn. by destruct (Msg.content msg).
  - apply Forall_reverse. eapply Forall_impl; [exact Hafter|].
    intros later Hlater. by apply String.eqb_neq.
Qed.

End middleware_facts.

Lemma getLastUserMessageText_finds_last_witness :
  getLastUserMessageText (Other := unit) (λ _ : unit, "[object Object]")
    (PromptArray
       ([{| Msg.role := "system"; Msg.content := CString "Be brief."; Msg.rest := () |}]
        ++ {| Msg.role := "user"; Msg.content := CParts [(); ()]; Msg.rest := () |}
        :: [{| Msg.role := "assistant"; Msg.content := CParts [()]; Msg.rest := () |}]))
  = Some "[object Object],[object Object]".
Proof.
  apply (getLastUserMessageText_finds_last (Other := unit) (λ _ : unit, "[object Object]")
           [{| Msg.role := "system"; Msg.content := CString "Be brief."; Msg.rest := () |}]
           [{| Msg.role := "assistant"; Msg.content := CParts [()]; Msg.rest := () |}]
           {| Msg.role := "user"; Msg.content := CParts [(); ()]; Msg.rest := () |}).
  - reflexivity.
  - repeat constructor. discriminate.
Defined.

(** ** The decision of a turn *)

Lemma find_first {A : Type} (P : A → bool) (before after : list A) (x : A) :
  Forall (λ y, P y = false) before → P x = true →
  List.find P (before ++ x :: after) = Some x.
Proof.
  intros Hbefore Hx. induction Hbefore as [|y before Hy _ IH]; cbn [app List.find].
  - by rewrite Hx.
  - by rewrite Hy.
Qed.

(** X16. [processPrompt] answers from the first call of the [answer] tool in
    the round and from nothing else: the calls of other tools before it, and
    every call after it (a second [answer] included), are ignored.  When the
    input of that call is a decision, the response is the interpretation of
    that decision. *)
Theorem processPrompt_first_answer (agent : Agent.t) (prompt : string)
    (context : SessionContext.t) (w : Turn.t) (before after : list ToolCall.t)
    (decisionCall : ToolCall.t) (decision : Decision.t) :
  Turn.round w = OracleReturns (before ++ decisionCall :: after) →
  Forall (λ call, ToolCall.toolName call ≠ "answer") before →
  ToolCall.toolName decisionCall = "answer" →
  ToolCall.input decisionCall = Conforming decision →
  Agent.processPrompt agent prompt context w
  = Agent.interpretDecision decision prompt context w.
Proof.
  intros Hround Hbefore Hname Hinput.
  assert (Hfind :
    List.find (λ call, String.eqb (ToolCall.toolName call) "answer")
      (before ++ decisionCall :: after) = Some decisionCall).
  { apply find_first; [|by apply String.eqb_eq].
    eapply Forall_impl; [exact Hbefore|]. intros call Hcall. by apply String.eqb_neq. }
  apply processPrompt_decides. by exists (before ++ decisionCall :: after), decisionCall.
Qed.

Lemma processPrompt_first_answer_witness :
  Agent.processPrompt (Agent.new Sample.bot) "hello"
    (Sarufi.new_context "user-1" "Shoe Sales Bot" None Sample.start1)
    Scenario.two_answers
  = Agent.interpretDecision Sample.decision "hello"
      (Sarufi.new_context "user-1" "Shoe Sales Bot" None Sample.start1)
      Scenario.two_answers.
Proof.
  apply (processPrompt_first_answer (Agent.new Sample.bot) "hello"
           (Sarufi.new_context "user-1" "Shoe Sales Bot" None Sample.start1)
           Scenario.two_answers
           [{| ToolCall.toolName := "getProductInfo";
               ToolCall.input := Malformed (OtherValue None) |}]
           [{| ToolCall.toolName := "answer";
               ToolCall.input := Conforming Sample.poor_decision |}]
           {| ToolCall.toolName := "answer"; ToolCall.input := Conforming Sample.decision |}
           Sample.decision).
  - reflexivity.
  - repeat constructor. discriminate.
  - reflexivity.
  - reflexivity.
Defined.
